(** * melonDS real-time clock (src/RTC.cpp): shallow embedding and properties

    The module state of RTC.cpp (the serial session, the register file
    [State] and the clock timer) is embedded as records over [Z], with the
    wrap-around of the fixed-width C++ integer types written out.  Every
    function of the source that the properties below talk about is
    translated statement by statement and keeps its source name. *)

From Stdlib Require Import ZArith Lia Bool List.
From stdpp Require Import base numbers list.

Local Open Scope Z_scope.

(** ** Fixed-width integers *)

(** Truncation to the unsigned C++ types [u8] and [u32]. *)
Definition u8 (x : Z) : Z := x mod 256.
Definition u32 (x : Z) : Z := x mod 4294967296.

(** Two's-complement wrap-around into the signed type [s32]. *)
Definition s32 (x : Z) : Z := (x + 2147483648) mod 4294967296 - 2147483648.

(** C++ truth value of an integer expression used as a condition. *)
Definition nonzero (x : Z) : bool := negb (x =? 0).

(** ** The register file

    [StateData] is declared in RTC.h, which is not part of the sources at
    hand; the record lists the members that RTC.cpp reads and writes, with
    the array lengths that its [memcpy] calls and index guards use. *)

(** Modelled from the spec: the declaration of [StateData] (RTC.h).  All
    members are bytes except [MinuteCount], which the spec describes as a
    24-bit free-running counter. *)
Record StateData : Type := mkStateData {
  StatusReg1 : Z;
  StatusReg2 : Z;
  DateTime : list Z;       (* u8 DateTime[7] *)
  Alarm1 : list Z;         (* u8 Alarm1[3] *)
  Alarm2 : list Z;         (* u8 Alarm2[3] *)
  ClockAdjust : Z;
  FreeReg : Z;
  MinuteCount : Z;
  FOUT1 : Z;
  FOUT2 : Z;
  AlarmDate1 : list Z;     (* u8 AlarmDate1[3] *)
  AlarmDate2 : list Z      (* u8 AlarmDate2[3] *)
}.

(** Width of [MinuteCount] (see the comment on [StateData]). *)
Definition MinuteCount_wrap (x : Z) : Z := x mod 16777216.

Definition set_StatusReg1 (v : Z) (s : StateData) : StateData :=
  mkStateData v (StatusReg2 s) (DateTime s) (Alarm1 s) (Alarm2 s)
    (ClockAdjust s) (FreeReg s) (MinuteCount s) (FOUT1 s) (FOUT2 s)
    (AlarmDate1 s) (AlarmDate2 s).
Definition set_StatusReg2 (v : Z) (s : StateData) : StateData :=
  mkStateData (StatusReg1 s) v (DateTime s) (Alarm1 s) (Alarm2 s)
    (ClockAdjust s) (FreeReg s) (MinuteCount s) (FOUT1 s) (FOUT2 s)
    (AlarmDate1 s) (AlarmDate2 s).
Definition set_DateTime (v : list Z) (s : StateData) : StateData :=
  mkStateData (StatusReg1 s) (StatusReg2 s) v (Alarm1 s) (Alarm2 s)
    (ClockAdjust s) (FreeReg s) (MinuteCount s) (FOUT1 s) (FOUT2 s)
    (AlarmDate1 s) (AlarmDate2 s).
Definition set_Alarm1 (v : list Z) (s : StateData) : StateData :=
  mkStateData (StatusReg1 s) (StatusReg2 s) (DateTime s) v (Alarm2 s)
    (ClockAdjust s) (FreeReg s) (MinuteCount s) (FOUT1 s) (FOUT2 s)
    (AlarmDate1 s) (AlarmDate2 s).
Definition set_Alarm2 (v : list Z) (s : StateData) : StateData :=
  mkStateData (StatusReg1 s) (StatusReg2 s) (DateTime s) (Alarm1 s) v
    (ClockAdjust s) (FreeReg s) (MinuteCount s) (FOUT1 s) (FOUT2 s)
    (AlarmDate1 s) (AlarmDate2 s).
Definition set_ClockAdjust (v : Z) (s : StateData) : StateData :=
  mkStateData (StatusReg1 s) (StatusReg2 s) (DateTime s) (Alarm1 s) (Alarm2 s)
    v (FreeReg s) (MinuteCount s) (FOUT1 s) (FOUT2 s)
    (AlarmDate1 s) (AlarmDate2 s).
Definition set_FreeReg (v : Z) (s : StateData) : StateData :=
  mkStateData (StatusReg1 s) (StatusReg2 s) (DateTime s) (Alarm1 s) (Alarm2 s)
    (ClockAdjust s) v (MinuteCount s) (FOUT1 s) (FOUT2 s)
    (AlarmDate1 s) (AlarmDate2 s).
Definition set_MinuteCount (v : Z) (s : StateData) : StateData :=
  mkStateData (StatusReg1 s) (StatusReg2 s) (DateTime s) (Alarm1 s) (Alarm2 s)
    (ClockAdjust s) (FreeReg s) v (FOUT1 s) (FOUT2 s)
    (AlarmDate1 s) (AlarmDate2 s).
Definition set_FOUT1 (v : Z) (s : StateData) : StateData :=
  mkStateData (StatusReg1 s) (StatusReg2 s) (DateTime s) (Alarm1 s) (Alarm2 s)
    (ClockAdjust s) (FreeReg s) (MinuteCount s) v (FOUT2 s)
    (AlarmDate1 s) (AlarmDate2 s).
Definition set_FOUT2 (v : Z) (s : StateData) : StateData :=
  mkStateData (StatusReg1 s) (StatusReg2 s) (DateTime s) (Alarm1 s) (Alarm2 s)
    (ClockAdjust s) (FreeReg s) (MinuteCount s) (FOUT1 s) v
    (AlarmDate1 s) (AlarmDate2 s).
Definition set_AlarmDate1 (v : list Z) (s : StateData) : StateData :=
  mkStateData (StatusReg1 s) (StatusReg2 s) (DateTime s) (Alarm1 s) (Alarm2 s)
    (ClockAdjust s) (FreeReg s) (MinuteCount s) (FOUT1 s) (FOUT2 s)
    v (AlarmDate2 s).
Definition set_AlarmDate2 (v : list Z) (s : StateData) : StateData :=
  mkStateData (StatusReg1 s) (StatusReg2 s) (DateTime s) (Alarm1 s) (Alarm2 s)
    (ClockAdjust s) (FreeReg s) (MinuteCount s) (FOUT1 s) (FOUT2 s)
    (AlarmDate1 s) v.

(** [State.DateTime[i]] and [State.DateTime[i] = v].  The source only
    indexes [DateTime] with constants below 7. *)
Definition dt (s : StateData) (i : nat) : Z := DateTime s !!! i.
Definition set_dt (i : nat) (v : Z) (s : StateData) : StateData :=
  set_DateTime (<[i := v]> (DateTime s)) s.

(** ** BCD helpers (RTC.cpp lines 111-136) *)

Definition BCD (val : Z) : Z :=
  u8 (Z.lor (val mod 10) (Z.shiftl (val / 10) 4)).

Definition BCDIncrement (val : Z) : Z :=
  let val := u8 (val + 1) in
  let val := if Z.land val 0x0F >=? 0x0A then u8 (val + 0x06) else val in
  let val := if Z.land val 0xF0 >=? 0xA0 then u8 (val + 0x60) else val in
  val.

Definition BCDSanitize (val vmin vmax : Z) : Z :=
  if (val <? vmin) || (val >? vmax) then vmin
  else if Z.land val 0x0F >=? 0x0A then vmin
  else if Z.land val 0xF0 >=? 0xA0 then vmin
  else val.

(** ** Calendar (RTC.cpp lines 236-374) *)

(** [memset(&State, 0, sizeof(State))] followed by the two assignments. *)
Definition ResetState : StateData :=
  let zero :=
    mkStateData 0 0 [0; 0; 0; 0; 0; 0; 0] [0; 0; 0] [0; 0; 0]
                0 0 0 0 0 [0; 0; 0] [0; 0; 0] in
  set_dt 2 1 (set_dt 1 1 zero).

Definition DaysInMonth (s : StateData) : Z :=
  match dt s 1 with
  | 0x01 | 0x03 | 0x05 | 0x07 | 0x08 | 0x10 | 0x12 => 0x31
  | 0x04 | 0x06 | 0x09 | 0x11 => 0x30
  | 0x02 =>
      let year := dt s 0 in
      let year := Z.land year 0xF + Z.shiftr year 4 * 10 in
      if negb (nonzero (Z.land year 3)) then 0x29 else 0x28
  | _ => 0
  end.

Definition CountYear (s : StateData) : StateData :=
  set_dt 0 (BCDIncrement (dt s 0)) s.

Definition CountMonth (s : StateData) : StateData :=
  let s := set_dt 1 (BCDIncrement (dt s 1)) s in
  if dt s 1 >? 0x12 then CountYear (set_dt 1 1 s) else s.

Definition CheckEndOfMonth (s : StateData) : StateData :=
  if dt s 2 >? DaysInMonth s then CountMonth (set_dt 2 1 s) else s.

Definition CountDay (s : StateData) : StateData :=
  (* day-of-week counter *)
  let s := set_dt 3 (u8 (dt s 3 + 1)) s in
  let s := if dt s 3 >=? 7 then set_dt 3 0 s else s in
  (* day counter *)
  let s := set_dt 2 (BCDIncrement (dt s 2)) s in
  CheckEndOfMonth s.

Definition CountHour (s : StateData) : StateData :=
  let hour := BCDIncrement (Z.land (dt s 4) 0x3F) in
  let pm := Z.land (dt s 4) 0x40 in
  if nonzero (Z.land (StatusReg1 s) (Z.shiftl 1 1)) then
    (* 24-hour mode *)
    let '(hour, s) :=
      if hour >=? 0x24 then (0, CountDay s) else (hour, s) in
    let pm := if hour >=? 0x12 then 0x40 else 0 in
    set_dt 4 (Z.lor hour pm) s
  else
    (* 12-hour mode *)
    let '(hour, pm, s) :=
      if hour >=? 0x12
      then (0, Z.lxor pm 0x40, if nonzero pm then CountDay s else s)
      else (hour, pm, s) in
    set_dt 4 (Z.lor hour pm) s.

Definition CountMinute (s : StateData) : StateData :=
  let s := set_MinuteCount (MinuteCount_wrap (MinuteCount s + 1)) s in
  let s := set_dt 5 (BCDIncrement (dt s 5)) s in
  if dt s 5 >=? 0x60 then CountHour (set_dt 5 0 s) else s.

Definition CountSecond (s : StateData) : StateData :=
  let s := set_dt 6 (BCDIncrement (dt s 6)) s in
  if dt s 6 >=? 0x60 then CountMinute (set_dt 6 0 s) else s.

(** The local table [monthdays] of [SetDateTime] (line 188): days per
    month in a common year, indexed by the month number. *)
Definition monthdays : list Z :=
  [0; 31; 28; 31; 30; 31; 30; 31; 31; 30; 31; 30; 31].

(** [SetDateTime] (lines 186-234); all arguments are C++ [int]s.  The loop
    over the months before [month] is a fold over [1 .. month-1]. *)
Definition SetDateTime (year month day hour minute second : Z)
    (s : StateData) : StateData :=
  (* the year range of the DS RTC is limited to 2000-2099 *)
  let year := Z.rem year 100 in
  let year := if year <? 0 then 0 else year in
  let monthdays :=
    if negb (nonzero (Z.land year 3)) then <[2%nat := 29]> monthdays
    else monthdays in
  let month := if (month <? 1) || (month >? 12) then 1 else month in
  let day :=
    if (day <? 1) || (day >? monthdays !!! Z.to_nat month) then 1 else day in
  let hour := if (hour <? 0) || (hour >? 23) then 0 else hour in
  let minute := if (minute <? 0) || (minute >? 59) then 0 else minute in
  let second := if (second <? 0) || (second >? 59) then 0 else second in
  let numdays := year * 365 + Z.quot (year + 3) 4 in
  let numdays :=
    fold_left (fun acc m => acc + monthdays !!! m)
              (seq 1 (Z.to_nat (month - 1))) numdays in
  let numdays := numdays + (day - 1) in
  (* 01/01/2000 is a Saturday, so the starting value is 6 *)
  let dayofweek := Z.rem (6 + numdays) 7 in
  let pm := if hour >=? 12 then 0x40 else 0 in
  let hour :=
    if negb (nonzero (Z.land (StatusReg1 s) (Z.shiftl 1 1)))
    then (if nonzero pm then hour - 12 else hour)
    else hour in
  let s := set_dt 0 (BCD (u8 year)) s in
  let s := set_dt 1 (BCD (u8 month)) s in
  let s := set_dt 2 (BCD (u8 day)) s in
  let s := set_dt 3 (u8 dayofweek) s in
  let s := set_dt 4 (u8 (Z.lor (BCD (u8 hour)) pm)) s in
  let s := set_dt 5 (BCD (u8 minute)) s in
  let s := set_dt 6 (BCD (u8 second)) s in
  set_StatusReg1 (Z.land (StatusReg1 s) (Z.lnot 0x80)) s.

(** ** Date/time writes (RTC.cpp lines 404-456) *)

Definition WriteDateTime (num : Z) (val : Z) (s : StateData) : StateData :=
  match num with
  | 1 => (* year *)
      set_dt 0 (BCDSanitize val 0x00 0x99) s
  | 2 => (* month *)
      set_dt 1 (BCDSanitize (Z.land val 0x1F) 0x01 0x12) s
  | 3 => (* day *)
      CheckEndOfMonth (set_dt 2 (BCDSanitize (Z.land val 0x3F) 0x01 0x31) s)
  | 4 => (* day of week *)
      set_dt 3 (BCDSanitize (Z.land val 0x07) 0x00 0x06) s
  | 5 => (* hour *)
      let hour := Z.land val 0x3F in
      let pm := Z.land val 0x40 in
      let '(hour, pm) :=
        if nonzero (Z.land (StatusReg1 s) (Z.shiftl 1 1)) then
          (* 24-hour mode *)
          let hour := BCDSanitize hour 0x00 0x23 in
          (hour, if hour >=? 0x12 then 0x40 else 0)
        else
          (* 12-hour mode *)
          (BCDSanitize hour 0x00 0x11, pm) in
      set_dt 4 (Z.lor hour pm) s
  | 6 => (* minute *)
      set_dt 5 (BCDSanitize (Z.land val 0x7F) 0x00 0x59) s
  | 7 => (* second *)
      set_dt 6 (BCDSanitize (Z.land val 0x7F) 0x00 0x59) s
  | _ => s
  end.

(** [SetState] (lines 144-152): copy the given register file, then pass
    each date/time byte through the write path. *)
Definition SetState (state : StateData) : StateData :=
  fold_left (fun s i => WriteDateTime (Z.of_nat i + 1) (dt s i) s)
            (seq 0 7) state.

(** ** The module state

    The globals of namespace [RTC] (lines 36-51). *)
Record RTC : Type := mkRTC {
  IO : Z;            (* u16 *)
  Input : Z;         (* u8 *)
  InputBit : Z;      (* u32 *)
  InputPos : Z;      (* u32 *)
  Output : list Z;   (* u8 Output[8] *)
  OutputBit : Z;     (* u32 *)
  OutputPos : Z;     (* u32 *)
  CurCmd : Z;        (* u8 *)
  State : StateData;
  TimerError : Z;    (* s32 *)
  ClockCount : Z     (* u32 *)
}.

Definition set_IO (v : Z) (r : RTC) : RTC :=
  mkRTC v (Input r) (InputBit r) (InputPos r) (Output r) (OutputBit r)
        (OutputPos r) (CurCmd r) (State r) (TimerError r) (ClockCount r).
Definition set_Input (v : Z) (r : RTC) : RTC :=
  mkRTC (IO r) v (InputBit r) (InputPos r) (Output r) (OutputBit r)
        (OutputPos r) (CurCmd r) (State r) (TimerError r) (ClockCount r).
Definition set_InputBit (v : Z) (r : RTC) : RTC :=
  mkRTC (IO r) (Input r) v (InputPos r) (Output r) (OutputBit r)
        (OutputPos r) (CurCmd r) (State r) (TimerError r) (ClockCount r).
Definition set_InputPos (v : Z) (r : RTC) : RTC :=
  mkRTC (IO r) (Input r) (InputBit r) v (Output r) (OutputBit r)
        (OutputPos r) (CurCmd r) (State r) (TimerError r) (ClockCount r).
Definition set_Output (v : list Z) (r : RTC) : RTC :=
  mkRTC (IO r) (Input r) (InputBit r) (InputPos r) v (OutputBit r)
        (OutputPos r) (CurCmd r) (State r) (TimerError r) (ClockCount r).
Definition set_OutputBit (v : Z) (r : RTC) : RTC :=
  mkRTC (IO r) (Input r) (InputBit r) (InputPos r) (Output r) v
        (OutputPos r) (CurCmd r) (State r) (TimerError r) (ClockCount r).
Definition set_OutputPos (v : Z) (r : RTC) : RTC :=
  mkRTC (IO r) (Input r) (InputBit r) (InputPos r) (Output r) (OutputBit r)
        v (CurCmd r) (State r) (TimerError r) (ClockCount r).
Definition set_CurCmd (v : Z) (r : RTC) : RTC :=
  mkRTC (IO r) (Input r) (InputBit r) (InputPos r) (Output r) (OutputBit r)
        (OutputPos r) v (State r) (TimerError r) (ClockCount r).
Definition set_State (v : StateData) (r : RTC) : RTC :=
  mkRTC (IO r) (Input r) (InputBit r) (InputPos r) (Output r) (OutputBit r)
        (OutputPos r) (CurCmd r) v (TimerError r) (ClockCount r).
Definition set_TimerError (v : Z) (r : RTC) : RTC :=
  mkRTC (IO r) (Input r) (InputBit r) (InputPos r) (Output r) (OutputBit r)
        (OutputPos r) (CurCmd r) (State r) v (ClockCount r).
Definition set_ClockCount (v : Z) (r : RTC) : RTC :=
  mkRTC (IO r) (Input r) (InputBit r) (InputPos r) (Output r) (OutputBit r)
        (OutputPos r) (CurCmd r) (State r) (TimerError r) v.

(** [arr[i] = v] for an index computed at run time.  The guards of the
    source keep [i] inside the array on every call that [ByteIn] makes; an
    index outside it (undefined behaviour in C++) leaves the array as it
    is. *)
Definition array_set (i v : Z) (arr : list Z) : list Z :=
  if (0 <=? i) && (i <? Z.of_nat (length arr))
  then <[Z.to_nat i := v]> arr else arr.

(** [arr[i]] for an index computed at run time (0 outside the array). *)
Definition array_get (arr : list Z) (i : Z) : Z :=
  if (0 <=? i) && (i <? Z.of_nat (length arr))
  then arr !!! Z.to_nat i else 0.

(** [memcpy(dst, src, n)] on byte arrays. *)
Definition memcpy (dst src : list Z) (n : nat) : list Z :=
  take n src ++ drop n dst.

(** [memset(Output, 0, sizeof(Output))]. *)
Definition Output_zero : list Z := [0; 0; 0; 0; 0; 0; 0; 0].

(** ** Clock timer (RTC.cpp lines 377-401)

    [NDS::ScheduleEvent] belongs to the host scheduler; the delay handed to
    it is returned next to the new state. *)

Definition ScheduleTimer (first : bool) (r : RTC) : RTC * Z :=
  let r := if first then set_TimerError 0 r else r in
  (* the RTC clock runs at 32768Hz; cycles = 33513982 / 32768 *)
  let sysclock := s32 (33513982 + TimerError r) in
  let delay := Z.shiftr sysclock 15 in
  let r := set_TimerError (Z.land sysclock 0x7FFF) r in
  (r, delay).

Definition ClockTimer (r : RTC) : RTC * Z :=
  let r := set_ClockCount (u32 (ClockCount r + 1)) r in
  let r :=
    if negb (nonzero (Z.land (ClockCount r) 0x7FFF))
    then set_State (CountSecond (State r)) r   (* count up one second *)
    else r in
  ScheduleTimer false r.

(** [Init] (lines 57-67) and [Reset] (lines 73-86). *)
Definition Init (r : RTC) : RTC :=
  set_State (set_StatusReg1 0x80 ResetState) r.

Definition Reset (r : RTC) : RTC * Z :=
  let r := set_Input 0 r in
  let r := set_InputBit 0 r in
  let r := set_InputPos 0 r in
  let r := set_Output Output_zero r in
  let r := set_OutputPos 0 r in
  let r := set_CurCmd 0 r in
  let r := set_ClockCount 0 r in
  ScheduleTimer true r.

(** Modelled from the spec: the [Savestate] class behind [file->Var16] and
    its siblings is not in src/; by section 6 of the spec it exposes the
    module state as a sequence of fixed-width fields, written or read in a
    stable order.  [DoSavestate] (lines 88-108) hands it all eleven globals,
    one after the other: when saving they are stored and stay as they are,
    when loading each one is overwritten with the field of the snapshot
    [file], unchecked. *)
Definition DoSavestate (saving : bool) (file r : RTC) : RTC :=
  if saving then r
  else
    let r := set_IO (IO file) r in
    let r := set_Input (Input file) r in
    let r := set_InputBit (InputBit file) r in
    let r := set_InputPos (InputPos file) r in
    let r := set_Output (Output file) r in
    let r := set_OutputBit (OutputBit file) r in
    let r := set_OutputPos (OutputPos file) r in
    let r := set_CurCmd (CurCmd file) r in
    let r := set_State (State file) r in
    let r := set_TimerError (TimerError file) r in
    set_ClockCount (ClockCount file) r.

(** ** Command processor and serial interface (RTC.cpp lines 458-797)

    [NDS::ConsoleType] is a global of the host (1 selects the DSi command
    set).  [Platform::Log] is a diagnostic sink without effect on the module
    state; calls to it are dropped. *)

Section Commands.

Variable ConsoleType : Z.

Definition CmdRead (r : RTC) : RTC :=
  let st := State r in
  if Z.land (CurCmd r) 0x0F =? 0x06 then
    match Z.land (CurCmd r) 0x70 with
    | 0x00 =>
        let r := set_Output (<[0%nat := StatusReg1 st]> (Output r)) r in
        (* clear auto-clearing bit4-7 *)
        set_State (set_StatusReg1 (Z.land (StatusReg1 st) 0x0F) st) r
    | 0x40 => set_Output (<[0%nat := StatusReg2 st]> (Output r)) r
    | 0x20 => set_Output (memcpy (Output r) (DateTime st) 7) r
    | 0x60 => set_Output (memcpy (Output r) (drop 4 (DateTime st)) 3) r
    | 0x10 =>
        if nonzero (Z.land (StatusReg2 st) 0x04)
        then set_Output (memcpy (Output r) (Alarm1 st) 3) r
        else set_Output (<[0%nat := Alarm1 st !!! 2%nat]> (Output r)) r
    | 0x50 => set_Output (memcpy (Output r) (Alarm2 st) 3) r
    | 0x30 => set_Output (<[0%nat := ClockAdjust st]> (Output r)) r
    | 0x70 => set_Output (<[0%nat := FreeReg st]> (Output r)) r
    | _ => r
    end
  else if Z.land (CurCmd r) 0x0F =? 0x0E then
    if negb (ConsoleType =? 1) then r
    else
      match Z.land (CurCmd r) 0x70 with
      | 0x00 =>
          let out := Output r in
          let out :=
            <[0%nat := Z.land (Z.shiftr (MinuteCount st) 16) 0xFF]> out in
          let out :=
            <[1%nat := Z.land (Z.shiftr (MinuteCount st) 8) 0xFF]> out in
          let out := <[2%nat := Z.land (MinuteCount st) 0xFF]> out in
          set_Output out r
      | 0x40 => set_Output (<[0%nat := FOUT1 st]> (Output r)) r
      | 0x20 => set_Output (<[0%nat := FOUT2 st]> (Output r)) r
      | 0x10 => set_Output (memcpy (Output r) (AlarmDate1 st) 3) r
      | 0x50 => set_Output (memcpy (Output r) (AlarmDate2 st) 3) r
      | _ => r
      end
  else r.

(** The hour reinterpretation inside the status-register-1 write (lines
    556-590): the new [DateTime[4]] from the old one, [to24] being the new
    value of the mode bit. *)
Definition ConvertHour (to24 : bool) (old : Z) : Z :=
  let hour := Z.land old 0x3F in
  let pm := Z.land old 0x40 in
  let '(hour, pm) :=
    if to24 then
      (* 24-hour mode *)
      let hour :=
        if nonzero pm then
          let hour := u8 (hour + 0x12) in
          if Z.land hour 0x0F >=? 0x0A then u8 (hour + 0x06) else hour
        else hour in
      (BCDSanitize hour 0x00 0x23, pm)
    else
      (* 12-hour mode *)
      let '(hour, pm) :=
        if hour >=? 0x12 then
          let hour := u8 (hour - 0x12) in
          (if Z.land hour 0x0F >=? 0x0A then u8 (hour - 0x06) else hour,
           0x40)
        else (hour, 0) in
      (BCDSanitize hour 0x00 0x11, pm) in
  Z.lor hour pm.

(** The status-register-1 write of [CmdWrite] (lines 545-591), on the
    register file. *)
Definition WriteStatusReg1 (val : Z) (st : StateData) : StateData :=
  let oldval := StatusReg1 st in
  let st := if nonzero (Z.land val (Z.shiftl 1 0)) (* reset *)
            then ResetState else st in
  let st :=
    set_StatusReg1 (Z.lor (Z.land (StatusReg1 st) 0xF0) (Z.land val 0x0E)) st in
  if nonzero (Z.land (Z.lxor (StatusReg1 st) oldval) (Z.shiftl 1 1)) then
    (* AM/PM changed *)
    set_dt 4
      (ConvertHour (nonzero (Z.land (StatusReg1 st) (Z.shiftl 1 1))) (dt st 4))
      st
  else st.

Definition CmdWrite (val : Z) (r : RTC) : RTC :=
  let st := State r in
  let pos := InputPos r in
  if Z.land (CurCmd r) 0x0F =? 0x06 then
    match Z.land (CurCmd r) 0x70 with
    | 0x00 =>
        if pos =? 1 then set_State (WriteStatusReg1 val st) r else r
    | 0x40 =>
        if pos =? 1 then set_State (set_StatusReg2 val st) r else r
    | 0x20 =>
        if pos <=? 7 then set_State (WriteDateTime pos val st) r else r
    | 0x60 =>
        if pos <=? 3 then set_State (WriteDateTime (pos + 4) val st) r else r
    | 0x10 =>
        if nonzero (Z.land (StatusReg2 st) 0x04) then
          if pos <=? 3
          then set_State
                 (set_Alarm1 (array_set (u32 (pos - 1)) val (Alarm1 st)) st) r
          else r
        else
          if pos =? 1
          then set_State (set_Alarm1 (<[2%nat := val]> (Alarm1 st)) st) r
          else r
    | 0x50 =>
        if pos <=? 3
        then set_State
               (set_Alarm2 (array_set (u32 (pos - 1)) val (Alarm2 st)) st) r
        else r
    | 0x30 =>
        if pos =? 1 then set_State (set_ClockAdjust val st) r else r
    | 0x70 =>
        if pos =? 1 then set_State (set_FreeReg val st) r else r
    | _ => r
    end
  else if Z.land (CurCmd r) 0x0F =? 0x0E then
    if negb (ConsoleType =? 1) then r
    else
      match Z.land (CurCmd r) 0x70 with
      | 0x00 => r   (* read-only minute counter *)
      | 0x40 => if pos =? 1 then set_State (set_FOUT1 val st) r else r
      | 0x20 => if pos =? 1 then set_State (set_FOUT2 val st) r else r
      | 0x10 =>
          if pos <=? 3
          then set_State
                 (set_AlarmDate1
                    (array_set (u32 (pos - 1)) val (AlarmDate1 st)) st) r
          else r
      | 0x50 =>
          if pos <=? 3
          then set_State
                 (set_AlarmDate2
                    (array_set (u32 (pos - 1)) val (AlarmDate2 st)) st) r
          else r
      | _ => r
      end
  else r.

(** The two 16-entry tables of [ByteIn]. *)
Definition rev_base : list Z :=
  [0x06; 0x86; 0x46; 0xC6; 0x26; 0xA6; 0x66; 0xE6;
   0x16; 0x96; 0x56; 0xD6; 0x36; 0xB6; 0x76; 0xF6].
Definition rev_ext : list Z :=
  [0x0E; 0x8E; 0x4E; 0xCE; 0x2E; 0xAE; 0x6E; 0xEE;
   0x1E; 0x9E; 0x5E; 0xDE; 0x3E; 0xBE; 0x7E; 0xFE].

Definition ByteIn (val : Z) (r : RTC) : RTC :=
  if InputPos r =? 0 then
    let r :=
      if Z.land val 0xF0 =? 0x60
      then set_CurCmd (rev_base !!! Z.to_nat (Z.land val 0xF)) r
      else set_CurCmd val r in
    let r :=
      if ConsoleType =? 1 then
        (* for DSi: handle extra commands *)
        if (Z.land (CurCmd r) 0xF0 =? 0x70)
           && negb (Z.land (CurCmd r) 0xFE =? 0x76)
        then set_CurCmd (rev_ext !!! Z.to_nat (Z.land (CurCmd r) 0xF)) r
        else r
      else r in
    if nonzero (Z.land (CurCmd r) 0x80) then CmdRead r else r
  else CmdWrite val r.

Definition Read (r : RTC) : Z := IO r.

Definition Write (val : Z) (byte : bool) (r : RTC) : RTC :=
  let val := if byte then Z.lor val (Z.land (IO r) 0xFF00) else val in
  let r :=
    if nonzero (Z.land val 0x0004) then
      if negb (nonzero (Z.land (IO r) 0x0004)) then
        (* start transfer *)
        let r := set_Input 0 r in
        let r := set_InputBit 0 r in
        let r := set_InputPos 0 r in
        let r := set_Output Output_zero r in
        let r := set_OutputBit 0 r in
        set_OutputPos 0 r
      else if negb (nonzero (Z.land val 0x0002)) then (* clock low *)
        if nonzero (Z.land val 0x0010) then
          (* write *)
          let r :=
            if nonzero (Z.land val 0x0001)
            then set_Input (u8 (Z.lor (Input r) (Z.shiftl 1 (InputBit r)))) r
            else r in
          let r := set_InputBit (u32 (InputBit r + 1)) r in
          if InputBit r >=? 8 then
            let r := set_InputBit 0 r in
            let r := ByteIn (Input r) r in
            let r := set_Input 0 r in
            set_InputPos (u32 (InputPos r + 1)) r
          else r
        else
          (* read *)
          let r :=
            if nonzero (Z.land (array_get (Output r) (OutputPos r))
                               (Z.shiftl 1 (OutputBit r)))
            then set_IO (Z.lor (IO r) 0x0001) r
            else set_IO (Z.land (IO r) 0xFFFE) r in
          let r := set_OutputBit (u32 (OutputBit r + 1)) r in
          if OutputBit r >=? 8 then
            let r := set_OutputBit 0 r in
            if OutputPos r <? 7
            then set_OutputPos (u32 (OutputPos r + 1)) r
            else r
          else r
      else r
    else r in
  if nonzero (Z.land val 0x0010)
  then set_IO val r
  else set_IO (Z.lor (Z.land (IO r) 0x0001) (Z.land val 0xFFFE)) r.

End Commands.


(** ** Power-on state and runs of the clock timer *)

(** Namespace-scope globals are zero-initialised before [Init] runs. *)
Definition zero_globals : RTC :=
  mkRTC 0 0 0 0 Output_zero 0 0 0
        (mkStateData 0 0 [0; 0; 0; 0; 0; 0; 0] [0; 0; 0] [0; 0; 0]
                     0 0 0 0 0 [0; 0; 0] [0; 0; 0])
        0 0.

(** [Init(); Reset();] as the host runs them when the console starts. *)
Definition power_on : RTC := fst (Reset (Init zero_globals)).

(** [n] consecutive invocations of the tick callback; the second component
    is the sum of the delays handed to the scheduler. *)
Fixpoint run_ticks (n : nat) (r : RTC) : RTC * Z :=
  match n with
  | O => (r, 0)
  | S n =>
      let '(r, delay) := ClockTimer r in
      let '(r, total) := run_ticks n r in
      (r, delay + total)
  end.

(** The RTC oscillator frequency: ticks per calendar second. *)
Definition ticks_per_second : nat := Z.to_nat 32768.

(** A module state whose drift accumulator holds 32768, a non-negative
    [s32] value outside the range of remainders. *)
Definition drift_state_32768 : RTC := set_TimerError 32768 power_on.

(** ** Vocabulary of the properties *)

(** The array sizes of the C++ declarations. *)
Definition StateData_wf (s : StateData) : Prop :=
  length (DateTime s) = 7%nat /\
  length (Alarm1 s) = 3%nat /\ length (Alarm2 s) = 3%nat /\
  length (AlarmDate1 s) = 3%nat /\ length (AlarmDate2 s) = 3%nat.

Definition RTC_wf (r : RTC) : Prop :=
  length (Output r) = 8%nat /\ StateData_wf (State r).

(** Decimal value of a BCD byte, as [GetDateTime] and [DaysInMonth]
    compute it: [(val & 0xF) + ((val >> 4) * 10)]. *)
Definition bcd_decode (val : Z) : Z :=
  Z.land val 0xF + Z.shiftr val 4 * 10.

(** Both nibbles of a byte are decimal digits. *)
Definition bcd_valid (val : Z) : bool :=
  (Z.land val 0x0F <=? 9) && (Z.shiftr val 4 <=? 9).

(** A byte is valid BCD and its decimal value lies in the decimal range
    denoted by the BCD bounds [vmin] and [vmax]. *)
Definition bcd_in_range (v vmin vmax : Z) : bool :=
  bcd_valid v && (bcd_decode vmin <=? bcd_decode v)
              && (bcd_decode v <=? bcd_decode vmax).

(** The bits of a written byte that belong to date/time field [num], and the
    bounds the write path passes to [BCDSanitize] for it (the hour bounds
    depend on the hour mode), as [WriteDateTime] has them. *)
Definition field_mask (num : Z) : Z :=
  match num with
  | 1 => 0xFF | 2 => 0x1F | 3 => 0x3F | 4 => 0x07
  | 5 => 0x3F | 6 => 0x7F | 7 => 0x7F | _ => 0
  end.

Definition field_bounds (mode24 : bool) (num : Z) : Z * Z :=
  match num with
  | 1 => (0x00, 0x99) | 2 => (0x01, 0x12) | 3 => (0x01, 0x31)
  | 4 => (0x00, 0x06)
  | 5 => if mode24 then (0x00, 0x23) else (0x00, 0x11)
  | 6 => (0x00, 0x59) | 7 => (0x00, 0x59) | _ => (0, 0)
  end.

(** Bit 1 of status register 1: 24-hour mode. *)
Definition mode24 (s : StateData) : bool :=
  nonzero (Z.land (StatusReg1 s) (Z.shiftl 1 1)).

(** The stored value of date/time field [num]; the hour byte carries the
    AM/PM flag in bit 6 next to the hour field. *)
Definition field_value (num : Z) (s : StateData) : Z :=
  if num =? 5 then Z.land (dt s 4) 0x3F else dt s (Z.to_nat (num - 1)).

(** February 2024, as the power-on register file would hold it. *)
Definition feb_2024 : StateData := set_dt 1 0x02 (set_dt 0 0x24 ResetState).

(** A session in which the date/time group write command 0x26 has been
    received and two data bytes (year, month) have followed; the calendar
    stands at February 2023. *)
Definition day_write_session : RTC :=
  set_State (set_dt 0 0x23 feb_2024)
    (set_InputPos 3 (set_CurCmd 0x26 power_on)).

(** A session that has received the status-register-1 write command 0x06,
    on a register file still in its power-on state. *)
Definition status1_write_session : RTC :=
  set_InputPos 1 (set_CurCmd 0x06 power_on).

(** The same session with the clock in 12-hour mode at 9 PM. *)
Definition nine_pm_session : RTC :=
  set_State (set_dt 4 0x49 (set_StatusReg1 0x00 ResetState))
            status1_write_session.

(** The hour field is valid BCD inside the range of the active mode. *)
Definition hour_valid (s : StateData) : bool :=
  bcd_in_range (Z.land (dt s 4) 0x3F) 0x00 (if mode24 s then 0x23 else 0x11).

(** [CountHour] seen from the hour byte alone: the new byte, and whether
    [CountDay] is called. *)
Definition hour_step (m24 : bool) (d : Z) : Z * bool :=
  let hour := BCDIncrement (Z.land d 0x3F) in
  let pm := Z.land d 0x40 in
  if m24 then
    if hour >=? 0x24 then (0, true)
    else (Z.lor hour (if hour >=? 0x12 then 0x40 else 0), false)
  else
    if hour >=? 0x12 then (Z.lxor pm 0x40, nonzero pm)
    else (Z.lor hour pm, false).

(** [n] hour steps on the hour byte, counting the calls of [CountDay]. *)
Fixpoint hour_run (n : nat) (m24 : bool) (d : Z) : Z * nat :=
  match n with
  | O => (d, O)
  | S n =>
      let '(d1, days) := hour_run n m24 d in
      let '(d2, carry) := hour_step m24 d1 in
      (d2, if carry then S days else days)
  end.

(** The byte with the bit order of [v] reversed (bit [i] goes to bit
    [7 - i]). *)
Definition bit_reverse8 (v : Z) : Z :=
  fold_left
    (fun acc i =>
       Z.lor acc (if Z.testbit v (Z.of_nat i)
                  then Z.shiftl 1 (7 - Z.of_nat i) else 0))
    (seq 0 8) 0.

(** Natural form of the base command set: low nibble 6, bits 4-6 the
    register group (all eight are in use), bit 7 the direction. *)
Definition base_command (c : Z) : bool := Z.land c 0x0F =? 0x06.

(** Natural form of the extended command set: low nibble 0xE and one of
    the five groups that [CmdRead] and [CmdWrite] handle for it. *)
Definition ext_command (c : Z) : bool :=
  (Z.land c 0x0F =? 0x0E) &&
  existsb (Z.eqb (Z.land c 0x70)) [0x00; 0x40; 0x20; 0x10; 0x50].

(** The command that [ByteIn] leaves in [CurCmd] for a first byte [val]
    (lines 700-717); [dsi] stands for [NDS::ConsoleType == 1]. *)
Definition normalize_command (dsi : bool) (val : Z) : Z :=
  let cmd :=
    if Z.land val 0xF0 =? 0x60
    then rev_base !!! Z.to_nat (Z.land val 0xF) else val in
  if dsi && (Z.land cmd 0xF0 =? 0x70) && negb (Z.land cmd 0xFE =? 0x76)
  then rev_ext !!! Z.to_nat (Z.land cmd 0xF) else cmd.

(** The host side of the serial protocol, for concrete sessions: raise
    chip select, then clock bytes in with the direction bit set to write,
    least significant bit first.  Control register bits: 0 data, 1 SCLK,
    2 CS, 4 direction. *)
Definition host_begin (ct : Z) (r : RTC) : RTC :=
  Write ct 0x16 false (Write ct 0x12 false r).

Definition host_send_bit (ct : Z) (r : RTC) (b : bool) : RTC :=
  let data := if b then 1 else 0 in
  Write ct (Z.lor 0x16 data) false (Write ct (Z.lor 0x14 data) false r).

Definition host_send_byte (ct : Z) (v : Z) (r : RTC) : RTC :=
  fold_left (host_send_bit ct)
            (map (fun i => Z.testbit v (Z.of_nat i)) (seq 0 8)) r.

(** A write to the control register that shifts one bit in: chip select
    held, clock low, direction bit set. *)
Definition write_transfer (val : Z) (byte : bool) (r : RTC) : bool :=
  let val := if byte then Z.lor val (Z.land (IO r) 0xFF00) else val in
  nonzero (Z.land val 0x0004) && nonzero (Z.land (IO r) 0x0004) &&
  negb (nonzero (Z.land val 0x0002)) && nonzero (Z.land val 0x0010).

(** The host clocks one bit out (direction bit clear) and samples the data
    line while the clock is low; a byte is eight such bits, least
    significant first. *)
Definition host_recv_bit (ct : Z) (r : RTC) : RTC * bool :=
  let r := Write ct 0x04 false r in
  let b := Z.testbit (Read r) 0 in
  (Write ct 0x06 false r, b).

Fixpoint host_recv_bits (ct : Z) (n : nat) (r : RTC) : RTC * list bool :=
  match n with
  | O => (r, [])
  | S n =>
      let '(r, b) := host_recv_bit ct r in
      let '(r, bs) := host_recv_bits ct n r in
      (r, b :: bs)
  end.

Definition byte_of_bits (bs : list bool) : Z :=
  fold_right (fun (b : bool) acc => (if b then 1 else 0) + 2 * acc) 0 bs.

Definition host_recv_byte (ct : Z) (r : RTC) : RTC * Z :=
  let '(r, bs) := host_recv_bits ct 8 r in (r, byte_of_bits bs).

(** A DS session that has clocked in the read command for the free
    register, 0xF6. *)
Definition free_reg_read_session : RTC :=
  host_send_byte 0 0xF6 (host_begin 0 power_on).

(** The widths of the fields that [DoSavestate] passes to the file:
    [Var16] for [IO], [Var8] for [Input] and [CurCmd], [Var32] for the
    counters and for [TimerError] (an [s32] passed as [u32]), [VarArray] for
    [Output] and [State] with the sizes of the arrays. *)
Definition snapshot_typed (f : RTC) : Prop :=
  RTC_wf f /\
  0 <= IO f < 65536 /\ 0 <= Input f < 256 /\
  0 <= InputBit f < 4294967296 /\ 0 <= InputPos f < 4294967296 /\
  0 <= OutputBit f < 4294967296 /\ 0 <= OutputPos f < 4294967296 /\
  0 <= CurCmd f < 256 /\
  -2147483648 <= TimerError f < 2147483648 /\
  0 <= ClockCount f < 4294967296.

(** The states the module can be in: the zero-initialised globals, and
    whatever the entry points of RTC.h make of a state (the getters change
    nothing).  [DoSavestate] brings in a snapshot whose fields have their
    widths; [restorable] says which of those snapshots the host may hand
    in. *)
Inductive reachable (restorable : RTC -> Prop) (ct : Z) : RTC -> Prop :=
| reach_zero : reachable restorable ct zero_globals
| reach_Init r : reachable restorable ct r -> reachable restorable ct (Init r)
| reach_Reset r :
    reachable restorable ct r -> reachable restorable ct (fst (Reset r))
| reach_DoSavestate r saving file :
    reachable restorable ct r -> snapshot_typed file -> restorable file ->
    reachable restorable ct (DoSavestate saving file r)
| reach_Write r val byte :
    reachable restorable ct r -> reachable restorable ct (Write ct val byte r)
| reach_ClockTimer r :
    reachable restorable ct r -> reachable restorable ct (fst (ClockTimer r))
| reach_SetState r state :
    reachable restorable ct r -> StateData_wf state ->
    reachable restorable ct (set_State (SetState state) r)
| reach_SetDateTime r year month day hour minute second :
    reachable restorable ct r ->
    reachable restorable ct
      (set_State (SetDateTime year month day hour minute second (State r)) r).

(** Every snapshot of the right widths, and the snapshots whose output
    cursor lies inside the output buffer. *)
Definition any_snapshot (f : RTC) : Prop := True.
Definition output_cursor_in_buffer (f : RTC) : Prop := 0 <= OutputPos f <= 7.

(** A snapshot taken with chip select held whose output cursor is 8, and
    one whose cursor is at the last byte of a buffer that ends in 0xA5. *)
Definition snapshot_pos_8 : RTC := set_OutputPos 8 (set_IO 0x06 power_on).
Definition snapshot_last_byte : RTC :=
  set_OutputPos 7
    (set_Output [1; 2; 3; 4; 5; 6; 7; 0xA5] (set_IO 0x06 power_on)).

(** A write to the control register that transfers one bit towards the
    host: chip select held, clock low, direction bit clear. *)
Definition read_transfer (val : Z) (byte : bool) (r : RTC) : bool :=
  let val := if byte then Z.lor val (Z.land (IO r) 0xFF00) else val in
  nonzero (Z.land val 0x0004) && nonzero (Z.land (IO r) 0x0004) &&
  negb (nonzero (Z.land val 0x0002)) && negb (nonzero (Z.land val 0x0010)).

(** What the invariant proof carries along. *)
Definition serial_inv (r : RTC) : Prop :=
  RTC_wf r /\ 0 <= OutputPos r <= 7 /\ 0 <= OutputBit r < 4294967296.

(** ** Vocabulary of the further properties *)

(** A session in which the read command for status register 1 (0x86) has
    just been decoded, before [CmdRead] runs. *)
Definition status1_read_pending : RTC := set_CurCmd 0x86 power_on.

(** The one-byte registers that a command can both write and read: status
    register 2, clock adjust and the free register, and with the DSi
    console type FOUT1 and FOUT2; [c] is the write command. *)
Definition one_byte_register (ct c : Z) : bool :=
  existsb (Z.eqb c) [0x46; 0x36; 0x76] ||
  (ct =? 1) && existsb (Z.eqb c) [0x4E; 0x2E].

Definition register_of (c : Z) (s : StateData) : Z :=
  match c with
  | 0x46 => StatusReg2 s
  | 0x36 => ClockAdjust s
  | 0x76 => FreeReg s
  | 0x4E => FOUT1 s
  | 0x2E => FOUT2 s
  | _ => 0
  end.

(** An hour byte as the write path and the clock engine leave it: bit 7
    clear, the hour field valid for the mode, and in 24-hour mode the PM
    flag set exactly for the hours from 0x12 on. *)
Definition hour_byte_normal (m24 : bool) (d : Z) : bool :=
  (Z.land d 0x80 =? 0) &&
  bcd_in_range (Z.land d 0x3F) 0x00 (if m24 then 0x23 else 0x11) &&
  (negb m24 ||
   (Z.land d 0x40 =? (if Z.land d 0x3F >=? 0x12 then 0x40 else 0))).

(** The value a write leaves in the control register: the written value
    when its direction bit is set, otherwise the written value with the
    data bit taken from [io]. *)
Definition latch (val io : Z) : Z :=
  if nonzero (Z.land val 0x0010) then val
  else Z.lor (Z.land io 0x0001) (Z.land val 0xFFFE).

(** The number of data bytes that [CmdWrite] accepts after the command in
    [CurCmd], as its position guards have it. *)
Definition group_bytes (ct : Z) (r : RTC) : Z :=
  if Z.land (CurCmd r) 0x0F =? 0x06 then
    match Z.land (CurCmd r) 0x70 with
    | 0x00 => 1
    | 0x40 => 1
    | 0x20 => 7
    | 0x60 => 3
    | 0x10 => if nonzero (Z.land (StatusReg2 (State r)) 0x04) then 3 else 1
    | 0x50 => 3
    | 0x30 => 1
    | 0x70 => 1
    | _ => 0
    end
  else if Z.land (CurCmd r) 0x0F =? 0x0E then
    if negb (ct =? 1) then 0
    else
      match Z.land (CurCmd r) 0x70 with
      | 0x40 => 1
      | 0x20 => 1
      | 0x10 => 3
      | 0x50 => 3
      | _ => 0
      end
  else 0.

(** [GetDateTime] (lines 154-184); the six reference parameters are
    returned as a tuple (year, month, day, hour, minute, second). *)
Definition GetDateTime (s : StateData) : Z * Z * Z * Z * Z * Z :=
  let val := dt s 0 in
  let year := Z.land val 0xF + Z.shiftr val 4 * 10 in
  let year := year + 2000 in
  let val := Z.land (dt s 1) 0x3F in
  let month := Z.land val 0xF + Z.shiftr val 4 * 10 in
  let val := Z.land (dt s 2) 0x3F in
  let day := Z.land val 0xF + Z.shiftr val 4 * 10 in
  let val := Z.land (dt s 4) 0x3F in
  let hour := Z.land val 0xF + Z.shiftr val 4 * 10 in
  let hour :=
    if negb (nonzero (Z.land (StatusReg1 s) (Z.shiftl 1 1))) then
      (* 12-hour mode *)
      if nonzero (Z.land (dt s 4) 0x40) then hour + 12 else hour
    else hour in
  let val := Z.land (dt s 5) 0x7F in
  let minute := Z.land val 0xF + Z.shiftr val 4 * 10 in
  let val := Z.land (dt s 6) 0x7F in
  let second := Z.land val 0xF + Z.shiftr val 4 * 10 in
  (year, month, day, hour, minute, second).

(** The month table of [SetDateTime] after its leap-year adjustment, read at
    [month]. *)
Definition month_days (year month : Z) : Z :=
  let year := Z.rem year 100 in
  let year := if year <? 0 then 0 else year in
  (if negb (nonzero (Z.land year 3)) then <[2%nat := 29]> monthdays
   else monthdays) !!! Z.to_nat month.

(** The date after [(year, month, day)], with a two-digit year that wraps
    from 99 to 0 as the year byte does. *)
Definition next_date (year month day : Z) : Z * Z * Z :=
  if day <? month_days year month then (year, month, day + 1)
  else if month <? 12 then (year, month + 1, 1)
  else ((year + 1) mod 100, 1, 1).

(** The hour 0..23 that [GetDateTime] reads from an hour byte. *)
Definition hour24 (m24 : bool) (d : Z) : Z :=
  let h := bcd_decode (Z.land d 0x3F) in
  if negb m24 then (if nonzero (Z.land d 0x40) then h + 12 else h) else h.

(** The date fields are valid BCD and the day exists in its month. *)
Definition date_valid (s : StateData) : bool :=
  bcd_in_range (dt s 0) 0x00 0x99 &&
  bcd_in_range (dt s 1) 0x01 0x12 &&
  bcd_in_range (dt s 2) 0x01 (DaysInMonth s).

(** Day of week, hour, minute and second are valid. *)
Definition time_valid (s : StateData) : bool :=
  (0 <=? dt s 3) && (dt s 3 <=? 6) &&
  (0 <=? dt s 4) && (dt s 4 <? 256) &&
  hour_byte_normal (mode24 s) (dt s 4) &&
  bcd_in_range (dt s 5) 0x00 0x59 &&
  bcd_in_range (dt s 6) 0x00 0x59.

Definition calendar_valid (s : StateData) : bool :=
  date_valid s && time_valid s.

(** A register file whose only non-default bytes are year, month and day. *)
Definition date_state (y mo d : Z) : StateData :=
  set_dt 2 d (set_dt 1 mo (set_dt 0 y ResetState)).

(** Year, month, day and day of the week, as stored. *)
Definition date_bytes (s : StateData) : list Z :=
  [dt s 0; dt s 1; dt s 2; dt s 3].

(** 29 February 2024, midnight, on the power-on register file (12-hour
    mode, AM). *)
Definition leap_day_2024 : StateData := set_dt 2 0x29 feb_2024.

(** The second after a date and time, in decimal, with the year kept in
    2000..2099 as [GetDateTime] reports it. *)
Definition next_second (t : Z * Z * Z * Z * Z * Z) : Z * Z * Z * Z * Z * Z :=
  let '(year, month, day, hour, minute, second) := t in
  if second <? 59 then (year, month, day, hour, minute, second + 1)
  else if minute <? 59 then (year, month, day, hour, minute + 1, 0)
  else if hour <? 23 then (year, month, day, hour + 1, 0, 0)
  else
    let '(y', m', d') := next_date (year - 2000) month day in
    (y' + 2000, m', d', 0, 0, 0).

(** The hour byte that [WriteDateTime] stores for a written byte. *)
Definition hour_stored (m24 : bool) (val : Z) : Z :=
  let hour := Z.land val 0x3F in
  let pm := Z.land val 0x40 in
  let '(hour, pm) :=
    if m24 then
      let hour := BCDSanitize hour 0x00 0x23 in
      (hour, if hour >=? 0x12 then 0x40 else 0)
    else (BCDSanitize hour 0x00 0x11, pm) in
  Z.lor hour pm.

(** The date/time bytes [vs] written in order with [WriteDateTime], the
    first one as field 1. *)
Definition write_fields (vs : list Z) (s : StateData) : StateData :=
  fold_left (fun s kv => WriteDateTime (Z.of_nat (fst kv) + 1) (snd kv) s)
            (combine (seq 0 (length vs)) vs) s.

(** The host clocks in the bytes [vs], one after the other. *)
Definition host_send_bytes (ct : Z) (vs : list Z) (r : RTC) : RTC :=
  fold_left (fun r v => host_send_byte ct v r) vs r.

(** The host clocks out [n] bytes. *)
Fixpoint host_recv_bytes (ct : Z) (n : nat) (r : RTC) : RTC * list Z :=
  match n with
  | O => (r, [])
  | S n =>
      let '(r, b) := host_recv_byte ct r in
      let '(r, bs) := host_recv_bytes ct n r in
      (r, b :: bs)
  end.

(** * Properties *)

Example BCDIncrement_09 : BCDIncrement 0x09 = 0x10.
Proof. reflexivity. Qed.

Example DaysInMonth_reset : DaysInMonth ResetState = 0x31.
Proof. reflexivity. Qed.

(** ** Arithmetic helpers *)

Lemma s32_small (x : Z) :
  -2147483648 <= x < 2147483648 -> s32 x = x.
Proof.
  intros Hx. unfold s32.
  rewrite Z.mod_small by lia. lia.
Qed.

Lemma land_0x7FFF (x : Z) : Z.land x 0x7FFF = x mod 32768.
Proof. exact (Z.land_ones x 15 ltac:(lia)). Qed.

Lemma shiftr_15 (x : Z) : Z.shiftr x 15 = x / 32768.
Proof. exact (Z.shiftr_div_pow2 x 15 ltac:(lia)). Qed.

(** One tick: the delay and the carried error as quotient and remainder. *)
Lemma ClockTimer_error (r : RTC) :
  0 <= TimerError r <= 2113969665 ->
  snd (ClockTimer r) = (33513982 + TimerError r) / 32768 /\
  TimerError (fst (ClockTimer r)) = (33513982 + TimerError r) mod 32768.
Proof.
  intros He. unfold ClockTimer, ScheduleTimer.
  destruct (negb _); cbn [fst snd TimerError set_TimerError set_State
                          set_ClockCount];
    rewrite s32_small by lia; rewrite land_0x7FFF, shiftr_15; auto.
Qed.

(** The accounting identity behind drift correction: after any number of
    ticks, the delays handed out plus the error still carried add up to the
    host cycles that have really elapsed. *)
Lemma run_ticks_balance (n : nat) :
  forall r, 0 <= TimerError r <= 2113969665 ->
    32768 * snd (run_ticks n r) + TimerError (fst (run_ticks n r))
      = Z.of_nat n * 33513982 + TimerError r /\
    (n <> O -> 0 <= TimerError (fst (run_ticks n r)) < 32768).
Proof.
  induction n as [|n IH]; intros r He.
  - cbn [run_ticks fst snd]. split; [lia | congruence].
  - cbn [run_ticks].
    destruct (ClockTimer_error r He) as [Hd Hc].
    destruct (ClockTimer r) as [r1 d] eqn:E1. cbn [fst snd] in Hd, Hc.
    assert (Hr1 : 0 <= TimerError r1 < 32768)
      by (rewrite Hc; apply Z.mod_pos_bound; lia).
    destruct (IH r1 ltac:(lia)) as [Hsum Hrng].
    destruct (run_ticks n r1) as [r2 total] eqn:E2. cbn [fst snd] in *.
    split.
    + pose proof (Z.div_mod (33513982 + TimerError r) 32768 ltac:(lia)).
      lia.
    + intros _. destruct n as [|n'].
      * cbn [run_ticks] in E2. inversion E2; subst. exact Hr1.
      * apply Hrng. congruence.
Qed.

(** ** Drift-corrected scheduling *)

(** C1, as stated, fails: a non-negative carried error of 32768 makes the
    delays of the next 32768 ticks add up to 33513983 host cycles, one more
    than a second's worth. *)
Lemma drift_sum_nonneg_error_counterexample :
  0 <= TimerError drift_state_32768 /\
  snd (run_ticks ticks_per_second drift_state_32768) = 33513983 /\
  snd (run_ticks ticks_per_second drift_state_32768) <> 33513982.
Proof.
  assert (He : 0 <= TimerError drift_state_32768 <= 2113969665)
    by (vm_compute; split; discriminate).
  destruct (run_ticks_balance ticks_per_second _ He) as [Hsum Hrng].
  assert (Hn : ticks_per_second <> O) by (unfold ticks_per_second; lia).
  specialize (Hrng Hn).
  unfold ticks_per_second in *. rewrite Z2Nat.id in Hsum by lia.
  change (TimerError drift_state_32768) with 32768 in *.
  lia.
Qed.

(** C1 (amended): for every carried error in 0..32767, which is every value
    a previous [ScheduleTimer] call can have stored, the delays returned over
    32768 consecutive ticks add up to exactly 33513982 host cycles and the
    carried error is back at its starting value; the accumulator is set to
    zero by a cold start ([first = true]) and otherwise carried over: an
    ordinary reschedule computes delay and remainder from the stored
    error. *)
Theorem drift_sum_one_second (r : RTC) :
  (0 <= TimerError r < 32768 ->
     snd (run_ticks ticks_per_second r) = 33513982 /\
     TimerError (fst (run_ticks ticks_per_second r)) = TimerError r) /\
  (0 <= TimerError r < 32768 ->
     snd (ScheduleTimer false r) = (33513982 + TimerError r) / 32768 /\
     TimerError (fst (ScheduleTimer false r))
       = (33513982 + TimerError r) mod 32768) /\
  ScheduleTimer true r = ScheduleTimer false (set_TimerError 0 r) /\
  snd (ScheduleTimer true r) = 33513982 / 32768 /\
  TimerError (fst (ScheduleTimer true r)) = 33513982 mod 32768 /\
  0 <= TimerError (fst (ScheduleTimer false r)) < 32768.
Proof.
  split; [|split; [|split; [|split; [|split]]]].
  - intros He.
    destruct (run_ticks_balance ticks_per_second r ltac:(lia)) as [Hsum Hrng].
    assert (Hn : ticks_per_second <> O) by (unfold ticks_per_second; lia).
    specialize (Hrng Hn).
    unfold ticks_per_second in *. rewrite Z2Nat.id in Hsum by lia.
    lia.
  - intros He. unfold ScheduleTimer. cbn [fst snd TimerError set_TimerError].
    rewrite s32_small by lia. rewrite land_0x7FFF, shiftr_15. auto.
  - reflexivity.
  - reflexivity.
  - reflexivity.
  - unfold ScheduleTimer. cbn [fst snd TimerError set_TimerError].
    rewrite land_0x7FFF. apply Z.mod_pos_bound. lia.
Qed.

Lemma drift_sum_one_second_witness :
  0 <= TimerError power_on < 32768 /\
  snd (run_ticks ticks_per_second power_on) = 33513982.
Proof.
  assert (He : 0 <= TimerError power_on < 32768)
    by (vm_compute; split; [discriminate | reflexivity]).
  split; [exact He|].
  exact (proj1 (proj1 (drift_sum_one_second power_on) He)).
Defined.

(** ** Structural helpers *)

(** A property of all integers in [0, n) follows from checking each. *)
Lemma Z_range_forallb (P : Z -> bool) (n : Z) :
  forallb P (map Z.of_nat (seq 0 (Z.to_nat n))) = true ->
  forall z, 0 <= z < n -> P z = true.
Proof.
  intros Hall z Hz.
  rewrite forallb_forall in Hall. apply Hall.
  apply in_map_iff. exists (Z.to_nat z). split; [lia|].
  apply in_seq. lia.
Qed.

Ltac enumerate :=
  match goal with
  | |- forall v, 0 <= v < ?n -> @?P v = true =>
      apply (Z_range_forallb P n); vm_compute; reflexivity
  end.

Lemma dt_set_dt_eq (i : nat) (v : Z) (s : StateData) :
  (i < length (DateTime s))%nat -> dt (set_dt i v s) i = v.
Proof.
  intros Hi. unfold dt, set_dt. cbn [DateTime set_DateTime].
  by apply list_lookup_total_insert_eq.
Qed.

Lemma dt_set_dt_ne (i j : nat) (v : Z) (s : StateData) :
  i <> j -> dt (set_dt i v s) j = dt s j.
Proof.
  intros Hij. unfold dt, set_dt. cbn [DateTime set_DateTime].
  by apply list_lookup_total_insert_ne.
Qed.

Lemma length_set_dt (i : nat) (v : Z) (s : StateData) :
  length (DateTime (set_dt i v s)) = length (DateTime s).
Proof. unfold set_dt. cbn [DateTime set_DateTime]. apply length_insert. Qed.

Lemma StatusReg1_set_dt (i : nat) (v : Z) (s : StateData) :
  StatusReg1 (set_dt i v s) = StatusReg1 s.
Proof. reflexivity. Qed.

(** ** BCD facts *)

Lemma bcd_decode_BCD (y : Z) : 0 <= y <= 99 -> bcd_decode (BCD y) = y.
Proof.
  intros Hy. apply Z.eqb_eq. revert y Hy.
  assert (H : forall y, 0 <= y < 100 -> (bcd_decode (BCD y) =? y) = true)
    by enumerate.
  intros y Hy. apply H. lia.
Qed.

Lemma bcd_valid_BCD (y : Z) : 0 <= y <= 99 -> bcd_valid (BCD y) = true.
Proof.
  assert (H : forall y, 0 <= y < 100 -> bcd_valid (BCD y) = true)
    by enumerate.
  intros Hy. apply H. lia.
Qed.

Lemma land_0x0F (x : Z) : Z.land x 0x0F = x mod 16.
Proof. exact (Z.land_ones x 4 ltac:(lia)). Qed.

Lemma shiftr_4 (x : Z) : Z.shiftr x 4 = x / 16.
Proof. exact (Z.shiftr_div_pow2 x 4 ltac:(lia)). Qed.

Lemma land_0xF0 (x : Z) : 0 <= x < 256 -> Z.land x 0xF0 = 16 * (x / 16).
Proof.
  intros Hx. apply Z.eqb_eq. revert x Hx. enumerate.
Qed.

Ltac bool_cases :=
  repeat match goal with
  | |- context [?a <? ?b] => destruct (Z.ltb_spec a b)
  | |- context [?a <=? ?b] => destruct (Z.leb_spec a b)
  | |- context [?a >? ?b] => rewrite (Z.gtb_ltb a b)
  | |- context [?a >=? ?b] => rewrite (Z.geb_leb a b)
  end.

(** [BCDSanitize] on bytes, for any pair of valid BCD bounds: the value is
    kept exactly when it is valid BCD inside the decimal range. *)
Lemma BCDSanitize_spec (val vmin vmax : Z) :
  0 <= val < 256 -> 0 <= vmin < 256 -> 0 <= vmax < 256 ->
  bcd_valid vmin = true -> bcd_valid vmax = true ->
  BCDSanitize val vmin vmax
    = if bcd_in_range val vmin vmax then val else vmin.
Proof.
  intros Hv Hmin Hmax.
  unfold BCDSanitize, bcd_in_range, bcd_valid, bcd_decode.
  rewrite (land_0xF0 val Hv).
  change 0xF with 0x0F. rewrite !land_0x0F, !shiftr_4.
  pose proof (Z.div_mod val 16 ltac:(lia)) as Ev.
  pose proof (Z.div_mod vmin 16 ltac:(lia)) as Emin.
  pose proof (Z.div_mod vmax 16 ltac:(lia)) as Emax.
  pose proof (Z.mod_pos_bound val 16 ltac:(lia)) as Bv.
  pose proof (Z.mod_pos_bound vmin 16 ltac:(lia)) as Bmin.
  pose proof (Z.mod_pos_bound vmax 16 ltac:(lia)) as Bmax.
  generalize dependent (val / 16). generalize dependent (val mod 16).
  generalize dependent (vmin / 16). generalize dependent (vmin mod 16).
  generalize dependent (vmax / 16). generalize dependent (vmax mod 16).
  intros lo_max hi_max ? ? lo_min hi_min ? ? lo hi ? ? Vmin Vmax.
  apply andb_true_iff in Vmin, Vmax.
  destruct Vmin as [Vmin1 Vmin2], Vmax as [Vmax1 Vmax2].
  apply Z.leb_le in Vmin1, Vmin2, Vmax1, Vmax2.
  bool_cases; cbn [andb orb]; try reflexivity; lia.
Qed.

(** ** Days in a month *)

(** C5: with a valid BCD year byte (the encoding of a year 0..99), February
    has 29 days, returned in BCD as 0x29, exactly when the decoded year is
    divisible by 4, and 28 (0x28) otherwise; so 0x24 gives 0x29 and 0x23
    gives 0x28.  Every other month has the length of the standard table
    ([monthdays]), returned in BCD. *)
Theorem DaysInMonth_leap_rule (s : StateData) :
  (forall y, 0 <= y <= 99 -> dt s 0 = BCD y -> dt s 1 = 0x02 ->
     DaysInMonth s = BCD (if y mod 4 =? 0 then 29 else 28) /\
     bcd_decode (DaysInMonth s) = (if y mod 4 =? 0 then 29 else 28)) /\
  (dt s 0 = 0x24 -> dt s 1 = 0x02 -> DaysInMonth s = 0x29) /\
  (dt s 0 = 0x23 -> dt s 1 = 0x02 -> DaysInMonth s = 0x28) /\
  (forall m, 1 <= m <= 12 -> m <> 2 -> dt s 1 = BCD m ->
     DaysInMonth s = BCD (monthdays !!! Z.to_nat m)).
Proof.
  split; [|split; [|split]].
  - intros y Hy Hyear Hmonth.
    unfold DaysInMonth. rewrite Hmonth, Hyear. cbv iota beta zeta.
    fold (bcd_decode (BCD y)). rewrite bcd_decode_BCD by lia.
    replace (Z.land y 3) with (y mod 4)
      by (symmetry; exact (Z.land_ones y 2 ltac:(lia))).
    unfold nonzero. rewrite negb_involutive.
    destruct (y mod 4 =? 0); split; reflexivity.
  - intros Hyear Hmonth. unfold DaysInMonth. rewrite Hmonth, Hyear.
    reflexivity.
  - intros Hyear Hmonth. unfold DaysInMonth. rewrite Hmonth, Hyear.
    reflexivity.
  - intros m Hm Hne Hmonth. unfold DaysInMonth. rewrite Hmonth.
    assert (Hcases : m = 1 \/ m = 3 \/ m = 4 \/ m = 5 \/ m = 6 \/ m = 7 \/
                     m = 8 \/ m = 9 \/ m = 10 \/ m = 11 \/ m = 12) by lia.
    repeat (destruct Hcases as [->|Hcases]; [reflexivity|]).
    subst m. reflexivity.
Qed.

Lemma DaysInMonth_leap_rule_witness :
  DaysInMonth feb_2024 = 0x29 /\
  DaysInMonth (set_dt 0 0x23 feb_2024) = 0x28 /\
  DaysInMonth (set_dt 1 0x11 feb_2024) = 0x30.
Proof.
  split; [|split].
  - apply (proj1 (DaysInMonth_leap_rule feb_2024) 24);
      [lia | reflexivity | reflexivity].
  - apply (proj1 (proj2 (proj2 (DaysInMonth_leap_rule
                                  (set_dt 0 0x23 feb_2024)))));
      reflexivity.
  - apply (proj2 (proj2 (proj2 (DaysInMonth_leap_rule
                                  (set_dt 1 0x11 feb_2024)))) 11);
      [lia | lia | reflexivity].
Defined.

(** ** Date/time writes *)

Ltac dt_simpl :=
  repeat first
    [ rewrite dt_set_dt_eq by (rewrite ?length_set_dt; lia)
    | rewrite dt_set_dt_ne by lia ].

Lemma DaysInMonth_set_dt (i : nat) (v : Z) (s : StateData) :
  (2 <= i)%nat -> DaysInMonth (set_dt i v s) = DaysInMonth s.
Proof.
  intros Hi. unfold DaysInMonth. by rewrite !dt_set_dt_ne by lia.
Qed.

(** The date/time group write of [CmdWrite], reached through [ByteIn]. *)
Lemma ByteIn_datetime_write (ct val : Z) (r : RTC) :
  Z.land (CurCmd r) 0x0F = 0x06 -> Z.land (CurCmd r) 0x70 = 0x20 ->
  1 <= InputPos r <= 7 ->
  State (ByteIn ct val r) = WriteDateTime (InputPos r) val (State r).
Proof.
  intros Hlo Hgrp Hpos. unfold ByteIn.
  destruct (Z.eqb_spec (InputPos r) 0) as [E|_]; [lia|].
  unfold CmdWrite. rewrite Hlo, Hgrp. cbv iota beta.
  change (6 =? 6) with true. cbv iota.
  destruct (Z.leb_spec (InputPos r) 7); [reflexivity | lia].
Qed.

(** C6: a byte written to the day field through the command processor
    (date/time group, third data byte) is sanitized first and then checked
    against the day count of the current month at once: if the sanitized day
    exceeds it, the day becomes 1 and the month takes one BCD increment,
    going back to 1 and incrementing the year when it passes 0x12; otherwise
    the sanitized day is stored and nothing else changes. *)
Theorem day_write_rolls_over (ct val : Z) (r : RTC) :
  length (DateTime (State r)) = 7%nat ->
  Z.land (CurCmd r) 0x0F = 0x06 -> Z.land (CurCmd r) 0x70 = 0x20 ->
  InputPos r = 3 ->
  let s := State r in
  let day := BCDSanitize (Z.land val 0x3F) 0x01 0x31 in
  let month' := BCDIncrement (dt s 1) in
  let s' := State (ByteIn ct val r) in
  ((day >? DaysInMonth s) = false -> s' = set_dt 2 day s) /\
  ((day >? DaysInMonth s) = true ->
     dt s' 2 = 1 /\
     dt s' 1 = (if month' >? 0x12 then 1 else month') /\
     dt s' 0 = (if month' >? 0x12 then BCDIncrement (dt s 0) else dt s 0) /\
     (forall i, (3 <= i)%nat -> dt s' i = dt s i) /\
     set_DateTime (DateTime s) s' = s).
Proof.
  intros Hlen Hlo Hgrp Hpos s day month' s'.
  assert (Es' : s' = CheckEndOfMonth (set_dt 2 day s)).
  { unfold s'. rewrite ByteIn_datetime_write by (auto; lia).
    rewrite Hpos. reflexivity. }
  change (length (DateTime s) = 7%nat) in Hlen.
  rewrite Es'. unfold CheckEndOfMonth.
  rewrite DaysInMonth_set_dt by lia. dt_simpl.
  split; intros Hcmp; rewrite Hcmp; [reflexivity|].
  unfold CountMonth. dt_simpl. fold month'.
  destruct (month' >? 0x12) eqn:Hm; unfold CountYear; dt_simpl.
  - repeat split; try reflexivity.
    + intros i Hi. dt_simpl. reflexivity.
    + destruct s; reflexivity.
  - repeat split; try reflexivity.
    + intros i Hi. dt_simpl. reflexivity.
    + destruct s; reflexivity.
Qed.

Lemma day_write_rolls_over_witness :
  dt (State (ByteIn 0 0x30 day_write_session)) 2 = 1 /\
  dt (State (ByteIn 0 0x30 day_write_session)) 1 = 0x03 /\
  dt (State (ByteIn 0 0x30 day_write_session)) 0 = 0x23.
Proof.
  pose proof (day_write_rolls_over 0 0x30 day_write_session
                eq_refl eq_refl eq_refl eq_refl) as H.
  cbv zeta in H. destruct H as [_ H].
  destruct (H eq_refl) as (Hd & Hm & Hy & _).
  split; [exact Hd|]. split; [exact Hm | exact Hy].
Defined.

Lemma land_byte_range (val m : Z) :
  0 <= val < 256 -> 0 <= Z.land val m < 256.
Proof.
  intros Hv. split.
  - apply Z.land_nonneg. lia.
  - rewrite <- (Z.mod_small val 256) by lia.
    change 256 with (2 ^ 8) at 1. rewrite <- Z.land_ones by lia.
    rewrite <- Z.land_assoc, (Z.land_comm (Z.ones 8)), Z.land_assoc.
    rewrite Z.land_ones by lia. apply Z.mod_pos_bound. lia.
Qed.

(** The hour write keeps the sanitized hour in bits 0-5 of the byte. *)
Lemma hour_write_field (b : bool) :
  forall val, 0 <= val < 256 ->
    (let hour := Z.land val 0x3F in
     let pm := Z.land val 0x40 in
     let '(hour, pm) :=
       if b then
         let hour := BCDSanitize hour 0x00 0x23 in
         (hour, if hour >=? 0x12 then 0x40 else 0)
       else (BCDSanitize hour 0x00 0x11, pm) in
     Z.land (Z.lor hour pm) 0x3F
       =? BCDSanitize (Z.land val 0x3F) 0x00 (if b then 0x23 else 0x11))
    = true.
Proof. destruct b; enumerate. Qed.

(** [CmdWrite] writes to the register file only. *)
Lemma CmdWrite_frame (ct val : Z) (r : RTC) :
  set_State (State r) (CmdWrite ct val r) = r.
Proof.
  destruct r. unfold CmdWrite.
  repeat case_match; reflexivity.
Qed.

(** C7, as stated, fails: the byte 0x32 written to the month field decodes
    to 32, outside 1..12, yet the month stored is 0x12 and not the minimum
    0x01, because the write path hands [BCDSanitize] only bits 0-4 of the
    byte. *)
Lemma month_write_0x32_counterexample :
  bcd_decode 0x32 = 32 /\
  bcd_in_range 0x32 0x01 0x12 = false /\
  dt (WriteDateTime 2 0x32 ResetState) 1 = 0x12 /\
  dt (WriteDateTime 2 0x32 ResetState) 1 <> 0x01.
Proof. vm_compute. repeat split; discriminate. Qed.

(** C7 (amended): a byte written to date/time field [num] is first reduced
    to the bits of the field ([field_mask]: 0x1F month, 0x3F day and hour,
    0x07 day of week, 0x7F minute and second, all eight bits for the year);
    for each bound pair of the write path, [BCDSanitize] replaces that field
    value with the minimum exactly when its decimal value lies outside the
    bounds or a nibble exceeds 9, and returns it unchanged otherwise.  So a
    field value that is out of range or invalid BCD is stored as the field's
    minimum, a good one is stored as it is (the day subject to the
    end-of-month check, the hour next to its AM/PM flag); the write always
    yields a register file and touches nothing but it. *)
Theorem WriteDateTime_clamps (s : StateData) (num val : Z) :
  length (DateTime s) = 7%nat -> 0 <= val < 256 -> 1 <= num <= 7 ->
  let v := Z.land val (field_mask num) in
  let vmin := fst (field_bounds (mode24 s) num) in
  let vmax := snd (field_bounds (mode24 s) num) in
  let s' := WriteDateTime num val s in
  BCDSanitize v vmin vmax = (if bcd_in_range v vmin vmax then v else vmin) /\
  (bcd_in_range v vmin vmax = false -> field_value num s' = vmin) /\
  (bcd_in_range v vmin vmax = true -> num <> 3 -> field_value num s' = v) /\
  (num <> 3 -> num <> 5 -> dt s' (Z.to_nat (num - 1)) = BCDSanitize v vmin vmax) /\
  (num = 3 ->
   dt s' 2 = (if BCDSanitize v vmin vmax >? DaysInMonth s then 1
              else BCDSanitize v vmin vmax)) /\
  (forall ct r, set_State (State r) (CmdWrite ct val r) = r).
Proof.
  intros Hlen Hval Hnum v vmin vmax s'.
  assert (Hv : 0 <= v < 256) by (apply land_byte_range; exact Hval).
  assert (Hstored :
    field_value num s'
      = if num =? 3
        then (if BCDSanitize v vmin vmax >? DaysInMonth s then 1
              else BCDSanitize v vmin vmax)
        else BCDSanitize v vmin vmax).
  { assert (Hcases : num = 1 \/ num = 2 \/ num = 3 \/ num = 4 \/
                     num = 5 \/ num = 6 \/ num = 7) by lia.
    unfold s', v, vmin, vmax, field_value.
    destruct Hcases as [->|[->|[->|[->|[->|[->| ->]]]]]];
      cbn [WriteDateTime field_mask field_bounds fst snd Z.eqb Pos.eqb
           Z.sub Z.add Z.pos_sub Z.to_nat Pos.to_nat Pos.iter_op Nat.add
           Z.opp Z.succ_double Z.pred_double Z.double Pos.pred_double];
      try (dt_simpl; reflexivity).
    - (* year: the mask 0xFF keeps a byte as it is *)
      dt_simpl. f_equal. symmetry. change 255 with (Z.ones 8).
      rewrite Z.land_ones by lia. apply Z.mod_small. exact Hval.
    - (* day *)
      unfold CheckEndOfMonth. rewrite DaysInMonth_set_dt by lia. dt_simpl.
      destruct (_ >? _); [|dt_simpl; reflexivity].
      unfold CountMonth. dt_simpl.
      destruct (_ >? _); unfold CountYear; dt_simpl; reflexivity.
    - (* hour *)
      fold (mode24 s). pose proof (hour_write_field (mode24 s) val Hval) as Hh.
      destruct (mode24 s); cbv beta iota zeta in Hh |- *;
        apply Z.eqb_eq in Hh; dt_simpl; exact Hh. }
  assert (Hspec :
    BCDSanitize v vmin vmax = if bcd_in_range v vmin vmax then v else vmin).
  { unfold vmin, vmax.
    assert (Hcases : num = 1 \/ num = 2 \/ num = 3 \/ num = 4 \/
                     num = 5 \/ num = 6 \/ num = 7) by lia.
    destruct Hcases as [->|[->|[->|[->|[->|[->| ->]]]]]];
      destruct (mode24 s); cbn [field_bounds fst snd];
      apply BCDSanitize_spec; try exact Hv; try reflexivity; lia. }
  split; [exact Hspec|]. split; [|split; [|split; [|split]]].
  - intros Hbad. rewrite Hstored, Hspec, Hbad.
    destruct (Z.eqb_spec num 3) as [->|_]; [|reflexivity].
    destruct (vmin >? DaysInMonth s); reflexivity.
  - intros Hok Hne. rewrite Hstored, Hspec, Hok.
    destruct (Z.eqb_spec num 3); [contradiction | reflexivity].
  - intros Hne3 Hne5. 
    unfold field_value in Hstored.
    destruct (Z.eqb_spec num 3); [contradiction |].
    destruct (Z.eqb_spec num 5); [contradiction | exact Hstored].
  - intros ->. exact Hstored.
  - intros ct r. apply CmdWrite_frame.
Qed.

Lemma WriteDateTime_clamps_witness :
  field_value 2 (WriteDateTime 2 0x13 ResetState) = 0x01 /\
  field_value 6 (WriteDateTime 6 0x42 ResetState) = 0x42.
Proof.
  pose proof (WriteDateTime_clamps ResetState 2 0x13
                eq_refl ltac:(lia) ltac:(lia)) as H2.
  pose proof (WriteDateTime_clamps ResetState 6 0x42
                eq_refl ltac:(lia) ltac:(lia)) as H6.
  cbv zeta in H2, H6.
  destruct H2 as (_ & H2 & _). destruct H6 as (_ & _ & H6 & _).
  split; [exact (H2 eq_refl) | apply (H6 eq_refl); discriminate].
Defined.


(** ** Status register 1 writes *)

Lemma nonzero_land_bit0 (x : Z) :
  nonzero (Z.land x (Z.shiftl 1 0)) = Z.testbit x 0.
Proof.
  change (Z.shiftl 1 0) with (Z.ones 1). rewrite Z.land_ones by lia.
  rewrite <- (Z.mod_pow2_bits_low x 1 0) by lia. unfold nonzero.
  pose proof (Z.mod_pos_bound x (2 ^ 1) ltac:(lia)).
  assert (Hc : x mod 2 ^ 1 = 0 \/ x mod 2 ^ 1 = 1) by lia.
  destruct Hc as [-> | ->]; reflexivity.
Qed.

Lemma nonzero_land_bit1 (x : Z) :
  nonzero (Z.land x (Z.shiftl 1 1)) = Z.testbit x 1.
Proof.
  rewrite <- (Z.mod_pow2_bits_low x 2 1) by lia.
  replace (Z.land x (Z.shiftl 1 1)) with (Z.land (x mod 2 ^ 2) (Z.shiftl 1 1)).
  - pose proof (Z.mod_pos_bound x (2 ^ 2) ltac:(lia)).
    assert (Hc : x mod 2 ^ 2 = 0 \/ x mod 2 ^ 2 = 1 \/
                 x mod 2 ^ 2 = 2 \/ x mod 2 ^ 2 = 3) by lia.
    destruct Hc as [-> | [-> | [-> | ->]]]; reflexivity.
  - rewrite <- Z.land_ones by lia. rewrite <- Z.land_assoc. reflexivity.
Qed.

(** Bit 1 of the new status register 1 is bit 1 of the written byte. *)
Lemma status1_new_mode_bit (old val : Z) :
  Z.testbit (Z.lor (Z.land old 0xF0) (Z.land val 0x0E)) 1 = Z.testbit val 1.
Proof.
  rewrite Z.lor_spec, !Z.land_spec.
  change (Z.testbit 0xF0 1) with false. change (Z.testbit 0x0E 1) with true.
  rewrite andb_false_r, andb_true_r. reflexivity.
Qed.

Lemma ByteIn_status1_write (ct val : Z) (r : RTC) :
  Z.land (CurCmd r) 0x0F = 0x06 -> Z.land (CurCmd r) 0x70 = 0x00 ->
  InputPos r = 1 ->
  State (ByteIn ct val r) = WriteStatusReg1 val (State r).
Proof.
  intros Hlo Hgrp Hpos. unfold ByteIn, CmdWrite.
  rewrite Hpos, Hlo, Hgrp. reflexivity.
Qed.

(** The status-register-1 write with the reset bit set. *)
Lemma WriteStatusReg1_reset (val : Z) (s : StateData) :
  Z.testbit val 0 = true ->
  WriteStatusReg1 val s = set_StatusReg1 (Z.land val 0x0E) ResetState.
Proof.
  intros Hbit. unfold WriteStatusReg1.
  rewrite nonzero_land_bit0, Hbit.
  change (StatusReg1 ResetState) with 0.
  rewrite Z.land_0_l, Z.lor_0_l.
  destruct (nonzero (Z.land (Z.lxor _ _) _)); [|reflexivity].
  destruct (nonzero (Z.land _ _)); reflexivity.
Qed.

(** C3, as stated, fails: with the power-on flag (bit 7 of status register
    1) set, a write of 0x81 (reset bit set, bit 7 set as well) leaves the
    flag cleared, while the same write without the reset bit (0x80) leaves
    it set. *)
Lemma status1_reset_power_on_flag_counterexample :
  Z.land (StatusReg1 (State status1_write_session)) 0x80 = 0x80 /\
  Z.land 0x81 0x80 = 0x80 /\
  Z.land (StatusReg1 (State (ByteIn 0 0x81 status1_write_session))) 0x80 = 0 /\
  Z.land (StatusReg1 (State (ByteIn 0 0x80 status1_write_session))) 0x80 = 0x80.
Proof. vm_compute. repeat split. Qed.

(** C3 (amended): for every prior state, a status-register-1 write with
    the reset bit (bit 0) set leaves the calendar at the default date (month
    1, day 1, every other date/time field 0); the reset clears the whole
    register file, so status register 1 ends as the written byte's bits 1-3
    with its upper nibble, the power-on flag included, cleared, and every
    other register is zero. *)
Theorem status1_reset_write (ct val : Z) (r : RTC) :
  Z.land (CurCmd r) 0x0F = 0x06 -> Z.land (CurCmd r) 0x70 = 0x00 ->
  InputPos r = 1 -> Z.testbit val 0 = true ->
  let s' := State (ByteIn ct val r) in
  DateTime s' = [0; 1; 1; 0; 0; 0; 0] /\
  StatusReg1 s' = Z.land val 0x0E /\
  Z.land (StatusReg1 s') 0xF0 = 0 /\
  s' = set_StatusReg1 (Z.land val 0x0E) ResetState.
Proof.
  intros Hlo Hgrp Hpos Hbit s'. unfold s'.
  rewrite ByteIn_status1_write by assumption.
  rewrite WriteStatusReg1_reset by assumption.
  repeat split.
  cbn [StatusReg1 set_StatusReg1].
  rewrite <- Z.land_assoc. change (Z.land 14 240) with 0.
  apply Z.land_0_r.
Qed.

Lemma status1_reset_write_witness :
  DateTime (State (ByteIn 0 0x03 nine_pm_session)) = [0; 1; 1; 0; 0; 0; 0] /\
  StatusReg1 (State (ByteIn 0 0x03 nine_pm_session)) = 0x02.
Proof.
  pose proof (status1_reset_write 0 0x03 nine_pm_session
                eq_refl eq_refl eq_refl eq_refl) as H.
  cbv zeta in H. destruct H as (Hd & Hs & _).
  split; [exact Hd | exact Hs].
Defined.

(** Switching to 24-hour mode, checked on every byte [DateTime[4]] can
    hold. *)
Lemma ConvertHour_to24_bytes :
  forall d, 0 <= d < 256 ->
    (let hour := Z.land d 0x3F in
     let pm := Z.land d 0x40 in
     let new := ConvertHour true d in
     (Z.land new 0x40 =? pm) &&
     bcd_in_range (Z.land new 0x3F) 0x00 0x23 &&
     implb (bcd_valid hour)
       (Z.land new 0x3F =?
          BCDSanitize (BCD (bcd_decode hour + (if nonzero pm then 12 else 0)))
                      0x00 0x23)) = true.
Proof. enumerate. Qed.

(** Switching to 12-hour mode, likewise. *)
Lemma ConvertHour_to12_bytes :
  forall d, 0 <= d < 256 ->
    (let hour := Z.land d 0x3F in
     let new := ConvertHour false d in
     (Z.land new 0x40 =? (if hour >=? 0x12 then 0x40 else 0)) &&
     bcd_in_range (Z.land new 0x3F) 0x00 0x11 &&
     implb (bcd_valid hour)
       (Z.land new 0x3F =?
          BCDSanitize
            (BCD (if 12 <=? bcd_decode hour then bcd_decode hour - 12
                  else bcd_decode hour))
            0x00 0x11)) = true.
Proof. enumerate. Qed.

(** A status-register-1 write without the reset bit, by whether it toggles
    the mode bit. *)
Lemma WriteStatusReg1_no_reset (val : Z) (s : StateData) :
  Z.testbit val 0 = false ->
  WriteStatusReg1 val s =
    let s1 := set_StatusReg1
                (Z.lor (Z.land (StatusReg1 s) 0xF0) (Z.land val 0x0E)) s in
    if xorb (Z.testbit val 1) (mode24 s)
    then set_dt 4 (ConvertHour (Z.testbit val 1) (dt s 4)) s1
    else s1.
Proof.
  intros Hbit. unfold WriteStatusReg1, mode24.
  rewrite nonzero_land_bit0, Hbit. cbv zeta.
  cbn [StatusReg1 set_StatusReg1].
  rewrite !nonzero_land_bit1, Z.lxor_spec, status1_new_mode_bit.
  reflexivity.
Qed.

(** C2, as stated, fails: from hour byte 0x49 (9 PM in 12-hour mode) the
    switch to 24-hour mode stores the byte 0x61, hour field 0x21 together
    with the PM flag, and not 0x21. *)
Lemma hour_0x49_to24_counterexample :
  mode24 (State nine_pm_session) = false /\
  dt (State nine_pm_session) 4 = 0x49 /\
  mode24 (State (ByteIn 0 0x02 nine_pm_session)) = true /\
  dt (State (ByteIn 0 0x02 nine_pm_session)) 4 = 0x61 /\
  dt (State (ByteIn 0 0x02 nine_pm_session)) 4 <> 0x21.
Proof. vm_compute. repeat split; discriminate. Qed.

(** C2 (amended): a status-register-1 write with the reset bit clear that
    toggles the 12/24-hour mode bit reinterprets the hour at once.  Going to
    24-hour mode the AM/PM flag (bit 6) is kept and a valid BCD hour with
    the flag set takes a BCD addition of 12; going to 12-hour mode an hour
    field of 0x12 or more takes a BCD subtraction of 12 and sets the flag, a
    smaller one clears it; the result is then re-validated against the
    range of the new mode (0x00..0x23 or 0x00..0x11, the minimum 0 replacing
    what falls outside).  From hour byte 0x49 in 12-hour mode the hour field
    (bits 0-5) becomes 0x21 and the stored byte, with the PM flag still set,
    0x61.  A write with the reset bit clear that leaves the mode bit as it
    is leaves the date/time bytes alone.  A write with the reset bit set
    resets the calendar first: the date/time bytes are those of the default
    date and the hour byte is 0x00, whichever mode the write selects.  In
    every case the mode after the write is bit 1 of the written byte. *)
Theorem mode_switch_reinterprets_hour (ct val : Z) (r : RTC) :
  length (DateTime (State r)) = 7%nat ->
  Z.land (CurCmd r) 0x0F = 0x06 -> Z.land (CurCmd r) 0x70 = 0x00 ->
  InputPos r = 1 ->
  0 <= dt (State r) 4 < 256 ->
  let s := State r in
  let s' := State (ByteIn ct val r) in
  let hour := Z.land (dt s 4) 0x3F in
  let pm := Z.land (dt s 4) 0x40 in
  let hour' := Z.land (dt s' 4) 0x3F in
  let pm' := Z.land (dt s' 4) 0x40 in
  mode24 s' = Z.testbit val 1 /\
  (Z.testbit val 0 = false ->
     (mode24 s = false -> Z.testbit val 1 = true ->
        (dt s 4 = 0x49 -> dt s' 4 = 0x61 /\ hour' = 0x21 /\ pm' = 0x40) /\
        dt s' 4 = ConvertHour true (dt s 4) /\
        pm' = pm /\
        bcd_in_range hour' 0x00 0x23 = true /\
        (bcd_valid hour = true ->
           hour' = BCDSanitize
                     (BCD (bcd_decode hour + (if nonzero pm then 12 else 0)))
                     0x00 0x23)) /\
     (mode24 s = true -> Z.testbit val 1 = false ->
        dt s' 4 = ConvertHour false (dt s 4) /\
        pm' = (if hour >=? 0x12 then 0x40 else 0) /\
        bcd_in_range hour' 0x00 0x11 = true /\
        (bcd_valid hour = true ->
           hour' = BCDSanitize
                     (BCD (if 12 <=? bcd_decode hour then bcd_decode hour - 12
                           else bcd_decode hour))
                     0x00 0x11)) /\
     (mode24 s = Z.testbit val 1 -> DateTime s' = DateTime s)) /\
  (Z.testbit val 0 = true ->
     DateTime s' = [0; 1; 1; 0; 0; 0; 0] /\
     dt s' 4 = 0x00 /\
     dt s' 4 = ConvertHour (Z.testbit val 1) (dt ResetState 4)).
Proof.
  intros Hlen Hlo Hgrp Hpos Hd s s' hour pm hour' pm'.
  change (length (DateTime s) = 7%nat) in Hlen.
  change (0 <= dt s 4 < 256) in Hd.
  assert (Es' : s' = WriteStatusReg1 val s)
    by (apply ByteIn_status1_write; assumption).
  destruct (Z.testbit val 0) eqn:Hbit.
  { (* reset *)
    rewrite WriteStatusReg1_reset in Es' by assumption.
    split; [|split; [discriminate|]].
    - rewrite Es'. unfold mode24. cbn [StatusReg1 set_StatusReg1].
      rewrite nonzero_land_bit1, Z.land_spec.
      change (Z.testbit 0x0E 1) with true. apply andb_true_r.
    - intros _. rewrite Es'.
      split; [reflexivity|]. split; [reflexivity|].
      destruct (Z.testbit val 1); reflexivity. }
  rewrite WriteStatusReg1_no_reset in Es' by assumption. cbv zeta in Es'.
  assert (Hmode : mode24 s' = Z.testbit val 1).
  { rewrite Es'. unfold mode24.
    destruct (xorb _ _); cbn [StatusReg1 set_StatusReg1 set_dt set_DateTime];
      rewrite nonzero_land_bit1; apply status1_new_mode_bit. }
  split; [exact Hmode|]. split; [|discriminate].
  intros _. split; [|split].
  - intros Hold Hnew. rewrite Hold, Hnew in Es'. cbn [xorb] in Es'.
    assert (E4 : dt s' 4 = ConvertHour true (dt s 4)).
    { rewrite Es'. rewrite dt_set_dt_eq; [reflexivity|].
      cbn [DateTime set_StatusReg1]. lia. }
    pose proof (ConvertHour_to24_bytes (dt s 4) Hd) as Hb. cbv zeta in Hb.
    rewrite !andb_true_iff in Hb. destruct Hb as [[Hpm Hrng] Hdec].
    apply Z.eqb_eq in Hpm.
    unfold hour', pm', hour, pm. rewrite E4.
    split; [|repeat split; try assumption].
    + intros ->. repeat split.
    + intros Hvalid. fold hour in Hvalid. unfold hour in Hvalid.
      rewrite Hvalid in Hdec. apply Z.eqb_eq in Hdec. exact Hdec.
  - intros Hold Hnew. rewrite Hold, Hnew in Es'. cbn [xorb] in Es'.
    assert (E4 : dt s' 4 = ConvertHour false (dt s 4)).
    { rewrite Es'. rewrite dt_set_dt_eq; [reflexivity|].
      cbn [DateTime set_StatusReg1]. lia. }
    pose proof (ConvertHour_to12_bytes (dt s 4) Hd) as Hb. cbv zeta in Hb.
    rewrite !andb_true_iff in Hb. destruct Hb as [[Hpm Hrng] Hdec].
    apply Z.eqb_eq in Hpm.
    unfold hour', pm', hour, pm. rewrite E4.
    repeat split; try assumption.
    intros Hvalid. rewrite Hvalid in Hdec. apply Z.eqb_eq in Hdec. exact Hdec.
  - intros Hsame. rewrite Hsame in Es'. rewrite xorb_nilpotent in Es'.
    rewrite Es'. reflexivity.
Qed.

Lemma mode_switch_reinterprets_hour_witness :
  dt (State (ByteIn 0 0x02 nine_pm_session)) 4 = 0x61 /\
  Z.land (dt (State (ByteIn 0 0x02 nine_pm_session)) 4) 0x3F = 0x21 /\
  mode24 (State (ByteIn 0 0x03 nine_pm_session)) = true /\
  dt (State (ByteIn 0 0x03 nine_pm_session)) 4 = 0x00.
Proof.
  pose proof (mode_switch_reinterprets_hour 0 0x02 nine_pm_session
                eq_refl eq_refl eq_refl eq_refl
                ltac:(vm_compute; split; [discriminate | reflexivity])) as H.
  pose proof (mode_switch_reinterprets_hour 0 0x03 nine_pm_session
                eq_refl eq_refl eq_refl eq_refl
                ltac:(vm_compute; split; [discriminate | reflexivity])) as H'.
  cbv zeta in H, H'. destruct H as (_ & H & _). destruct H' as (M & _ & H').
  destruct (H eq_refl) as (H24 & _).
  destruct (H24 eq_refl eq_refl) as (H49 & _).
  destruct (H49 eq_refl) as (Hb & Hh & _).
  destruct (H' eq_refl) as (_ & H0 & _).
  split; [exact Hb|]. split; [exact Hh|]. split; [exact M | exact H0].
Defined.

(** ** Hour rollover *)

Lemma set_dt_comm (i j : nat) (a b : Z) (s : StateData) :
  i <> j -> set_dt i a (set_dt j b s) = set_dt j b (set_dt i a s).
Proof.
  intros Hij. unfold set_dt. cbn [DateTime set_DateTime].
  unfold set_DateTime. cbn. f_equal. by apply list_insert_insert_ne.
Qed.

Lemma set_dt_set_dt (i : nat) (a b : Z) (s : StateData) :
  set_dt i a (set_dt i b s) = set_dt i a s.
Proof.
  unfold set_dt. cbn [DateTime set_DateTime].
  unfold set_DateTime. cbn. f_equal. by apply list_insert_insert_eq.
Qed.

Lemma set_dt_same (i : nat) (s : StateData) :
  set_dt i (dt s i) s = s.
Proof.
  unfold set_dt, dt, set_DateTime.
  destruct s as [? ? l ? ? ? ? ? ? ? ? ?]; cbn. f_equal.
  apply list_eq. intros j. destruct (decide (i = j)) as [->|Hne].
  - destruct (decide (j < length l)%nat).
    + rewrite list_lookup_insert_eq by done.
      symmetry. by apply list_lookup_lookup_total_lt.
    + by rewrite list_insert_ge by lia.
  - by rewrite list_lookup_insert_ne.
Qed.

Ltac hour_out := repeat (rewrite (set_dt_comm _ 4) by lia).

Lemma CountYear_hour_frame (v : Z) (s : StateData) :
  length (DateTime s) = 7%nat ->
  CountYear (set_dt 4 v s) = set_dt 4 v (CountYear s).
Proof. intros Hlen. unfold CountYear. dt_simpl. hour_out. reflexivity. Qed.

Lemma CountMonth_hour_frame (v : Z) (s : StateData) :
  length (DateTime s) = 7%nat ->
  CountMonth (set_dt 4 v s) = set_dt 4 v (CountMonth s).
Proof.
  intros Hlen. unfold CountMonth, CountYear. dt_simpl.
  destruct (_ >? _); dt_simpl; hour_out; reflexivity.
Qed.

Lemma CheckEndOfMonth_hour_frame (v : Z) (s : StateData) :
  length (DateTime s) = 7%nat ->
  CheckEndOfMonth (set_dt 4 v s) = set_dt 4 v (CheckEndOfMonth s).
Proof.
  intros Hlen. unfold CheckEndOfMonth.
  rewrite DaysInMonth_set_dt by lia. dt_simpl.
  destruct (_ >? _); [|reflexivity].
  hour_out. apply CountMonth_hour_frame. by rewrite length_set_dt.
Qed.

Lemma CountDay_hour_frame (v : Z) (s : StateData) :
  length (DateTime s) = 7%nat ->
  CountDay (set_dt 4 v s) = set_dt 4 v (CountDay s).
Proof.
  intros Hlen. unfold CountDay. dt_simpl.
  destruct (_ >=? _); dt_simpl; hour_out;
    apply CheckEndOfMonth_hour_frame; by rewrite ?length_set_dt.
Qed.

(** [CountDay] keeps the array size, the hour byte and the mode bit. *)
Lemma CountDay_keeps (s : StateData) :
  length (DateTime (CountDay s)) = length (DateTime s) /\
  dt (CountDay s) 4 = dt s 4 /\
  StatusReg1 (CountDay s) = StatusReg1 s.
Proof.
  unfold CountDay, CheckEndOfMonth, CountMonth, CountYear.
  repeat match goal with
         | |- context [if ?c then _ else _] => destruct c
         end;
    rewrite ?length_set_dt, ?StatusReg1_set_dt;
    repeat split; rewrite ?dt_set_dt_ne by lia; reflexivity.
Qed.

Lemma iter_CountDay_keeps (n : nat) (s : StateData) :
  length (DateTime (Nat.iter n CountDay s)) = length (DateTime s) /\
  dt (Nat.iter n CountDay s) 4 = dt s 4 /\
  StatusReg1 (Nat.iter n CountDay s) = StatusReg1 s.
Proof.
  induction n as [|n (IH1 & IH2 & IH3)]; [by repeat split|].
  change (Nat.iter (S n) CountDay s) with (CountDay (Nat.iter n CountDay s)).
  destruct (CountDay_keeps (Nat.iter n CountDay s)) as (H1 & H2 & H3).
  rewrite H1, H2, H3. by repeat split.
Qed.

(** One [CountHour] in terms of the hour byte. *)
Lemma CountHour_hour_step (s : StateData) :
  CountHour s =
    set_dt 4 (fst (hour_step (mode24 s) (dt s 4)))
           (if snd (hour_step (mode24 s) (dt s 4)) then CountDay s else s).
Proof.
  unfold CountHour, hour_step. fold (mode24 s).
  destruct (mode24 s).
  - destruct (_ >=? 0x24); reflexivity.
  - destruct (_ >=? 0x12); [|reflexivity].
    cbn [fst snd]. destruct (nonzero _); reflexivity.
Qed.

(** Any number of [CountHour] calls: the hour byte follows [hour_run] and
    [CountDay] has run as often as [hour_run] counts. *)
Lemma iter_CountHour_hour_run (n : nat) (s : StateData) :
  length (DateTime s) = 7%nat ->
  Nat.iter n CountHour s =
    set_dt 4 (fst (hour_run n (mode24 s) (dt s 4)))
           (Nat.iter (snd (hour_run n (mode24 s) (dt s 4))) CountDay s).
Proof.
  intros Hlen. induction n as [|n IH].
  - cbn [Nat.iter hour_run fst snd]. by rewrite set_dt_same.
  - change (Nat.iter (S n) CountHour s)
      with (CountHour (Nat.iter n CountHour s)).
    cbn [hour_run]. rewrite IH.
    destruct (hour_run n (mode24 s) (dt s 4)) as [d1 days]. cbn [fst snd].
    destruct (iter_CountDay_keeps days s) as (K1 & K2 & K3).
    rewrite CountHour_hour_step.
    assert (Em : mode24 (set_dt 4 d1 (Nat.iter days CountDay s)) = mode24 s)
      by (unfold mode24; rewrite StatusReg1_set_dt, K3; reflexivity).
    rewrite Em. rewrite dt_set_dt_eq by lia.
    destruct (hour_step (mode24 s) d1) as [d2 carry]. cbn [fst snd].
    destruct carry.
    + rewrite CountDay_hour_frame by lia. by rewrite set_dt_set_dt.
    + by rewrite set_dt_set_dt.
Qed.

(** From any valid hour byte, 24 hour steps call [CountDay] exactly once
    and bring the hour field back. *)
Lemma hour_run_24 (m24 : bool) :
  forall d, 0 <= d < 256 ->
    implb (bcd_in_range (Z.land d 0x3F) 0x00 (if m24 then 0x23 else 0x11))
          ((Nat.eqb (snd (hour_run 24 m24 d)) 1) &&
           (Z.land (fst (hour_run 24 m24 d)) 0x3F =? Z.land d 0x3F))
    = true.
Proof. destruct m24; enumerate. Qed.

(** In 12-hour mode, 12 hour steps call [CountDay] only when they start in
    the PM half. *)
Lemma hour_run_12 :
  forall d, 0 <= d < 256 ->
    implb (bcd_in_range (Z.land d 0x3F) 0x00 0x11)
          (if nonzero (Z.land d 0x40)
           then (Nat.eqb (snd (hour_run 12 false d)) 1) &&
                (fst (hour_run 12 false d) =? Z.land d 0x3F)
           else (Nat.eqb (snd (hour_run 12 false d)) 0) &&
                (fst (hour_run 12 false d) =? Z.lor (Z.land d 0x3F) 0x40))
    = true.
Proof. enumerate. Qed.

Lemma land_0x40_cases :
  forall d, 0 <= d < 256 ->
    ((Z.land d 0x40 =? 0) || (Z.land d 0x40 =? 0x40)) = true.
Proof. enumerate. Qed.

(** One hour-level carry ([CountHour]) and the calls of [CountDay].  In
    24-hour mode the hour overflows at 0x24, goes to 0 and [CountDay] runs.
    In 12-hour mode the hour goes to 0 and the AM/PM flag toggles when the
    hour reaches 0x12, and [CountDay] runs only when the flag was PM.
    Hence, from a valid hour, 24 counted hours run [CountDay] exactly once
    in either mode, and in 12-hour mode 12 counted hours run it only when
    they start in the PM half. *)
Lemma CountHour_calls_CountDay (s : StateData) :
  length (DateTime s) = 7%nat -> 0 <= dt s 4 < 256 ->
  let hour := BCDIncrement (Z.land (dt s 4) 0x3F) in
  let pm := Z.land (dt s 4) 0x40 in
  (mode24 s = true ->
     CountHour s =
       if hour >=? 0x24 then set_dt 4 0 (CountDay s)
       else set_dt 4 (Z.lor hour (if hour >=? 0x12 then 0x40 else 0)) s) /\
  (mode24 s = false ->
     CountHour s =
       if hour >=? 0x12
       then (if nonzero pm then set_dt 4 0 (CountDay s) else set_dt 4 0x40 s)
       else set_dt 4 (Z.lor hour pm) s) /\
  (hour_valid s = true ->
     exists h4,
       Nat.iter 24 CountHour s = set_dt 4 h4 (CountDay s) /\
       Z.land h4 0x3F = Z.land (dt s 4) 0x3F) /\
  (mode24 s = false -> hour_valid s = true ->
     Nat.iter 12 CountHour s =
       if nonzero pm then set_dt 4 (Z.land (dt s 4) 0x3F) (CountDay s)
       else set_dt 4 (Z.lor (Z.land (dt s 4) 0x3F) 0x40) s).
Proof.
  intros Hlen Hd hour pm. split; [|split; [|split]].
  - intros Hm. unfold CountHour. fold (mode24 s). rewrite Hm.
    fold hour. destruct (hour >=? 0x24); reflexivity.
  - intros Hm. unfold CountHour. fold (mode24 s). rewrite Hm.
    fold hour pm. destruct (hour >=? 0x12); [|reflexivity].
    pose proof (land_0x40_cases (dt s 4) Hd) as Hpm. fold pm in Hpm.
    apply orb_true_iff in Hpm. rewrite !Z.eqb_eq in Hpm.
    destruct Hpm as [-> | ->]; reflexivity.
  - intros Hv. unfold hour_valid in Hv.
    pose proof (hour_run_24 (mode24 s) (dt s 4) Hd) as Hr.
    rewrite Hv in Hr. cbn [implb] in Hr.
    apply andb_true_iff in Hr. destruct Hr as [Hdays Hh].
    apply Nat.eqb_eq in Hdays. apply Z.eqb_eq in Hh.
    exists (fst (hour_run 24 (mode24 s) (dt s 4))). split; [|exact Hh].
    rewrite (iter_CountHour_hour_run 24 s Hlen), Hdays. reflexivity.
  - intros Hm Hv. unfold hour_valid in Hv. rewrite Hm in Hv.
    pose proof (hour_run_12 (dt s 4) Hd) as Hr.
    rewrite Hv in Hr. cbn [implb] in Hr. fold pm in Hr.
    rewrite (iter_CountHour_hour_run 12 s Hlen), Hm.
    destruct (nonzero pm);
      apply andb_true_iff in Hr; destruct Hr as [Hdays Hh];
      apply Nat.eqb_eq in Hdays; apply Z.eqb_eq in Hh;
      rewrite Hdays, Hh; reflexivity.
Qed.

(** ** Command decoding *)

Example bit_reverse8_0x86 : bit_reverse8 0x86 = 0x61.
Proof. reflexivity. Qed.

Example free_reg_read_session_cmd :
  CurCmd free_reg_read_session = 0xF6 /\ InputPos free_reg_read_session = 1.
Proof. vm_compute. split; reflexivity. Qed.

(** Serial round trip on the power-on state: the read command for status
    register 1 (0x86), shifted in bit by bit, reaches [CurCmd] unchanged;
    the byte shifted out is the power-on value 0x80, whose upper nibble the
    read has cleared in the register. *)
Example serial_round_trip_status1 :
  let r := host_send_byte 0 0x86 (host_begin 0 power_on) in
  CurCmd r = 0x86 /\
  snd (host_recv_byte 0 r) = 0x80 /\
  StatusReg1 (State r) = 0x00.
Proof. vm_compute. repeat split. Qed.

(** Reading the seven date/time bytes and then three more: the cursor stops
    at 7 and the reads past the end return the last buffer byte. *)
Example over_read_repeats_last_byte :
  let r := host_send_byte 0 0xA6 (host_begin 0 power_on) in
  let '(r, bits) := host_recv_bits 0 80 r in
  OutputPos r = 7 /\ Output r = [0; 1; 1; 0; 0; 0; 0; 0].
Proof. vm_compute. split; reflexivity. Qed.

(** A full date/time write through the serial interface: 29 February 2024,
    23:59:58 in 24-hour mode, then two seconds of ticks. *)
Example leap_day_rollover :
  let r := host_send_byte 0 0x06 (host_begin 0 power_on) in
  let r := host_send_byte 0 0x02 r in
  let r := host_begin 0 (Write 0 0x00 false r) in
  let r := fold_left (fun r v => host_send_byte 0 v r)
                     [0x26; 0x24; 0x02; 0x29; 0x04; 0x23; 0x59; 0x58] r in
  DateTime (State r) = [0x24; 0x02; 0x29; 0x04; 0x63; 0x59; 0x58] /\
  DateTime (CountSecond (CountSecond (State r)))
    = [0x24; 0x03; 0x01; 0x05; 0x00; 0x00; 0x00].
Proof. vm_compute. split; reflexivity. Qed.

Lemma CmdRead_CurCmd (ct : Z) (r : RTC) : CurCmd (CmdRead ct r) = CurCmd r.
Proof. destruct r. unfold CmdRead. repeat case_match; reflexivity. Qed.

(** [ByteIn] on the first byte of a session. *)
Lemma ByteIn_first (ct val : Z) (r : RTC) :
  InputPos r = 0 ->
  ByteIn ct val r =
    let r' := set_CurCmd (normalize_command (ct =? 1) val) r in
    if nonzero (Z.land (CurCmd r') 0x80) then CmdRead ct r' else r'.
Proof.
  intros Hpos. unfold ByteIn, normalize_command. rewrite Hpos.
  change (0 =? 0) with true. cbv iota.
  destruct (Z.land val 0xF0 =? 0x60), (ct =? 1);
    cbn [CurCmd set_CurCmd andb]; try reflexivity;
    destruct (_ =? 0x70); cbn [andb]; try reflexivity;
    destruct (_ =? 0x76); reflexivity.
Qed.

Lemma normalize_base (dsi : bool) :
  forall c, 0 <= c < 256 ->
    implb (base_command c)
          ((normalize_command dsi c =? c) &&
           (normalize_command dsi (bit_reverse8 c) =? c) &&
           (Z.land (bit_reverse8 c) 0xF0 =? 0x60)) = true.
Proof. destruct dsi; enumerate. Qed.

Lemma normalize_ext :
  forall c, 0 <= c < 256 ->
    implb (ext_command c)
          ((normalize_command true c =? c) &&
           (normalize_command true (bit_reverse8 c) =? c) &&
           (Z.land (bit_reverse8 c) 0xF0 =? 0x70)) = true.
Proof. enumerate. Qed.

Lemma rev_tables_reverse :
  forall i, 0 <= i < 16 ->
    ((rev_base !!! Z.to_nat i =? bit_reverse8 (0x60 + i)) &&
     (rev_ext !!! Z.to_nat i =? bit_reverse8 (0x70 + i))) = true.
Proof. enumerate. Qed.

(** No entry of the base table is taken for a reversed extended command. *)
Lemma rev_base_not_ext :
  forall i, 0 <= i < 16 ->
    (let cmd := rev_base !!! Z.to_nat i in
     (Z.land cmd 0xF0 =? 0x70) && negb (Z.land cmd 0xFE =? 0x76)) = false.
Proof.
  assert (H : forall i, 0 <= i < 16 ->
            negb (let cmd := rev_base !!! Z.to_nat i in
                  (Z.land cmd 0xF0 =? 0x70) && negb (Z.land cmd 0xFE =? 0x76))
            = true) by enumerate.
  intros i Hi. apply negb_true_iff. exact (H i Hi).
Qed.

(** C8: on the first byte of a session [ByteIn] accepts a command in its
    natural form or with its eight bits reversed.  A byte whose high nibble
    is 6 is replaced through the 16-entry table [rev_base], whose entries are
    the bit reversals of 0x60..0x6F, before the group dispatch; so every
    command of the base set (low nibble 6) leaves the same [CurCmd], hence
    the same register group and direction, and the same module state,
    whether sent naturally or reversed.  With the DSi console type the table
    [rev_ext] (the reversals of 0x70..0x7F) does the same, in a step of its
    own, for the commands of the extended set (low nibble 0xE). *)
Theorem ByteIn_accepts_both_forms (ct c : Z) (r : RTC) :
  0 <= c < 256 -> InputPos r = 0 ->
  (base_command c = true ->
     CurCmd (ByteIn ct c r) = c /\
     ByteIn ct (bit_reverse8 c) r = ByteIn ct c r) /\
  (ext_command c = true -> ct = 1 ->
     CurCmd (ByteIn ct c r) = c /\
     ByteIn ct (bit_reverse8 c) r = ByteIn ct c r) /\
  (forall i, 0 <= i < 16 ->
     rev_base !!! Z.to_nat i = bit_reverse8 (0x60 + i) /\
     rev_ext !!! Z.to_nat i = bit_reverse8 (0x70 + i)) /\
  (forall val,
     Z.land val 0xF0 = 0x60 ->
     CurCmd (ByteIn ct val r) = rev_base !!! Z.to_nat (Z.land val 0xF)) /\
  (forall val,
     ct = 1 -> Z.land val 0xF0 = 0x70 -> Z.land val 0xFE <> 0x76 ->
     CurCmd (ByteIn ct val r) = rev_ext !!! Z.to_nat (Z.land val 0xF)).
Proof.
  intros Hc Hpos.
  assert (Hcur : forall val,
             CurCmd (ByteIn ct val r) = normalize_command (ct =? 1) val).
  { intros val. rewrite ByteIn_first by assumption. cbv zeta.
    destruct (nonzero _); [rewrite CmdRead_CurCmd|]; reflexivity. }
  split; [|split; [|split; [|split]]].
  - intros Hb. pose proof (normalize_base (ct =? 1) c Hc) as Hn.
    rewrite Hb in Hn. cbn [implb] in Hn.
    rewrite !andb_true_iff, !Z.eqb_eq in Hn. destruct Hn as [[Hn Hr] _].
    split; [rewrite Hcur; exact Hn|].
    rewrite !ByteIn_first by assumption. rewrite Hn, Hr. reflexivity.
  - intros He ->. pose proof (normalize_ext c Hc) as Hn.
    rewrite He in Hn. cbn [implb] in Hn.
    rewrite !andb_true_iff, !Z.eqb_eq in Hn. destruct Hn as [[Hn Hr] _].
    split; [rewrite Hcur; exact Hn|].
    rewrite !ByteIn_first by assumption.
    change (1 =? 1) with true. rewrite Hn, Hr. reflexivity.
  - intros i Hi. pose proof (rev_tables_reverse i Hi) as Ht.
    rewrite andb_true_iff, !Z.eqb_eq in Ht. exact Ht.
  - intros val Hval. rewrite Hcur. unfold normalize_command.
    rewrite Hval. change (0x60 =? 0x60) with true. cbv iota.
    change 0xF with 0x0F. rewrite land_0x0F.
    pose proof (rev_base_not_ext (val mod 16)
                  (Z.mod_pos_bound val 16 ltac:(lia))) as Hn.
    cbv zeta in Hn. rewrite <- andb_assoc, Hn, andb_false_r. reflexivity.
  - intros val -> Hhi Hne. rewrite Hcur. unfold normalize_command.
    rewrite Hhi. change (0x70 =? 0x60) with false. cbv iota.
    rewrite Hhi. change (1 =? 1) with true. change (0x70 =? 0x70) with true.
    destruct (Z.eqb_spec (Z.land val 0xFE) 0x76); [contradiction|].
    reflexivity.
Qed.

Lemma ByteIn_accepts_both_forms_witness :
  CurCmd (ByteIn 0 0x86 (host_begin 0 power_on)) = 0x86 /\
  ByteIn 0 0x61 (host_begin 0 power_on) = ByteIn 0 0x86 (host_begin 0 power_on).
Proof.
  exact (proj1 (ByteIn_accepts_both_forms 0 0x86 (host_begin 0 power_on)
                  ltac:(lia) eq_refl) eq_refl).
Defined.







(** ** The output cursor *)

Create HintDb rtc_wf.

Lemma wf_set_dt (i : nat) (v : Z) (s : StateData) :
  StateData_wf s -> StateData_wf (set_dt i v s).
Proof.
  unfold StateData_wf, set_dt. cbn [DateTime Alarm1 Alarm2 AlarmDate1
    AlarmDate2 set_DateTime]. by rewrite length_insert.
Qed.

Lemma wf_ResetState : StateData_wf ResetState.
Proof. by repeat split. Qed.

Lemma wf_set_StatusReg1 (v : Z) (s : StateData) :
  StateData_wf s -> StateData_wf (set_StatusReg1 v s).
Proof. exact id. Qed.

Lemma wf_set_MinuteCount (v : Z) (s : StateData) :
  StateData_wf s -> StateData_wf (set_MinuteCount v s).
Proof. exact id. Qed.

#[local] Hint Resolve wf_set_dt wf_ResetState wf_set_StatusReg1
  wf_set_MinuteCount : rtc_wf.

Ltac wf_cases :=
  repeat match goal with
         | |- context [if ?c then _ else _] => destruct c
         end;
  auto 12 with rtc_wf.

Lemma wf_CountDay (s : StateData) : StateData_wf s -> StateData_wf (CountDay s).
Proof.
  intros H. unfold CountDay, CheckEndOfMonth, CountMonth, CountYear. wf_cases.
Qed.
#[local] Hint Resolve wf_CountDay : rtc_wf.

Lemma wf_CountHour (s : StateData) :
  StateData_wf s -> StateData_wf (CountHour s).
Proof. intros H. rewrite CountHour_hour_step. wf_cases. Qed.
#[local] Hint Resolve wf_CountHour : rtc_wf.

Lemma wf_CountSecond (s : StateData) :
  StateData_wf s -> StateData_wf (CountSecond s).
Proof. intros H. unfold CountSecond, CountMinute. wf_cases. Qed.

Lemma wf_WriteDateTime (num val : Z) (s : StateData) :
  StateData_wf s -> StateData_wf (WriteDateTime num val s).
Proof.
  intros H. unfold WriteDateTime, CheckEndOfMonth, CountMonth, CountYear.
  repeat case_match; auto 12 with rtc_wf.
Qed.
#[local] Hint Resolve wf_CountSecond wf_WriteDateTime : rtc_wf.

Lemma wf_SetState (state : StateData) :
  StateData_wf state -> StateData_wf (SetState state).
Proof.
  unfold SetState. generalize (seq 0 7). intros l. revert state.
  induction l as [|i l IH]; intros state H; cbn [fold_left];
    auto with rtc_wf.
Qed.

Lemma wf_SetDateTime (y mo d h mi se : Z) (s : StateData) :
  StateData_wf s -> StateData_wf (SetDateTime y mo d h mi se s).
Proof. intros H. unfold SetDateTime. cbv zeta. auto 12 with rtc_wf. Qed.

Lemma wf_WriteStatusReg1 (val : Z) (s : StateData) :
  StateData_wf s -> StateData_wf (WriteStatusReg1 val s).
Proof. intros H. unfold WriteStatusReg1. wf_cases. Qed.

Lemma length_array_set (i v : Z) (l : list Z) :
  length (array_set i v l) = length l.
Proof.
  unfold array_set. destruct (_ && _); [apply length_insert | reflexivity].
Qed.

#[local] Hint Resolve wf_SetState wf_SetDateTime wf_WriteStatusReg1 : rtc_wf.

Lemma wf_CmdWrite (ct val : Z) (r : RTC) :
  StateData_wf (State r) -> StateData_wf (State (CmdWrite ct val r)).
Proof.
  intros Hwf. unfold CmdWrite.
  repeat case_match; cbn [State set_State]; auto with rtc_wf;
    destruct Hwf as (Hl1 & Hl2 & Hl3 & Hl4 & Hl5);
    repeat split; cbn [DateTime Alarm1 Alarm2 AlarmDate1 AlarmDate2
                       set_Alarm1 set_Alarm2 set_AlarmDate1 set_AlarmDate2
                       set_StatusReg2 set_ClockAdjust set_FreeReg
                       set_FOUT1 set_FOUT2];
    rewrite ?length_array_set, ?length_insert; assumption.
Qed.

Lemma length_memcpy (dst src : list Z) (n : nat) :
  (n <= length src)%nat -> (n <= length dst)%nat ->
  length (memcpy dst src n) = length dst.
Proof.
  intros Hs Hd. unfold memcpy.
  rewrite length_app, length_take, length_drop. lia.
Qed.

Lemma CmdRead_inv (ct : Z) (r : RTC) :
  serial_inv r -> serial_inv (CmdRead ct r).
Proof.
  intros ((Hout & Hst) & Hpos & Hbit).
  assert (Hst' := Hst). destruct Hst' as (Hl1 & Hl2 & Hl3 & Hl4 & Hl5).
  unfold CmdRead.
  repeat case_match; (split; [split|]);
    cbn [Output OutputPos OutputBit State set_Output set_State];
    auto with rtc_wf;
    rewrite ?length_insert, ?length_memcpy;
    rewrite ?length_drop; lia.
Qed.

Lemma CmdWrite_inv (ct val : Z) (r : RTC) :
  serial_inv r -> serial_inv (CmdWrite ct val r).
Proof.
  intros ((Hout & Hst) & Hpos & Hbit).
  pose proof (CmdWrite_frame ct val r) as Hf.
  assert (Ho : Output (CmdWrite ct val r) = Output r)
    by (apply (f_equal Output) in Hf; exact Hf).
  assert (Hp : OutputPos (CmdWrite ct val r) = OutputPos r)
    by (apply (f_equal OutputPos) in Hf; exact Hf).
  assert (Hb : OutputBit (CmdWrite ct val r) = OutputBit r)
    by (apply (f_equal OutputBit) in Hf; exact Hf).
  unfold serial_inv, RTC_wf. rewrite Ho, Hp, Hb.
  split; [split; [assumption | by apply wf_CmdWrite] | split; assumption].
Qed.

Lemma ByteIn_inv (ct val : Z) (r : RTC) :
  serial_inv r -> serial_inv (ByteIn ct val r).
Proof.
  intros H. unfold ByteIn.
  destruct (InputPos r =? 0); [|by apply CmdWrite_inv].
  repeat match goal with
         | |- context [if ?c then _ else _] => destruct c
         end;
    try apply CmdRead_inv; exact H.
Qed.

(** [serial_inv] reads four fields only. *)
Lemma serial_inv_ext (r r' : RTC) :
  Output r = Output r' -> State r = State r' ->
  OutputPos r = OutputPos r' -> OutputBit r = OutputBit r' ->
  serial_inv r' -> serial_inv r.
Proof.
  unfold serial_inv, RTC_wf. intros -> -> -> ->. exact id.
Qed.

Lemma ScheduleTimer_inv (first : bool) (r : RTC) :
  serial_inv r -> serial_inv (fst (ScheduleTimer first r)).
Proof. destruct first; exact id. Qed.

Lemma Write_inv (ct val : Z) (byte : bool) (r : RTC) :
  serial_inv r -> serial_inv (Write ct val byte r).
Proof.
  intros H. unfold Write.
  set (v := if byte then _ else val). clearbody v.
  assert (Hio : forall x r', serial_inv r' -> serial_inv (set_IO x r'))
    by (intros ? ? ?; assumption).
  assert (Hstep : serial_inv
    (if nonzero (Z.land v 0x0004) then
       if negb (nonzero (Z.land (IO r) 0x0004)) then
         set_OutputPos 0 (set_OutputBit 0 (set_Output Output_zero
           (set_InputPos 0 (set_InputBit 0 (set_Input 0 r)))))
       else if negb (nonzero (Z.land v 0x0002)) then
         if nonzero (Z.land v 0x0010) then
           let r :=
             if nonzero (Z.land v 0x0001)
             then set_Input (u8 (Z.lor (Input r) (Z.shiftl 1 (InputBit r)))) r
             else r in
           let r := set_InputBit (u32 (InputBit r + 1)) r in
           if InputBit r >=? 8 then
             let r := set_InputBit 0 r in
             let r := ByteIn ct (Input r) r in
             let r := set_Input 0 r in
             set_InputPos (u32 (InputPos r + 1)) r
           else r
         else
           let r :=
             if nonzero (Z.land (array_get (Output r) (OutputPos r))
                                (Z.shiftl 1 (OutputBit r)))
             then set_IO (Z.lor (IO r) 0x0001) r
             else set_IO (Z.land (IO r) 0xFFFE) r in
           let r := set_OutputBit (u32 (OutputBit r + 1)) r in
           if OutputBit r >=? 8 then
             let r := set_OutputBit 0 r in
             if OutputPos r <? 7
             then set_OutputPos (u32 (OutputPos r + 1)) r
             else r
           else r
       else r
     else r)).
  { assert (Hsame : forall r', Output r' = Output r -> State r' = State r ->
              OutputPos r' = OutputPos r -> OutputBit r' = OutputBit r ->
              serial_inv r')
      by (intros r' ? ? ? ?; by apply (serial_inv_ext r' r)).
    destruct (nonzero (Z.land v 0x0004)); [|exact H].
    destruct (negb (nonzero (Z.land (IO r) 0x0004))).
    { destruct H as ((Hout & Hst) & Hpos & Hbit).
      split; [split; [reflexivity | exact Hst] | cbn; lia]. }
    destruct (negb (nonzero (Z.land v 0x0002))); [|exact H].
    destruct (nonzero (Z.land v 0x0010)).
    - (* write *)
      cbv zeta.
      destruct (nonzero (Z.land v 0x0001));
        cbn [InputBit set_InputBit set_Input];
        (destruct (_ >=? 8); [|by apply Hsame]);
        match goal with
        | |- context [ByteIn ct ?i ?x] =>
            apply (serial_inv_ext _ (ByteIn ct i x));
              [reflexivity | reflexivity | reflexivity | reflexivity |]
        end;
        apply (ByteIn_inv ct); by apply Hsame.
    - (* read *)
      destruct H as ((Hout & Hst) & Hpos & Hbit).
      cbv zeta.
      pose proof (Z.mod_pos_bound (OutputBit r + 1) 4294967296 ltac:(lia))
        as Hu.
      fold (u32 (OutputBit r + 1)) in Hu.
      assert (Hu' : OutputPos r < 7 -> u32 (OutputPos r + 1) = OutputPos r + 1)
        by (intros ?; apply Z.mod_small; lia).
      destruct (nonzero (Z.land (array_get _ _) _));
        cbn [OutputBit OutputPos set_OutputBit set_OutputPos set_IO];
        destruct (u32 (OutputBit r + 1) >=? 8);
        try (destruct (Z.ltb_spec (OutputPos r) 7) as [Hp|Hp]);
        (split; [split; assumption|]);
        cbn [OutputBit OutputPos set_OutputBit set_OutputPos set_IO];
        rewrite ?Hu' by assumption; lia. }
  destruct (nonzero (Z.land v 0x0010)); apply Hio; exact Hstep.
Qed.

Lemma DoSavestate_inv (saving : bool) (file r : RTC) :
  serial_inv r -> snapshot_typed file -> output_cursor_in_buffer file ->
  serial_inv (DoSavestate saving file r).
Proof.
  intros H Ht Hpos. destruct saving; [exact H|].
  destruct Ht as (Hwf & _ & _ & _ & _ & Hbit & _).
  split; [exact Hwf | split; [exact Hpos | exact Hbit]].
Qed.

Lemma reachable_serial_inv (ct : Z) (r : RTC) :
  reachable output_cursor_in_buffer ct r -> serial_inv r.
Proof.
  induction 1 as [|r _ IH|r _ IH|r saving file _ IH Ht Hok|r val byte _ IH
                  |r _ IH|r state _ IH Hwf|r y mo d h mi se _ IH].
  - split; [split; [reflexivity | by repeat split] | cbn; lia].
  - destruct IH as ((Hout & Hst) & Hpos & Hbit).
    split; [split; [exact Hout | cbn [State Init set_State] ]
           | split; assumption].
    auto with rtc_wf.
  - destruct IH as ((Hout & Hst) & Hpos & Hbit).
    split; [split; [reflexivity | exact Hst] | split; [cbn; lia | exact Hbit]].
  - by apply DoSavestate_inv.
  - by apply Write_inv.
  - destruct IH as ((Hout & Hst) & Hpos & Hbit).
    unfold ClockTimer. apply ScheduleTimer_inv.
    destruct (negb _); split; try (split; assumption).
    split; [exact Hout | cbn [State set_State set_ClockCount] ].
    auto with rtc_wf.
  - destruct IH as ((Hout & Hst) & Hpos & Hbit).
    split; [split; [exact Hout | cbn [State set_State] ] | split; assumption].
    auto with rtc_wf.
  - destruct IH as ((Hout & Hst) & Hpos & Hbit).
    split; [split; [exact Hout | cbn [State set_State] ] | split; assumption].
    auto with rtc_wf.
Qed.

(** The cursor update of a read-direction bit transfer. *)
Lemma Write_read_transfer (ct val : Z) (byte : bool) (r : RTC) :
  read_transfer val byte r = true ->
  OutputBit (Write ct val byte r)
    = (if u32 (OutputBit r + 1) >=? 8 then 0 else u32 (OutputBit r + 1)) /\
  OutputPos (Write ct val byte r)
    = (if (u32 (OutputBit r + 1) >=? 8) && (OutputPos r <? 7)
       then u32 (OutputPos r + 1) else OutputPos r).
Proof.
  unfold read_transfer, Write.
  set (v := if byte then _ else val). clearbody v. cbv zeta.
  rewrite !andb_true_iff. intros [[[H4 Hio] H2] H10].
  rewrite H4, Hio, H2. apply negb_true_iff in H10. rewrite H10.
  cbn [negb].
  destruct (nonzero (Z.land (array_get _ _) _));
    cbn [OutputBit OutputPos set_OutputBit set_OutputPos set_IO];
    destruct (u32 (OutputBit r + 1) >=? 8); cbn [andb];
    try destruct (OutputPos r <? 7); split; reflexivity.
Qed.

(** * Further properties

    ** BCD arithmetic and the timer delay *)

(** X1: [BCDIncrement] adds one in decimal.  On the BCD byte of [n], with
    [n] in 0..99, it returns the BCD byte of [(n + 1) mod 100]; on every byte
    whose two nibbles are decimal digits the result is such a byte again and
    its decimal value is one more, modulo 100. *)
Theorem BCDIncrement_decimal :
  (forall n, 0 <= n <= 99 -> BCDIncrement (BCD n) = BCD ((n + 1) mod 100)) /\
  (forall b, 0 <= b < 256 -> bcd_valid b = true ->
     bcd_valid (BCDIncrement b) = true /\
     bcd_decode (BCDIncrement b) = (bcd_decode b + 1) mod 100).
Proof.
  split.
  - assert (H : forall n, 0 <= n < 100 ->
              (BCDIncrement (BCD n) =? BCD ((n + 1) mod 100)) = true)
      by enumerate.
    intros n Hn. apply Z.eqb_eq, H. lia.
  - assert (H : forall b, 0 <= b < 256 ->
              implb (bcd_valid b)
                (bcd_valid (BCDIncrement b) &&
                 (bcd_decode (BCDIncrement b) =? (bcd_decode b + 1) mod 100))
              = true) by enumerate.
    intros b Hb Hv. specialize (H b Hb). rewrite Hv in H. cbn [implb] in H.
    apply andb_true_iff in H. destruct H as [H1 H2].
    apply Z.eqb_eq in H2. split; assumption.
Qed.

Lemma BCDIncrement_decimal_witness :
  BCDIncrement (BCD 59) = BCD 60 /\ BCDIncrement (BCD 99) = BCD 0.
Proof.
  split.
  - exact (proj1 BCDIncrement_decimal 59 ltac:(lia)).
  - exact (proj1 BCDIncrement_decimal 99 ltac:(lia)).
Defined.

(** A byte of two decimal digits is the [BCD] of its decimal value. *)
Lemma BCD_bcd_decode (b : Z) :
  0 <= b < 256 -> bcd_valid b = true ->
  BCD (bcd_decode b) = b /\ 0 <= bcd_decode b <= 99.
Proof.
  assert (H : forall b, 0 <= b < 256 ->
            implb (bcd_valid b)
              ((BCD (bcd_decode b) =? b) &&
               (0 <=? bcd_decode b) && (bcd_decode b <=? 99)) = true)
    by enumerate.
  intros Hb Hv. specialize (H b Hb). rewrite Hv in H. cbn [implb] in H.
  rewrite !andb_true_iff in H. destruct H as [[H1 H2] H3].
  apply Z.eqb_eq in H1. apply Z.leb_le in H2, H3.
  repeat split; assumption.
Qed.

(** X2: [BCD] and the decimal reading of a byte are inverse to each other:
    for [n] in 0..99, [BCD n] is a byte of two decimal digits that reads back
    as [n]; every byte of two decimal digits is the [BCD] of its decimal
    value, which lies in 0..99. *)
Theorem BCD_round_trip :
  (forall n, 0 <= n <= 99 ->
     bcd_decode (BCD n) = n /\ bcd_valid (BCD n) = true /\ 0 <= BCD n < 256) /\
  (forall b, 0 <= b < 256 -> bcd_valid b = true ->
     BCD (bcd_decode b) = b /\ 0 <= bcd_decode b <= 99).
Proof.
  split.
  - assert (H : forall n, 0 <= n < 100 ->
              ((bcd_decode (BCD n) =? n) && bcd_valid (BCD n) &&
               (0 <=? BCD n) && (BCD n <? 256)) = true) by enumerate.
    intros n Hn. specialize (H n ltac:(lia)).
    rewrite !andb_true_iff in H. destruct H as [[[H1 H2] H3] H4].
    apply Z.eqb_eq in H1. apply Z.leb_le in H3. apply Z.ltb_lt in H4.
    repeat split; assumption.
  - intros b Hb Hv. apply BCD_bcd_decode; assumption.
Qed.

Lemma BCD_round_trip_witness :
  bcd_decode (BCD 42) = 42 /\ BCD (bcd_decode 0x59) = 0x59.
Proof.
  split.
  - exact (proj1 (proj1 BCD_round_trip 42 ltac:(lia))).
  - exact (proj1 (proj2 BCD_round_trip 0x59 ltac:(lia) eq_refl)).
Defined.

(** X3: with bounds that are valid BCD bytes, the lower not above the upper,
    [BCDSanitize] returns for every byte a valid BCD byte within the bounds,
    and sanitising a second time changes nothing. *)
Theorem BCDSanitize_range_idempotent (val vmin vmax : Z) :
  0 <= val < 256 -> 0 <= vmin < 256 -> 0 <= vmax < 256 ->
  bcd_valid vmin = true -> bcd_valid vmax = true ->
  bcd_decode vmin <= bcd_decode vmax ->
  bcd_in_range (BCDSanitize val vmin vmax) vmin vmax = true /\
  BCDSanitize (BCDSanitize val vmin vmax) vmin vmax
    = BCDSanitize val vmin vmax /\
  0 <= BCDSanitize val vmin vmax < 256.
Proof.
  intros Hv Hmin Hmax Vmin Vmax Hle.
  assert (Hmin_in : bcd_in_range vmin vmin vmax = true).
  { unfold bcd_in_range. rewrite Vmin. cbn [andb].
    apply andb_true_iff. split; apply Z.leb_le; lia. }
  assert (Hres : bcd_in_range (BCDSanitize val vmin vmax) vmin vmax = true).
  { rewrite (BCDSanitize_spec val vmin vmax) by assumption.
    destruct (bcd_in_range val vmin vmax) eqn:E; assumption. }
  assert (Hbyte : 0 <= BCDSanitize val vmin vmax < 256).
  { rewrite (BCDSanitize_spec val vmin vmax) by assumption.
    destruct (bcd_in_range val vmin vmax); assumption. }
  split; [exact Hres|]. split; [|exact Hbyte].
  rewrite (BCDSanitize_spec (BCDSanitize val vmin vmax)) by assumption.
  rewrite Hres. reflexivity.
Qed.

Lemma BCDSanitize_range_idempotent_witness :
  bcd_in_range (BCDSanitize 0x7F 0x01 0x12) 0x01 0x12 = true /\
  BCDSanitize (BCDSanitize 0x7F 0x01 0x12) 0x01 0x12 = BCDSanitize 0x7F 0x01 0x12.
Proof.
  pose proof (BCDSanitize_range_idempotent 0x7F 0x01 0x12
                ltac:(lia) ltac:(lia) ltac:(lia) eq_refl eq_refl
                ltac:(vm_compute; discriminate)) as H.
  destruct H as (H1 & H2 & _). split; [exact H1 | exact H2].
Defined.

(** X9: [ScheduleTimer] hands the scheduler a delay of 1022 or 1023 cycles.
    With [e] the carried error (zero on a cold start, otherwise the stored
    [TimerError], in 0..32767), the delay is 1022 when [e < 7682] and 1023
    otherwise; the new error is [e + 25086], respectively [e - 7682], and
    lies in 0..32767 again. *)
Theorem ScheduleTimer_delay_bounds (cold : bool) (r : RTC) :
  cold = true \/ 0 <= TimerError r < 32768 ->
  let e := if cold then 0 else TimerError r in
  snd (ScheduleTimer cold r) = (if e <? 7682 then 1022 else 1023) /\
  TimerError (fst (ScheduleTimer cold r))
    = (if e <? 7682 then e + 25086 else e - 7682) /\
  0 <= TimerError (fst (ScheduleTimer cold r)) < 32768.
Proof.
  intros H e.
  assert (He : 0 <= e < 32768)
    by (unfold e; destruct cold; [lia | destruct H as [H|H]; [discriminate | lia]]).
  assert (Hs : snd (ScheduleTimer cold r) = (33513982 + e) / 32768 /\
               TimerError (fst (ScheduleTimer cold r))
                 = (33513982 + e) mod 32768).
  { unfold ScheduleTimer, e.
    destruct cold; cbn [fst snd TimerError set_TimerError];
      rewrite s32_small by lia; rewrite land_0x7FFF, shiftr_15; auto. }
  destruct Hs as [-> ->].
  destruct (Z.ltb_spec e 7682).
  - assert ((33513982 + e) / 32768 = 1022)
      by (symmetry; apply (Z.div_unique _ _ _ (e + 25086)); lia).
    assert ((33513982 + e) mod 32768 = e + 25086)
      by (symmetry; apply (Z.mod_unique _ _ 1022); lia).
    lia.
  - assert ((33513982 + e) / 32768 = 1023)
      by (symmetry; apply (Z.div_unique _ _ _ (e - 7682)); lia).
    assert ((33513982 + e) mod 32768 = e - 7682)
      by (symmetry; apply (Z.mod_unique _ _ 1023); lia).
    lia.
Qed.

Lemma ScheduleTimer_delay_bounds_witness :
  snd (ScheduleTimer false power_on) = 1023.
Proof.
  assert (He : 0 <= TimerError power_on < 32768)
    by (vm_compute; split; [discriminate | reflexivity]).
  exact (proj1 (ScheduleTimer_delay_bounds false power_on (or_intror He))).
Defined.

(** ** Ticks and seconds *)

Lemma ClockTimer_count (r : RTC) :
  ClockCount (fst (ClockTimer r)) mod 32768 = (ClockCount r + 1) mod 32768 /\
  State (fst (ClockTimer r))
    = (if (ClockCount r + 1) mod 32768 =? 0
       then CountSecond (State r) else State r).
Proof.
  assert (Hm : u32 (ClockCount r + 1) mod 32768 = (ClockCount r + 1) mod 32768).
  { unfold u32. apply Z.mod_mod_divide. exists 131072. reflexivity. }
  unfold ClockTimer, ScheduleTimer.
  cbn [ClockCount set_ClockCount].
  rewrite (land_0x7FFF (u32 (ClockCount r + 1))), Hm. unfold nonzero. rewrite negb_involutive.
  destruct (_ =? 0); cbn [fst ClockCount State set_TimerError set_State
                          set_ClockCount]; auto.
Qed.

Lemma run_ticks_seconds (n : nat) :
  forall r,
    State (fst (run_ticks n r))
      = Nat.iter (Z.to_nat ((ClockCount r mod 32768 + Z.of_nat n) / 32768))
                 CountSecond (State r).
Proof.
  induction n as [|n IH]; intros r.
  - cbn [run_ticks fst]. rewrite Z.add_0_r.
    rewrite Z.div_small by (apply Z.mod_pos_bound; lia). reflexivity.
  - cbn [run_ticks].
    destruct (ClockTimer_count r) as [Hc Hs].
    destruct (ClockTimer r) as [r1 d] eqn:E1. cbn [fst] in Hc, Hs.
    specialize (IH r1).
    destruct (run_ticks n r1) as [r2 total] eqn:E2. cbn [fst] in *.
    rewrite IH, Hc, Hs.
    pose proof (Z.mod_pos_bound (ClockCount r) 32768 ltac:(lia)) as Hb.
    set (c := ClockCount r mod 32768) in *.
    rewrite Nat2Z.inj_succ.
    rewrite <- (Zplus_mod_idemp_l (ClockCount r) 1). fold c.
    destruct (Z.eq_dec c 32767) as [E|NE].
    + rewrite E. change ((32767 + 1) mod 32768) with 0.
      change (0 =? 0) with true. cbv iota.
      rewrite <- Nat.iter_succ_r. f_equal.
      replace (32767 + Z.succ (Z.of_nat n)) with (Z.of_nat n + 1 * 32768) by lia.
      rewrite Z.div_add by lia. rewrite Z.add_0_l.
      rewrite Z2Nat.inj_add; [|apply Z.div_pos; lia | lia].
      change (Z.to_nat 1) with 1%nat. lia.
    + rewrite (Z.mod_small (c + 1)) by lia.
      destruct (Z.eqb_spec (c + 1) 0); [lia|].
      f_equal. f_equal. f_equal. lia.
Qed.

(** X10: the calendar advances by one [CountSecond] per 32768 ticks: from
    any state, 32768 ticks call [CountSecond] exactly once; the register file
    does not change while the tick counter stays below the next multiple of
    32768; after [n] ticks [CountSecond] has run once per completed multiple
    of 32768. *)
Theorem one_second_per_32768_ticks (r : RTC) :
  State (fst (run_ticks ticks_per_second r)) = CountSecond (State r) /\
  (forall n : nat,
     ClockCount r mod 32768 + Z.of_nat n < 32768 ->
     State (fst (run_ticks n r)) = State r) /\
  (forall n : nat,
     State (fst (run_ticks n r))
       = Nat.iter (Z.to_nat ((ClockCount r mod 32768 + Z.of_nat n) / 32768))
                  CountSecond (State r)).
Proof.
  pose proof (Z.mod_pos_bound (ClockCount r) 32768 ltac:(lia)) as Hb.
  split; [|split].
  - rewrite run_ticks_seconds. unfold ticks_per_second.
    rewrite Z2Nat.id by lia.
    replace ((ClockCount r mod 32768 + 32768) / 32768) with 1
      by (apply (Z.div_unique _ _ _ (ClockCount r mod 32768)); lia).
    reflexivity.
  - intros n Hn. rewrite run_ticks_seconds.
    rewrite Z.div_small by lia. reflexivity.
  - intros n. apply run_ticks_seconds.
Qed.

Lemma one_second_per_32768_ticks_witness :
  State (fst (run_ticks 100 power_on)) = State power_on.
Proof.
  apply (proj1 (proj2 (one_second_per_32768_ticks power_on)) 100%nat).
  vm_compute. reflexivity.
Defined.

(** ** Read commands and unknown commands *)

(** X13: [CmdRead] only fills the output buffer, except for the read of
    status register 1: that read returns the register and clears its upper
    nibble, so that a second read returns the lower nibble only.  No other
    read command changes the register file. *)
Theorem CmdRead_side_effects (ct : Z) (r : RTC) :
  set_Output (Output r) (set_State (State r) (CmdRead ct r)) = r /\
  set_StatusReg1 (StatusReg1 (State r)) (State (CmdRead ct r)) = State r /\
  (Z.land (CurCmd r) 0x0F = 0x06 -> Z.land (CurCmd r) 0x70 = 0x00 ->
     (0 < length (Output r))%nat ->
     Output (CmdRead ct r) !!! 0%nat = StatusReg1 (State r) /\
     StatusReg1 (State (CmdRead ct r)) = Z.land (StatusReg1 (State r)) 0x0F /\
     Output (CmdRead ct (CmdRead ct r)) !!! 0%nat
       = Z.land (StatusReg1 (State r)) 0x0F /\
     State (CmdRead ct (CmdRead ct r)) = State (CmdRead ct r)) /\
  (Z.land (CurCmd r) 0x0F <> 0x06 \/ Z.land (CurCmd r) 0x70 <> 0x00 ->
     State (CmdRead ct r) = State r).
Proof.
  split; [|split; [|split]].
  - destruct r. unfold CmdRead. repeat case_match; reflexivity.
  - destruct r as [? ? ? ? ? ? ? ? st ? ?]. destruct st.
    unfold CmdRead. repeat case_match; reflexivity.
  - intros Hlo Hgrp Hlen.
    assert (E1 : CmdRead ct r =
                 set_State (set_StatusReg1 (Z.land (StatusReg1 (State r)) 0x0F)
                                           (State r))
                   (set_Output (<[0%nat := StatusReg1 (State r)]> (Output r)) r)).
    { unfold CmdRead. rewrite Hlo, Hgrp. reflexivity. }
    assert (E2 : CmdRead ct (CmdRead ct r) =
                 set_State (set_StatusReg1
                              (Z.land (StatusReg1 (State (CmdRead ct r))) 0x0F)
                              (State (CmdRead ct r)))
                   (set_Output (<[0%nat := StatusReg1 (State (CmdRead ct r))]>
                                  (Output (CmdRead ct r))) (CmdRead ct r))).
    { unfold CmdRead at 1. rewrite CmdRead_CurCmd, Hlo, Hgrp. reflexivity. }
    rewrite E2, E1.
    cbn [Output State StatusReg1 set_Output set_State set_StatusReg1].
    rewrite !list_lookup_total_insert_eq by (rewrite ?length_insert; lia).
    rewrite <- Z.land_assoc. change (Z.land 0x0F 0x0F) with 0x0F.
    repeat split.
  - intros H. unfold CmdRead.
    destruct (Z.eqb_spec (Z.land (CurCmd r) 0x0F) 0x06) as [E6|N6].
    + destruct H as [H|H]; [contradiction|].
      destruct (Z.land (CurCmd r) 0x70) eqn:E; [contradiction| |];
        repeat case_match; reflexivity.
    + repeat case_match; reflexivity.
Qed.

Lemma CmdRead_side_effects_witness :
  Output (CmdRead 0 status1_read_pending) !!! 0%nat = 0x80 /\
  Output (CmdRead 0 (CmdRead 0 status1_read_pending)) !!! 0%nat = 0x00.
Proof.
  destruct (proj1 (proj2 (proj2 (CmdRead_side_effects 0 status1_read_pending)))
              eq_refl eq_refl ltac:(vm_compute; lia)) as (H1 & _ & H2 & _).
  split; [exact H1 | exact H2].
Defined.

(** X15: a command byte that selects no register is ignored: when the low
    nibble of the command is neither 6 nor, on the DSi with one of its five
    groups, 0xE, both [CmdRead] and [CmdWrite] leave the whole module state
    unchanged. *)
Theorem unknown_commands_ignored (ct val : Z) (r : RTC) :
  Z.land (CurCmd r) 0x0F <> 0x06 ->
  Z.land (CurCmd r) 0x0F <> 0x0E \/ ct <> 1 \/
    ~ In (Z.land (CurCmd r) 0x70) [0x00; 0x40; 0x20; 0x10; 0x50] ->
  CmdRead ct r = r /\ CmdWrite ct val r = r.
Proof.
  intros N6 H. unfold CmdRead, CmdWrite.
  destruct (Z.eqb_spec (Z.land (CurCmd r) 0x0F) 0x06); [contradiction|].
  destruct (Z.eqb_spec (Z.land (CurCmd r) 0x0F) 0x0E) as [EE|NE];
    [|split; reflexivity].
  destruct (Z.eqb_spec ct 1) as [E1|N1]; [|split; reflexivity].
  cbn [negb].
  destruct H as [H|[H|H]]; [contradiction | contradiction |].
  cbn [In] in H.
  destruct (Z.land (CurCmd r) 0x70) eqn:E;
    [exfalso; apply H; auto | | split; reflexivity].
  repeat case_match; try (split; reflexivity); exfalso; apply H; subst; auto 10.
Qed.

Lemma unknown_commands_ignored_witness :
  CmdRead 0 (set_CurCmd 0x8E power_on) = set_CurCmd 0x8E power_on /\
  CmdWrite 0 0x55 (set_CurCmd 0x8E power_on) = set_CurCmd 0x8E power_on.
Proof.
  apply (unknown_commands_ignored 0 0x55 (set_CurCmd 0x8E power_on)).
  - vm_compute. discriminate.
  - right. left. discriminate.
Defined.

(** ** Bytes clocked in *)

(** A write with chip select held and the clock high only latches. *)
Lemma Write_clock_high (ct val : Z) (r : RTC) :
  nonzero (Z.land val 0x0004) = true ->
  nonzero (Z.land (IO r) 0x0004) = true ->
  nonzero (Z.land val 0x0002) = true ->
  Write ct val false r
    = (if nonzero (Z.land val 0x0010) then set_IO val r
       else set_IO (Z.lor (Z.land (IO r) 0x0001) (Z.land val 0xFFFE)) r).
Proof.
  intros H4 Hcs H2. unfold Write. rewrite H4, Hcs, H2. reflexivity.
Qed.

(** A write-direction bit that does not complete a byte. *)
Lemma Write_shift_in (ct val : Z) (r : RTC) :
  write_transfer val false r = true ->
  0 <= InputBit r < 7 ->
  Write ct val false r
    = set_IO val
        (set_InputBit (InputBit r + 1)
           (if nonzero (Z.land val 0x0001)
            then set_Input (u8 (Z.lor (Input r) (Z.shiftl 1 (InputBit r)))) r
            else r)).
Proof.
  unfold write_transfer. rewrite !andb_true_iff.
  intros [[[H4 Hcs] H2] H10] Hbit.
  assert (Hu : u32 (InputBit r + 1) = InputBit r + 1)
    by (apply Z.mod_small; lia).
  assert (Hlt : (InputBit r + 1 >=? 8) = false)
    by (rewrite Z.geb_leb; apply Z.leb_gt; lia).
  unfold Write. rewrite H4, Hcs, H2, H10. cbn [negb].
  destruct (nonzero (Z.land val 0x0001));
    cbn [InputBit set_Input set_InputBit]; rewrite Hu, Hlt; reflexivity.
Qed.

(** The write-direction bit that completes a byte. *)
Lemma Write_shift_in_last (ct val : Z) (r : RTC) :
  write_transfer val false r = true ->
  InputBit r = 7 ->
  let input :=
    if nonzero (Z.land val 0x0001)
    then u8 (Z.lor (Input r) (Z.shiftl 1 7)) else Input r in
  Write ct val false r
    = set_IO val
        (set_InputPos
           (u32 (InputPos (ByteIn ct input (set_InputBit 0 (set_Input input r)))
                 + 1))
           (set_Input 0 (ByteIn ct input (set_InputBit 0 (set_Input input r))))).
Proof.
  unfold write_transfer. rewrite !andb_true_iff.
  intros [[[H4 Hcs] H2] H10] Hbit.
  unfold Write. rewrite H4, Hcs, H2, H10. cbn [negb].
  destruct r as [io inp ibit ipos out obit opos cmd st te cc].
  cbn [InputBit] in Hbit. subst ibit.
  destruct (nonzero (Z.land val 0x0001)); reflexivity.
Qed.

(** The command processor neither reads nor writes the shift register and
    the latch. *)
Lemma CmdRead_shift_frame (ct io inp ibit : Z) (r : RTC) :
  CmdRead ct (set_IO io (set_InputBit ibit (set_Input inp r)))
    = set_IO io (set_InputBit ibit (set_Input inp (CmdRead ct r))).
Proof.
  unfold CmdRead.
  cbn [CurCmd State Output set_IO set_InputBit set_Input].
  repeat case_match; reflexivity.
Qed.

Lemma CmdWrite_shift_frame (ct val io inp ibit : Z) (r : RTC) :
  CmdWrite ct val (set_IO io (set_InputBit ibit (set_Input inp r)))
    = set_IO io (set_InputBit ibit (set_Input inp (CmdWrite ct val r))).
Proof.
  unfold CmdWrite.
  cbn [CurCmd State InputPos set_IO set_InputBit set_Input].
  repeat case_match; reflexivity.
Qed.

Lemma ByteIn_shift_frame (ct val io inp ibit : Z) (r : RTC) :
  ByteIn ct val (set_IO io (set_InputBit ibit (set_Input inp r)))
    = set_IO io (set_InputBit ibit (set_Input inp (ByteIn ct val r))).
Proof.
  destruct (Z.eq_dec (InputPos r) 0) as [E|NE].
  - rewrite !ByteIn_first by exact E. cbv zeta.
    cbn [CurCmd set_CurCmd].
    destruct (nonzero _); [|reflexivity].
    exact (CmdRead_shift_frame ct io inp ibit
             (set_CurCmd (normalize_command (ct =? 1) val) r)).
  - unfold ByteIn. cbn [InputPos set_IO set_InputBit set_Input].
    destruct (Z.eqb_spec (InputPos r) 0); [contradiction|].
    apply CmdWrite_shift_frame.
Qed.

Lemma CmdRead_InputPos (ct : Z) (r : RTC) :
  InputPos (CmdRead ct r) = InputPos r.
Proof. unfold CmdRead. repeat case_match; reflexivity. Qed.

Lemma ByteIn_InputPos (ct val : Z) (r : RTC) :
  InputPos (ByteIn ct val r) = InputPos r.
Proof.
  unfold ByteIn.
  destruct (InputPos r =? 0).
  - repeat match goal with
           | |- context [if ?c then _ else _] => destruct c
           end; rewrite ?CmdRead_InputPos; reflexivity.
  - pose proof (CmdWrite_frame ct val r) as Hf.
    apply (f_equal InputPos) in Hf. exact Hf.
Qed.

Lemma ByteIn_keeps_shift (ct val : Z) (r : RTC) :
  IO (ByteIn ct val r) = IO r /\
  Input (ByteIn ct val r) = Input r /\
  InputBit (ByteIn ct val r) = InputBit r.
Proof.
  destruct r as [io inp ibit ipos out obit opos cmd st te cc].
  pose proof (ByteIn_shift_frame ct val io inp ibit
                (mkRTC io inp ibit ipos out obit opos cmd st te cc)) as Hf.
  change (set_IO io (set_InputBit ibit (set_Input inp
            (mkRTC io inp ibit ipos out obit opos cmd st te cc))))
    with (mkRTC io inp ibit ipos out obit opos cmd st te cc) in Hf at 1.
  rewrite Hf. repeat split.
Qed.

Lemma cs_held_after_send (b : bool) :
  nonzero (Z.land (Z.lor 0x16 (if b then 1 else 0)) 0x0004) = true.
Proof. destruct b; reflexivity. Qed.

(** One host bit that does not complete a byte. *)
Lemma host_send_bit_spec (ct : Z) (r : RTC) (b : bool) (k k' : Z) :
  nonzero (Z.land (IO r) 0x0004) = true ->
  InputBit r = k -> 0 <= k < 7 -> k' = k + 1 ->
  host_send_bit ct r b
    = set_IO (Z.lor 0x16 (if b then 1 else 0))
        (set_InputBit k'
           (set_Input (if b then u8 (Z.lor (Input r) (Z.shiftl 1 k))
                       else Input r) r)).
Proof.
  intros Hcs Hk Hrange ->. unfold host_send_bit.
  rewrite (Write_shift_in ct _ r).
  - rewrite Write_clock_high; rewrite ?Hk;
      destruct r as [io inp ibit ipos out obit opos cmd st te cc];
      destruct b; reflexivity.
  - unfold write_transfer. rewrite Hcs. destruct b; reflexivity.
  - lia.
Qed.

(** The host bit that completes a byte. *)
Lemma host_send_bit_last (ct : Z) (r : RTC) (b : bool) :
  nonzero (Z.land (IO r) 0x0004) = true ->
  InputBit r = 7 ->
  let input := if b then u8 (Z.lor (Input r) (Z.shiftl 1 7)) else Input r in
  host_send_bit ct r b
    = set_IO (Z.lor 0x16 (if b then 1 else 0))
        (set_InputPos (u32 (InputPos r + 1))
           (set_Input 0 (ByteIn ct input (set_InputBit 0 (set_Input input r))))).
Proof.
  intros Hcs Hk input. unfold host_send_bit.
  rewrite (Write_shift_in_last ct _ r).
  - cbv zeta. rewrite ByteIn_InputPos. cbn [InputPos set_InputBit set_Input].
    rewrite Write_clock_high; destruct b; reflexivity.
  - unfold write_transfer. rewrite Hcs. destruct b; reflexivity.
  - exact Hk.
Qed.

(** A whole byte clocked in by the host, least significant bit first: the
    assembled byte reaches [ByteIn] once and the byte position advances. *)
Lemma host_send_byte_spec (ct v : Z) (r : RTC) :
  0 <= v < 256 ->
  nonzero (Z.land (IO r) 0x0004) = true ->
  InputBit r = 0 -> Input r = 0 ->
  host_send_byte ct v r
    = set_IO (Z.lor 0x16 (if Z.testbit v 7 then 1 else 0))
        (set_InputPos (u32 (InputPos r + 1)) (ByteIn ct v r)).
Proof.
  intros Hv Hcs Hbit Hin.
  unfold host_send_byte. cbn [map seq fold_left].
  change (Z.of_nat 0) with 0. change (Z.of_nat 1) with 1.
  change (Z.of_nat 2) with 2. change (Z.of_nat 3) with 3.
  change (Z.of_nat 4) with 4. change (Z.of_nat 5) with 5.
  change (Z.of_nat 6) with 6. change (Z.of_nat 7) with 7.
  rewrite (host_send_bit_spec ct r _ 0 1 Hcs Hbit ltac:(lia) eq_refl).
  do 6 match goal with
       | |- context [host_send_bit ct (set_IO ?a (set_InputBit ?k ?x)) ?b] =>
           rewrite (host_send_bit_spec ct (set_IO a (set_InputBit k x)) b
                      k (k + 1) (cs_held_after_send _) eq_refl
                      ltac:(lia) eq_refl)
       end.
  match goal with
  | |- context [host_send_bit ct (set_IO ?a (set_InputBit ?k ?x)) ?b] =>
      rewrite (host_send_bit_last ct (set_IO a (set_InputBit k x)) b
                 (cs_held_after_send _) eq_refl)
  end.
  cbv zeta. cbn [Input InputPos set_IO set_InputBit set_Input].
  rewrite Hin.
  match goal with
  | |- context [ByteIn ct ?i _] =>
      replace i with v
        by (clear - Hv; symmetry; apply Z.eqb_eq; revert v Hv; enumerate)
  end.
  destruct r as [io inp ibit ipos out obit opos cmd st te cc].
  cbn [Input InputBit] in Hbit, Hin. subst inp ibit.
  match goal with
  | |- context [ByteIn ct v ?x] =>
      change x with
        (set_IO (Z.lor 0x16 (if Z.testbit v 6 then 1 else 0))
           (set_InputBit 0
              (set_Input v
                 (mkRTC io 0 0 ipos out obit opos cmd st te cc))))
  end.
  rewrite ByteIn_shift_frame.
  set (r1 := ByteIn ct v _).
  assert (E0 : InputPos r1 = ipos) by apply ByteIn_InputPos.
  destruct (ByteIn_keeps_shift ct v
              (mkRTC io 0 0 ipos out obit opos cmd st te cc))
    as (_ & E1 & E2).
  fold r1 in E1, E2.
  clearbody r1. destruct r1 as [io1 inp1 ibit1 ipos1 out1 obit1 opos1 cmd1 st1 te1 cc1].
  cbn [Input InputBit InputPos] in E0, E1, E2. subst.
  reflexivity.
Qed.

(** X11: eight host bits, least significant first, with chip select held
    deliver one byte: [ByteIn] is called once with the assembled byte, the
    byte position advances by one, and the shift register is empty again
    with chip select still held, so that the next byte can follow. *)
Theorem Write_shift_in_byte (ct v : Z) (r : RTC) :
  0 <= v < 256 ->
  nonzero (Z.land (IO r) 0x0004) = true ->
  InputBit r = 0 -> Input r = 0 ->
  let r' := host_send_byte ct v r in
  r' = set_IO (Z.lor 0x16 (if Z.testbit v 7 then 1 else 0))
         (set_InputPos (u32 (InputPos r + 1)) (ByteIn ct v r)) /\
  InputPos r' = u32 (InputPos r + 1) /\
  nonzero (Z.land (IO r') 0x0004) = true /\
  InputBit r' = 0 /\ Input r' = 0.
Proof.
  intros Hv Hcs Hbit Hin r'. subst r'.
  rewrite (host_send_byte_spec ct v r Hv Hcs Hbit Hin).
  destruct (ByteIn_keeps_shift ct v r) as (_ & Ki & Kb).
  split; [reflexivity|].
  cbn [IO Input InputBit InputPos set_IO set_InputPos].
  split; [reflexivity|].
  split; [apply cs_held_after_send|].
  split; congruence.
Qed.

Lemma Write_shift_in_byte_witness :
  let r := host_begin 0 power_on in
  let r' := host_send_byte 0 0x76 r in
  r' = set_IO (Z.lor 0x16 (if Z.testbit 0x76 7 then 1 else 0))
         (set_InputPos (u32 (InputPos r + 1)) (ByteIn 0 0x76 r)) /\
  InputPos r' = u32 (InputPos r + 1) /\
  nonzero (Z.land (IO r') 0x0004) = true /\
  InputBit r' = 0 /\ Input r' = 0.
Proof.
  apply (Write_shift_in_byte 0 0x76 (host_begin 0 power_on));
    first [lia | reflexivity].
Defined.

(** ** Bytes clocked out *)

Lemma land_lor_1 (io : Z) : Z.land (Z.lor io 0x0001) 0x0001 = 1.
Proof.
  rewrite Z.land_lor_distr_l. change (Z.land 1 1) with 1.
  change 1 with (Z.ones 1) at 1. rewrite Z.land_ones by lia.
  pose proof (Z.mod_pos_bound io (2 ^ 1) ltac:(lia)).
  assert (Hc : io mod 2 ^ 1 = 0 \/ io mod 2 ^ 1 = 1) by lia.
  destruct Hc as [-> | ->]; reflexivity.
Qed.

Lemma land_0xFFFE_1 (io : Z) : Z.land (Z.land io 0xFFFE) 0x0001 = 0.
Proof.
  rewrite <- Z.land_assoc. change (Z.land 0xFFFE 1) with 0.
  apply Z.land_0_r.
Qed.

(** A read-direction bit transfer: the bit put on the data line and the
    cursor. *)
Lemma Write_shift_out (ct val : Z) (r : RTC) :
  read_transfer val false r = true ->
  let bit := nonzero (Z.land (array_get (Output r) (OutputPos r))
                             (Z.shiftl 1 (OutputBit r))) in
  let r1 := set_OutputBit (u32 (OutputBit r + 1)) r in
  Write ct val false r
    = set_IO (Z.lor (if bit then 1 else 0) (Z.land val 0xFFFE))
        (if OutputBit r1 >=? 8 then
           let r2 := set_OutputBit 0 r1 in
           if OutputPos r2 <? 7
           then set_OutputPos (u32 (OutputPos r2 + 1)) r2 else r2
         else r1).
Proof.
  unfold read_transfer. rewrite !andb_true_iff.
  intros [[[H4 Hcs] H2] H10]. apply negb_true_iff in H10.
  unfold Write. rewrite H4, Hcs, H2, H10. cbn [negb]. cbv zeta.
  destruct (nonzero (Z.land (array_get _ _) _));
    cbn [OutputBit OutputPos set_IO set_OutputBit];
    repeat match goal with
           | |- context [if ?c then _ else _] => destruct c
           end;
    cbn [IO set_IO set_OutputBit set_OutputPos];
    rewrite ?land_lor_1, ?land_0xFFFE_1; reflexivity.
Qed.

Lemma cs_held_after_recv (b : bool) :
  nonzero (Z.land (Z.lor (if b then 1 else 0) 6) 0x0004) = true.
Proof. destruct b; reflexivity. Qed.

(** One host read of a bit that does not finish the output byte. *)
Lemma host_recv_bit_spec (ct : Z) (r : RTC) (k k' : Z) :
  nonzero (Z.land (IO r) 0x0004) = true ->
  OutputBit r = k -> 0 <= k < 7 -> k' = k + 1 ->
  let bit := nonzero (Z.land (array_get (Output r) (OutputPos r))
                             (Z.shiftl 1 k)) in
  host_recv_bit ct r
    = (set_IO (Z.lor (if bit then 1 else 0) 6) (set_OutputBit k' r), bit).
Proof.
  intros Hcs Hk Hrange -> bit. unfold host_recv_bit.
  assert (Hrd : read_transfer 0x04 false r = true)
    by (unfold read_transfer; rewrite Hcs; reflexivity).
  rewrite (Write_shift_out ct _ r Hrd). cbv zeta.
  cbn [OutputBit set_OutputBit]. rewrite Hk. fold bit.
  assert (Hu : u32 (k + 1) = k + 1) by (apply Z.mod_small; lia).
  rewrite Hu.
  destruct (Z.geb_spec (k + 1) 8); [lia|].
  change (Z.land 4 0xFFFE) with 4.
  unfold Read. cbn [IO set_IO].
  rewrite Write_clock_high;
    [ | reflexivity | cbn [IO set_IO]; destruct bit; reflexivity | reflexivity ].
  change (nonzero (Z.land 6 16)) with false. cbv iota.
  cbn [IO set_IO].
  f_equal.
  - destruct bit; reflexivity.
  - destruct bit; reflexivity.
Qed.

(** The host read that finishes the output byte. *)
Lemma host_recv_bit_last (ct : Z) (r : RTC) :
  nonzero (Z.land (IO r) 0x0004) = true ->
  OutputBit r = 7 -> 0 <= OutputPos r <= 7 ->
  let bit := nonzero (Z.land (array_get (Output r) (OutputPos r))
                             (Z.shiftl 1 7)) in
  host_recv_bit ct r
    = (set_IO (Z.lor (if bit then 1 else 0) 6)
         (set_OutputPos (if OutputPos r <? 7 then OutputPos r + 1
                         else OutputPos r)
            (set_OutputBit 0 r)), bit).
Proof.
  intros Hcs Hk Hpos bit. unfold host_recv_bit.
  assert (Hrd : read_transfer 0x04 false r = true)
    by (unfold read_transfer; rewrite Hcs; reflexivity).
  rewrite (Write_shift_out ct _ r Hrd). cbv zeta.
  cbn [OutputBit OutputPos set_OutputBit]. rewrite Hk. fold bit.
  change (u32 (7 + 1) >=? 8) with true. cbv iota.
  change (Z.land 4 0xFFFE) with 4.
  unfold Read.
  assert (Hr1 : forall x, IO (set_IO (Z.lor (if bit then 1 else 0) 4) x)
                          = Z.lor (if bit then 1 else 0) 4) by reflexivity.
  destruct (Z.ltb_spec (OutputPos r) 7) as [Hlt|Hge].
  - unfold u32. rewrite (Z.mod_small (OutputPos r + 1)) by lia.
    rewrite Write_clock_high;
      [ | reflexivity | rewrite Hr1; destruct bit; reflexivity | reflexivity ].
    change (nonzero (Z.land 6 16)) with false. cbv iota.
    rewrite !Hr1. f_equal; destruct bit; reflexivity.
  - rewrite Write_clock_high;
      [ | reflexivity | rewrite Hr1; destruct bit; reflexivity | reflexivity ].
    change (nonzero (Z.land 6 16)) with false. cbv iota.
    rewrite !Hr1.
    destruct r as [io inp ibit ipos out obit opos cmd st te cc].
    f_equal; destruct bit; reflexivity.
Qed.

(** A whole byte clocked out to the host, least significant bit first: the
    host assembles the byte at the output position, which then advances and
    stays at 7. *)
Lemma host_recv_byte_spec (ct : Z) (r : RTC) :
  nonzero (Z.land (IO r) 0x0004) = true ->
  OutputBit r = 0 -> 0 <= OutputPos r <= 7 ->
  0 <= array_get (Output r) (OutputPos r) < 256 ->
  let byte := array_get (Output r) (OutputPos r) in
  host_recv_byte ct r
    = (set_IO (Z.lor (if Z.testbit byte 7 then 1 else 0) 6)
         (set_OutputPos (if OutputPos r <? 7 then OutputPos r + 1
                         else OutputPos r) r),
       byte).
Proof.
  intros Hcs Hbit Hpos Hbyte byte.
  unfold host_recv_byte. cbn [host_recv_bits].
  rewrite (host_recv_bit_spec ct r 0 1 Hcs Hbit ltac:(lia) eq_refl).
  cbv beta iota zeta.
  do 6 (match goal with
        | |- context [host_recv_bit ct (set_IO ?a (set_OutputBit ?k ?x))] =>
            rewrite (host_recv_bit_spec ct (set_IO a (set_OutputBit k x))
                       k (k + 1) (cs_held_after_recv _) eq_refl
                       ltac:(lia) eq_refl)
        end; cbv beta iota zeta).
  match goal with
  | |- context [host_recv_bit ct (set_IO ?a (set_OutputBit ?k ?x))] =>
      rewrite (host_recv_bit_last ct (set_IO a (set_OutputBit k x))
                 (cs_held_after_recv _) eq_refl Hpos)
  end.
  cbv beta iota zeta.
  cbn [Output OutputPos set_IO set_OutputBit]. fold byte.
  change (0 <= byte < 256) in Hbyte.
  assert (Hbits :
    byte_of_bits
      [nonzero (Z.land byte (Z.shiftl 1 0));
       nonzero (Z.land byte (Z.shiftl 1 (0 + 1)));
       nonzero (Z.land byte (Z.shiftl 1 (0 + 1 + 1)));
       nonzero (Z.land byte (Z.shiftl 1 (0 + 1 + 1 + 1)));
       nonzero (Z.land byte (Z.shiftl 1 (0 + 1 + 1 + 1 + 1)));
       nonzero (Z.land byte (Z.shiftl 1 (0 + 1 + 1 + 1 + 1 + 1)));
       nonzero (Z.land byte (Z.shiftl 1 (0 + 1 + 1 + 1 + 1 + 1 + 1)));
       nonzero (Z.land byte (Z.shiftl 1 7))] = byte).
  { clearbody byte. clear - Hbyte. apply Z.eqb_eq.
    revert byte Hbyte. enumerate. }
  assert (Hb7 : nonzero (Z.land byte (Z.shiftl 1 7)) = Z.testbit byte 7).
  { clearbody byte. clear - Hbyte.
    apply eqb_true_iff. revert byte Hbyte. enumerate. }
  f_equal.
  - rewrite Hb7.
    destruct r as [io inp ibit ipos out obit opos cmd st te cc].
    cbn [OutputBit] in Hbit. subst obit. reflexivity.
  - fold byte in Hbits. exact Hbits.
Qed.

(** X12: eight host reads with chip select held return the output byte at
    the output position, least significant first; the position advances by
    one and stays at 7; the output bit counter is back at zero, and the
    output buffer, the register file and the command are unchanged. *)
Theorem Write_shift_out_byte (ct : Z) (r : RTC) :
  nonzero (Z.land (IO r) 0x0004) = true ->
  OutputBit r = 0 -> 0 <= OutputPos r <= 7 ->
  0 <= array_get (Output r) (OutputPos r) < 256 ->
  let r' := fst (host_recv_byte ct r) in
  snd (host_recv_byte ct r) = array_get (Output r) (OutputPos r) /\
  OutputPos r' = (if OutputPos r <? 7 then OutputPos r + 1 else OutputPos r) /\
  OutputBit r' = 0 /\ nonzero (Z.land (IO r') 0x0004) = true /\
  Output r' = Output r /\ State r' = State r /\ CurCmd r' = CurCmd r /\
  InputPos r' = InputPos r.
Proof.
  intros Hcs Hbit Hpos Hbyte r'. subst r'.
  pose proof (host_recv_byte_spec ct r Hcs Hbit Hpos Hbyte) as H.
  cbv zeta in H. rewrite H.
  cbn [fst snd IO OutputPos OutputBit Output State CurCmd InputPos
       set_IO set_OutputPos].
  split; [reflexivity|]. split; [reflexivity|]. split; [exact Hbit|].
  split; [apply cs_held_after_recv|]. auto.
Qed.

Lemma Write_shift_out_byte_witness :
  snd (host_recv_byte 0 free_reg_read_session)
    = array_get (Output free_reg_read_session)
                (OutputPos free_reg_read_session).
Proof.
  apply (Write_shift_out_byte 0 free_reg_read_session);
    first [reflexivity | vm_compute; split; congruence].
Defined.

(** ** One-byte registers *)

Lemma one_byte_register_cases (ct c : Z) :
  one_byte_register ct c = true ->
  c = 0x46 \/ c = 0x36 \/ c = 0x76 \/ (ct = 1 /\ (c = 0x4E \/ c = 0x2E)).
Proof.
  unfold one_byte_register. cbn [existsb].
  rewrite !orb_true_iff, andb_true_iff, !orb_true_iff, !Z.eqb_eq.
  intros [[H|[H|[H|H]]]|[H1 [H|[H|H]]]]; try discriminate; subst; auto 10.
Qed.

(** [host_begin] from any state: the latch holds 0x16 and the session is
    cleared; command, register file and timer are kept. *)
Lemma host_begin_spec (ct : Z) (r : RTC) :
  host_begin ct r
    = mkRTC 0x16 0 0 0 Output_zero 0 0 (CurCmd r) (State r)
            (TimerError r) (ClockCount r).
Proof. reflexivity. Qed.

Lemma CmdWrite_one_byte (ct c val : Z) (r : RTC) :
  one_byte_register ct c = true ->
  CurCmd r = c -> InputPos r = 1 ->
  register_of c (State (CmdWrite ct val r)) = val.
Proof.
  intros Hc Hcmd Hpos. unfold CmdWrite. rewrite Hcmd, Hpos.
  destruct (one_byte_register_cases ct c Hc)
    as [->|[->|[->|[-> [->| ->]]]]]; reflexivity.
Qed.

Lemma CmdRead_one_byte (ct c : Z) (r : RTC) :
  one_byte_register ct c = true ->
  CurCmd r = Z.lor c 0x80 ->
  CmdRead ct r
    = set_Output (<[0%nat := register_of c (State r)]> (Output r)) r.
Proof.
  intros Hc Hcmd. unfold CmdRead. rewrite Hcmd.
  destruct (one_byte_register_cases ct c Hc)
    as [->|[->|[->|[-> [->| ->]]]]]; reflexivity.
Qed.

Lemma normalize_one_byte (ct c : Z) :
  one_byte_register ct c = true ->
  normalize_command (ct =? 1) c = c /\
  normalize_command (ct =? 1) (Z.lor c 0x80) = Z.lor c 0x80.
Proof.
  intros Hc.
  destruct (one_byte_register_cases ct c Hc)
    as [->|[->|[->|[-> [->| ->]]]]];
    try (destruct (ct =? 1); split; reflexivity); split; reflexivity.
Qed.

(** X14: a one-byte register written by a host session is read back by a
    host session: after the write command and a data byte, status
    register 2, the clock adjust register and the free register (and on the
    DSi FOUT1 and FOUT2) hold the byte; the read command in a new session
    returns it, and reading leaves the register file as it was. *)
Theorem one_byte_register_round_trip (ct c val : Z) (r : RTC) :
  0 <= val < 256 ->
  one_byte_register ct c = true ->
  let written :=
    host_send_byte ct val (host_send_byte ct c (host_begin ct r)) in
  let reading := host_send_byte ct (Z.lor c 0x80) (host_begin ct written) in
  register_of c (State written) = val /\
  snd (host_recv_byte ct reading) = val /\
  State (fst (host_recv_byte ct reading)) = State written.
Proof.
  intros Hval Hc written reading.
  destruct (normalize_one_byte ct c Hc) as [Hn Hn'].
  assert (Hcb : 0 <= c < 256 /\ 0 <= Z.lor c 0x80 < 256 /\
                nonzero (Z.land c 0x80) = false /\
                nonzero (Z.land (Z.lor c 0x80) 0x80) = true).
  { destruct (one_byte_register_cases ct c Hc)
      as [->|[->|[->|[_ [->| ->]]]]];
      repeat split; try reflexivity; vm_compute; congruence. }
  destruct Hcb as (Hcr & Hcr' & Hd & Hd').
  (* the write session *)
  set (ra := host_begin ct r).
  assert (Ea : ra = mkRTC 0x16 0 0 0 Output_zero 0 0 (CurCmd r) (State r)
                          (TimerError r) (ClockCount r)) by reflexivity.
  assert (Eb : host_send_byte ct c ra
               = set_IO (Z.lor 0x16 (if Z.testbit c 7 then 1 else 0))
                   (set_InputPos 1 (set_CurCmd c ra))).
  { rewrite host_send_byte_spec by (rewrite ?Ea; reflexivity || lia).
    rewrite ByteIn_first by (rewrite Ea; reflexivity).
    cbv zeta. cbn [CurCmd set_CurCmd]. rewrite Hn, Hd. rewrite Ea. reflexivity. }
  set (rb := host_send_byte ct c ra) in *.
  assert (Ew : written
               = set_IO (Z.lor 0x16 (if Z.testbit val 7 then 1 else 0))
                   (set_InputPos 2 (CmdWrite ct val rb))).
  { unfold written. fold ra. fold rb.
    rewrite host_send_byte_spec;
      [ | exact Hval | rewrite Eb; apply cs_held_after_send
        | rewrite Eb; reflexivity | rewrite Eb, Ea; reflexivity ].
    f_equal.
    replace (ByteIn ct val rb) with (CmdWrite ct val rb)
      by (unfold ByteIn; rewrite Eb; reflexivity).
    rewrite Eb. reflexivity. }
  assert (Hreg : register_of c (State written) = val).
  { rewrite Ew. cbn [State set_IO set_InputPos].
    apply CmdWrite_one_byte; [exact Hc | rewrite Eb; reflexivity
                             | rewrite Eb; reflexivity]. }
  split; [exact Hreg|].
  (* the read session *)
  set (rd := host_begin ct written).
  assert (Ed : rd = mkRTC 0x16 0 0 0 Output_zero 0 0 (CurCmd written)
                          (State written) (TimerError written)
                          (ClockCount written)) by reflexivity.
  assert (Er : reading
               = set_IO (Z.lor 0x16 (if Z.testbit (Z.lor c 0x80) 7
                                     then 1 else 0))
                   (set_InputPos 1
                      (set_Output (<[0%nat := val]> Output_zero)
                         (set_CurCmd (Z.lor c 0x80) rd)))).
  { unfold reading. fold rd.
    rewrite host_send_byte_spec by (rewrite ?Ed; reflexivity || lia).
    rewrite ByteIn_first by (rewrite Ed; reflexivity).
    cbv zeta. cbn [CurCmd set_CurCmd]. rewrite Hn', Hd'.
    rewrite (CmdRead_one_byte ct c) by (exact Hc || reflexivity).
    rewrite Ed. cbn [State Output set_CurCmd]. rewrite Hreg. reflexivity. }
  assert (H1 : nonzero (Z.land (IO reading) 0x0004) = true)
    by (rewrite Er; apply cs_held_after_send).
  assert (H2 : OutputBit reading = 0) by (rewrite Er; reflexivity).
  assert (H3 : OutputPos reading = 0) by (rewrite Er; reflexivity).
  assert (H4 : array_get (Output reading) (OutputPos reading) = val)
    by (rewrite Er; reflexivity).
  pose proof (host_recv_byte_spec ct reading H1 H2
                ltac:(rewrite H3; lia) ltac:(rewrite H4; exact Hval)) as Hrecv.
  cbv zeta in Hrecv. rewrite H4 in Hrecv.
  rewrite Hrecv. cbn [fst snd State set_IO set_OutputPos].
  split; [reflexivity|].
  rewrite Er. reflexivity.
Qed.

Lemma one_byte_register_round_trip_witness :
  let written :=
    host_send_byte 0 0x5A (host_send_byte 0 0x76 (host_begin 0 power_on)) in
  let reading :=
    host_send_byte 0 (Z.lor 0x76 0x80) (host_begin 0 written) in
  register_of 0x76 (State written) = 0x5A /\
  snd (host_recv_byte 0 reading) = 0x5A /\
  State (fst (host_recv_byte 0 reading)) = State written.
Proof.
  apply (one_byte_register_round_trip 0 0x76 0x5A power_on);
    first [lia | reflexivity].
Defined.

(** ** Hour mode round trip *)

Lemma ConvertHour_round_trip_bytes (m24 : bool) :
  forall d, 0 <= d < 256 ->
    implb (hour_byte_normal m24 d)
          (hour_byte_normal (negb m24) (ConvertHour (negb m24) d) &&
           (ConvertHour m24 (ConvertHour (negb m24) d) =? d)) = true.
Proof. destruct m24; enumerate. Qed.

(** X16: switching the hour mode and back restores the calendar: from an
    hour byte in normal form, a status register 1 write that toggles the
    12/24-hour bit gives an hour byte in normal form for the other mode, and
    a second write that toggles it back restores the date/time bytes. *)
Theorem mode_toggle_round_trip (v1 v2 : Z) (s : StateData) :
  length (DateTime s) = 7%nat ->
  0 <= dt s 4 < 256 ->
  hour_byte_normal (mode24 s) (dt s 4) = true ->
  Z.testbit v1 0 = false -> Z.testbit v2 0 = false ->
  Z.testbit v1 1 = negb (mode24 s) -> Z.testbit v2 1 = mode24 s ->
  let s1 := WriteStatusReg1 v1 s in
  let s2 := WriteStatusReg1 v2 s1 in
  mode24 s1 = negb (mode24 s) /\
  hour_byte_normal (mode24 s1) (dt s1 4) = true /\
  mode24 s2 = mode24 s /\
  DateTime s2 = DateTime s.
Proof.
  intros Hlen Hd Hn Hr1 Hr2 Hb1 Hb2 s1 s2.
  pose proof (ConvertHour_round_trip_bytes (mode24 s) (dt s 4) Hd) as Hc.
  rewrite Hn in Hc. cbn [implb] in Hc.
  apply andb_true_iff in Hc. destruct Hc as [Hn1 Hback].
  apply Z.eqb_eq in Hback.
  assert (E1 : s1 = set_dt 4 (ConvertHour (negb (mode24 s)) (dt s 4))
                      (set_StatusReg1
                         (Z.lor (Z.land (StatusReg1 s) 0xF0) (Z.land v1 0x0E))
                         s)).
  { unfold s1. rewrite WriteStatusReg1_no_reset by assumption. cbv zeta.
    rewrite Hb1. destruct (mode24 s); reflexivity. }
  assert (Hm1 : mode24 s1 = negb (mode24 s)).
  { rewrite E1. unfold mode24 at 1.
    cbn [StatusReg1 set_StatusReg1 set_dt set_DateTime].
    rewrite nonzero_land_bit1, status1_new_mode_bit. exact Hb1. }
  assert (Hd1 : dt s1 4 = ConvertHour (negb (mode24 s)) (dt s 4)).
  { rewrite E1. apply dt_set_dt_eq. cbn [DateTime set_StatusReg1]. lia. }
  assert (E2 : s2 = set_dt 4 (ConvertHour (mode24 s) (dt s1 4))
                      (set_StatusReg1
                         (Z.lor (Z.land (StatusReg1 s1) 0xF0) (Z.land v2 0x0E))
                         s1)).
  { unfold s2. rewrite WriteStatusReg1_no_reset by assumption. cbv zeta.
    rewrite Hb2, Hm1. destruct (mode24 s); reflexivity. }
  split; [exact Hm1|]. split; [rewrite Hm1, Hd1; exact Hn1|]. split.
  - rewrite E2. unfold mode24 at 1.
    cbn [StatusReg1 set_StatusReg1 set_dt set_DateTime].
    rewrite nonzero_land_bit1, status1_new_mode_bit. exact Hb2.
  - rewrite E2, Hd1, Hback. rewrite E1.
    unfold set_dt. cbn [DateTime set_DateTime set_StatusReg1].
    rewrite list_insert_insert_eq.
    apply list_insert_id'. intros _.
    apply list_lookup_lookup_total_lt. lia.
Qed.

Lemma mode_toggle_round_trip_witness :
  DateTime (WriteStatusReg1 0x00
              (WriteStatusReg1 0x02 (State nine_pm_session)))
    = DateTime (State nine_pm_session).
Proof.
  pose proof (mode_toggle_round_trip 0x02 0x00 (State nine_pm_session)
                eq_refl ltac:(vm_compute; split; congruence)
                eq_refl eq_refl eq_refl eq_refl eq_refl) as H.
  cbv zeta in H. exact (proj2 (proj2 (proj2 H))).
Defined.

(** ** Control register writes without a transfer *)

Lemma land_byte_0xFF00 :
  forall v, 0 <= v < 256 -> (Z.land v 0xFF00 =? 0) = true.
Proof. enumerate. Qed.

(** X17: a write to the control register that moves no bit.  With chip
    select low, or with chip select held and the clock high, [Write] changes
    the latch only; on the rising edge of chip select it also clears the
    session (both shift registers and positions, and the output buffer);
    a byte write never changes the high byte of the latch. *)
Theorem Write_without_transfer (ct val : Z) (byte : bool) (r : RTC) :
  let v := if byte then Z.lor val (Z.land (IO r) 0xFF00) else val in
  (nonzero (Z.land v 0x0004) = false \/
   (nonzero (Z.land (IO r) 0x0004) = true /\
    nonzero (Z.land v 0x0002) = true) ->
   Write ct val byte r = set_IO (latch v (IO r)) r) /\
  (nonzero (Z.land v 0x0004) = true ->
   nonzero (Z.land (IO r) 0x0004) = false ->
   Write ct val byte r
     = set_IO (latch v (IO r))
         (set_OutputPos 0 (set_OutputBit 0 (set_Output Output_zero
            (set_InputPos 0 (set_InputBit 0 (set_Input 0 r))))))) /\
  (byte = true -> 0 <= val < 256 ->
   Z.land (IO (Write ct val byte r)) 0xFF00 = Z.land (IO r) 0xFF00).
Proof.
  intros v. split; [|split].
  - intros H. unfold Write. fold v. unfold latch.
    destruct H as [H|[H1 H2]].
    + rewrite H. destruct (nonzero (Z.land v 0x0010)); reflexivity.
    + rewrite H1, H2. cbn [negb].
      destruct (nonzero (Z.land v 0x0004)), (nonzero (Z.land v 0x0010));
        reflexivity.
  - intros H1 H2. unfold Write. fold v. unfold latch.
    rewrite H1, H2. destruct (nonzero (Z.land v 0x0010)); reflexivity.
  - intros -> Hval.
    assert (Hv : Z.land v 0xFF00 = Z.land (IO r) 0xFF00).
    { unfold v. rewrite Z.land_lor_distr_l.
      pose proof (land_byte_0xFF00 val Hval) as H0. apply Z.eqb_eq in H0.
      rewrite H0, Z.lor_0_l. rewrite <- (Z.land_assoc (IO r)). reflexivity. }
    assert (Hio : exists io', IO (Write ct val true r) = latch v io').
    { unfold Write. fold v. unfold latch.
      match goal with
      | |- context [set_IO v ?x] => exists (IO x)
      end.
      destruct (nonzero (Z.land v 0x0010)); reflexivity. }
    destruct Hio as [io' ->]. unfold latch.
    destruct (nonzero (Z.land v 0x0010)); [exact Hv|].
    rewrite Z.land_lor_distr_l, <- !Z.land_assoc.
    change (Z.land 1 0xFF00) with 0. change (Z.land 0xFFFE 0xFF00) with 0xFF00.
    rewrite Z.land_0_r, Z.lor_0_l. exact Hv.
Qed.

Lemma Write_without_transfer_witness :
  Write 0 0x12 false power_on = set_IO 0x12 power_on /\
  Z.land (IO (Write 0 0x16 true (set_IO 0x8000 power_on))) 0xFF00 = 0x8000.
Proof.
  split.
  - exact (proj1 (Write_without_transfer 0 0x12 false power_on)
             (or_introl eq_refl)).
  - exact (proj2 (proj2 (Write_without_transfer 0 0x16 true
                           (set_IO 0x8000 power_on)))
             eq_refl ltac:(lia)).
Defined.

(** ** Bytes past the end of a register *)

(** X18: data bytes past the size of the addressed register are dropped:
    once the byte position exceeds the number of bytes that the command in
    [CurCmd] takes, [CmdWrite] and [ByteIn] leave the module state
    unchanged. *)
Theorem bytes_beyond_group_ignored (ct val : Z) (r : RTC) :
  group_bytes ct r < InputPos r ->
  CmdWrite ct val r = r /\ ByteIn ct val r = r.
Proof.
  intros Hgt.
  assert (Hw : CmdWrite ct val r = r).
  { unfold group_bytes in Hgt. unfold CmdWrite.
    repeat case_match; try reflexivity; exfalso;
      repeat match goal with
             | H : (_ =? _) = true |- _ => apply Z.eqb_eq in H
             | H : (_ <=? _) = true |- _ => apply Z.leb_le in H
             end; lia. }
  split; [exact Hw|].
  unfold ByteIn.
  destruct (Z.eqb_spec (InputPos r) 0) as [E|_]; [|exact Hw].
  exfalso. rewrite E in Hgt. unfold group_bytes in Hgt.
  repeat case_match; lia.
Qed.

Lemma bytes_beyond_group_ignored_witness :
  CmdWrite 0 0x55 (set_InputPos 2 free_reg_read_session)
    = set_InputPos 2 free_reg_read_session.
Proof.
  exact (proj1 (bytes_beyond_group_ignored 0 0x55
                  (set_InputPos 2 free_reg_read_session)
                  ltac:(vm_compute; reflexivity))).
Defined.

(** ** [SetDateTime] and [GetDateTime] *)

Lemma decode_field_0x3F :
  forall n, 0 <= n < 40 ->
    (bcd_decode (Z.land (BCD (u8 n)) 0x3F) =? n) = true.
Proof. enumerate. Qed.

Lemma decode_field_0x7F :
  forall n, 0 <= n < 80 ->
    (bcd_decode (Z.land (BCD (u8 n)) 0x7F) =? n) = true.
Proof. enumerate. Qed.

Lemma decode_year :
  forall n, 0 <= n < 100 -> (bcd_decode (BCD (u8 n)) =? n) = true.
Proof. enumerate. Qed.

(** The hour byte of [SetDateTime] read back by [GetDateTime], per mode. *)
Lemma hour_round_trip (m24 : bool) :
  forall h, 0 <= h < 24 ->
    (let pm := if h >=? 12 then 0x40 else 0 in
     let hour := if negb m24 then (if nonzero pm then h - 12 else h) else h in
     let stored := u8 (Z.lor (BCD (u8 hour)) pm) in
     let got := bcd_decode (Z.land stored 0x3F) in
     (if negb m24 then (if nonzero (Z.land stored 0x40) then got + 12 else got)
      else got) =? h) = true.
Proof. destruct m24; enumerate. Qed.

Lemma mode_bit_after_SetDateTime (x : Z) :
  nonzero (Z.land (Z.land x (Z.lnot 0x80)) (Z.shiftl 1 1))
    = nonzero (Z.land x (Z.shiftl 1 1)).
Proof. rewrite <- Z.land_assoc. reflexivity. Qed.

(** X4: [GetDateTime] reads back what [SetDateTime] stored: for every date
    from 2000-01-01 to 2099-12-31 whose day exists in its month, and every
    time of day, in either hour mode of the register file, the six numbers
    come back unchanged. *)
Theorem SetDateTime_GetDateTime (year month day hour minute second : Z)
    (s : StateData) :
  length (DateTime s) = 7%nat ->
  2000 <= year <= 2099 -> 1 <= month <= 12 ->
  1 <= day <= month_days year month ->
  0 <= hour <= 23 -> 0 <= minute <= 59 -> 0 <= second <= 59 ->
  GetDateTime (SetDateTime year month day hour minute second s)
    = (year, month, day, hour, minute, second).
Proof.
  intros Hlen Hy Hmo Hd Hh Hmi Hse.
  assert (Hdays : month_days year month <= 31).
  { unfold month_days.
    assert (Hc : month = 1 \/ month = 2 \/ month = 3 \/ month = 4 \/
                 month = 5 \/ month = 6 \/ month = 7 \/ month = 8 \/
                 month = 9 \/ month = 10 \/ month = 11 \/ month = 12) by lia.
    cbv zeta. destruct (negb _);
      repeat (destruct Hc as [->|Hc]; [vm_compute; congruence|]);
      subst; vm_compute; congruence. }
  unfold SetDateTime. fold (month_days year month). cbv zeta.
  set (y := if Z.rem year 100 <? 0 then 0 else Z.rem year 100).
  assert (Ey : y = year - 2000).
  { unfold y. rewrite Z.rem_mod_nonneg by lia.
    replace (year mod 100) with (year - 2000)
      by (apply (Z.mod_unique _ _ 20); lia).
    destruct (Z.ltb_spec (year - 2000) 0); lia. }
  assert (Emo : (if (month <? 1) || (month >? 12) then 1 else month) = month).
  { destruct (Z.ltb_spec month 1); [lia|]. rewrite Z.gtb_ltb.
    destruct (Z.ltb_spec 12 month); [lia | reflexivity]. }
  rewrite Emo.
  assert (Ed : (if (day <? 1) || (day >? month_days year month)
                then 1 else day) = day).
  { destruct (Z.ltb_spec day 1); [lia|]. rewrite Z.gtb_ltb.
    destruct (Z.ltb_spec (month_days year month) day); [lia | reflexivity]. }
  unfold month_days in Ed. cbv zeta in Ed. fold y in Ed. rewrite Ed.
  assert (Eh : (if (hour <? 0) || (hour >? 23) then 0 else hour) = hour).
  { destruct (Z.ltb_spec hour 0); [lia|]. rewrite Z.gtb_ltb.
    destruct (Z.ltb_spec 23 hour); [lia | reflexivity]. }
  rewrite Eh.
  assert (Emi : (if (minute <? 0) || (minute >? 59) then 0 else minute)
                = minute).
  { destruct (Z.ltb_spec minute 0); [lia|]. rewrite Z.gtb_ltb.
    destruct (Z.ltb_spec 59 minute); [lia | reflexivity]. }
  rewrite Emi.
  assert (Ese : (if (second <? 0) || (second >? 59) then 0 else second)
                = second).
  { destruct (Z.ltb_spec second 0); [lia|]. rewrite Z.gtb_ltb.
    destruct (Z.ltb_spec 59 second); [lia | reflexivity]. }
  rewrite Ese.
  unfold GetDateTime.
  cbn [StatusReg1 set_StatusReg1].
  repeat match goal with
         | |- context [dt (set_StatusReg1 ?v ?x) ?i] =>
             change (dt (set_StatusReg1 v x) i) with (dt x i)
         end.
  dt_simpl.
  rewrite !StatusReg1_set_dt, mode_bit_after_SetDateTime.
  fold (bcd_decode (BCD (u8 y))).
  fold (bcd_decode (Z.land (BCD (u8 month)) 0x3F)).
  fold (bcd_decode (Z.land (BCD (u8 day)) 0x3F)).
  fold (bcd_decode (Z.land (BCD (u8 minute)) 0x7F)).
  fold (bcd_decode (Z.land (BCD (u8 second)) 0x7F)).
  pose proof (decode_year y ltac:(lia)) as H1. apply Z.eqb_eq in H1.
  pose proof (decode_field_0x3F month ltac:(lia)) as H2. apply Z.eqb_eq in H2.
  pose proof (decode_field_0x3F day ltac:(lia)) as H3. apply Z.eqb_eq in H3.
  pose proof (decode_field_0x7F minute ltac:(lia)) as H5. apply Z.eqb_eq in H5.
  pose proof (decode_field_0x7F second ltac:(lia)) as H6. apply Z.eqb_eq in H6.
  rewrite H1, H2, H3, H5, H6.
  pose proof (hour_round_trip (nonzero (Z.land (StatusReg1 s) (Z.shiftl 1 1)))
                hour ltac:(lia)) as H4.
  cbv zeta in H4. apply Z.eqb_eq in H4. unfold bcd_decode in H4.
  rewrite H4. repeat f_equal. lia.
Qed.

Lemma SetDateTime_GetDateTime_witness :
  GetDateTime (SetDateTime 2024 2 29 23 59 58 ResetState)
    = (2024, 2, 29, 23, 59, 58).
Proof.
  apply SetDateTime_GetDateTime;
    try reflexivity; vm_compute; split; congruence.
Defined.

(** ** The day rollover in decimal *)

(** Three nested ranges. *)
Lemma Z_range_forallb3 (P : Z -> Z -> Z -> bool) (n1 n2 n3 : Z) :
  forallb (fun a =>
    forallb (fun b =>
      forallb (P a b) (map Z.of_nat (seq 0 (Z.to_nat n3))))
      (map Z.of_nat (seq 0 (Z.to_nat n2))))
    (map Z.of_nat (seq 0 (Z.to_nat n1))) = true ->
  forall a b c, 0 <= a < n1 -> 0 <= b < n2 -> 0 <= c < n3 -> P a b c = true.
Proof.
  intros H a b c Ha Hb Hc.
  pose proof (Z_range_forallb _ n1 H a Ha) as H2. cbv beta in H2.
  pose proof (Z_range_forallb _ n2 H2 b Hb) as H3. cbv beta in H3.
  exact (Z_range_forallb _ n3 H3 c Hc).
Qed.

(** A byte inside non-negative BCD bounds is a byte, and the BCD encoding
    of its decimal value. *)
Lemma bcd_in_range_decimal (v vmin vmax : Z) :
  bcd_in_range v vmin vmax = true -> 0 <= bcd_decode vmin ->
  0 <= v < 256 /\ v = BCD (bcd_decode v) /\
  bcd_decode vmin <= bcd_decode v <= bcd_decode vmax /\
  0 <= bcd_decode v <= 99.
Proof.
  unfold bcd_in_range. rewrite !andb_true_iff, !Z.leb_le.
  intros [[Hv Hlo] Hhi] Hmin.
  assert (Hb : 0 <= v < 256).
  { unfold bcd_valid in Hv. unfold bcd_decode in Hlo, Hmin.
    apply andb_true_iff in Hv. rewrite !Z.leb_le in Hv.
    change 0xF with 0x0F in *.
    rewrite ?land_0x0F, ?shiftr_4 in Hv, Hlo, Hmin.
    rewrite (land_0x0F v), (shiftr_4 v) in Hlo.
    pose proof (Z.div_mod v 16 ltac:(lia)).
    pose proof (Z.mod_pos_bound v 16 ltac:(lia)). lia. }
  destruct (BCD_bcd_decode v Hb Hv) as [E R].
  split; [exact Hb|]. split; [symmetry; exact E|]. split; lia.
Qed.

(** The fields of [CheckEndOfMonth] in terms of the fields before. *)
Lemma CheckEndOfMonth_fields (s : StateData) :
  length (DateTime s) = 7%nat ->
  let over := dt s 2 >? DaysInMonth s in
  let m' := BCDIncrement (dt s 1) in
  dt (CheckEndOfMonth s) 2 = (if over then 1 else dt s 2) /\
  dt (CheckEndOfMonth s) 1 = (if over then (if m' >? 0x12 then 1 else m')
                              else dt s 1) /\
  dt (CheckEndOfMonth s) 0
    = (if over && (m' >? 0x12) then BCDIncrement (dt s 0) else dt s 0) /\
  (forall i, (3 <= i)%nat -> dt (CheckEndOfMonth s) i = dt s i).
Proof.
  intros Hlen over m'. unfold CheckEndOfMonth. fold over.
  destruct over; [|cbn [andb]; repeat split].
  unfold CountMonth. cbv zeta. dt_simpl. fold m'.
  destruct (m' >? 0x12); unfold CountYear; dt_simpl; cbn [andb];
    repeat split; intros i Hi; dt_simpl; reflexivity.
Qed.

(** The fields of [CountDay] in terms of the fields before. *)
Lemma CountDay_fields (s : StateData) :
  length (DateTime s) = 7%nat ->
  let d' := BCDIncrement (dt s 2) in
  let over := d' >? DaysInMonth s in
  let m' := BCDIncrement (dt s 1) in
  dt (CountDay s) 3
    = (if u8 (dt s 3 + 1) >=? 7 then 0 else u8 (dt s 3 + 1)) /\
  dt (CountDay s) 2 = (if over then 1 else d') /\
  dt (CountDay s) 1 = (if over then (if m' >? 0x12 then 1 else m')
                       else dt s 1) /\
  dt (CountDay s) 0 = (if over && (m' >? 0x12) then BCDIncrement (dt s 0)
                       else dt s 0) /\
  dt (CountDay s) 4 = dt s 4 /\ dt (CountDay s) 5 = dt s 5 /\
  dt (CountDay s) 6 = dt s 6.
Proof.
  intros Hlen d' over m'.
  unfold CountDay. cbv zeta.
  rewrite (dt_set_dt_eq 3 _ s) by lia.
  set (w' := u8 (dt s 3 + 1)).
  set (s1 := if w' >=? 7 then set_dt 3 0 (set_dt 3 w' s) else set_dt 3 w' s).
  assert (Hlen1 : length (DateTime s1) = 7%nat)
    by (unfold s1; destruct (w' >=? 7); rewrite ?length_set_dt; exact Hlen).
  assert (Hne : forall i, i <> 3%nat -> dt s1 i = dt s i)
    by (intros i Hi; unfold s1; destruct (w' >=? 7);
        rewrite ?dt_set_dt_ne by lia; reflexivity).
  assert (H3 : dt s1 3 = if w' >=? 7 then 0 else w')
    by (unfold s1; destruct (w' >=? 7);
        rewrite dt_set_dt_eq by (rewrite ?length_set_dt; lia); reflexivity).
  assert (Hdim : DaysInMonth s1 = DaysInMonth s)
    by (unfold s1; destruct (w' >=? 7);
        rewrite ?DaysInMonth_set_dt by lia; reflexivity).
  rewrite (Hne 2%nat) by lia. fold d'.
  set (s2 := set_dt 2 d' s1).
  assert (Hlen2 : length (DateTime s2) = 7%nat)
    by (unfold s2; rewrite length_set_dt; exact Hlen1).
  destruct (CheckEndOfMonth_fields s2 Hlen2) as (F2 & F1 & F0 & Fi).
  assert (E2 : dt s2 2 = d') by (unfold s2; apply dt_set_dt_eq; lia).
  assert (En : forall i, i <> 2%nat -> dt s2 i = dt s1 i)
    by (intros i Hi; unfold s2; apply dt_set_dt_ne; lia).
  assert (Hdim2 : DaysInMonth s2 = DaysInMonth s)
    by (unfold s2; rewrite DaysInMonth_set_dt by lia; exact Hdim).
  rewrite E2, Hdim2 in F2, F1, F0. fold over in F2, F1, F0.
  rewrite (En 1%nat), (Hne 1%nat) in F1 by lia. fold m' in F1.
  rewrite (En 1%nat), (En 0%nat), (Hne 1%nat), (Hne 0%nat) in F0 by lia.
  fold m' in F0.
  repeat split; try assumption.
  - rewrite Fi, En, H3 by lia. reflexivity.
  - rewrite Fi, En, Hne by lia. reflexivity.
  - rewrite Fi, En, Hne by lia. reflexivity.
  - rewrite Fi, En, Hne by lia. reflexivity.
Qed.

Lemma DaysInMonth_date_state (s : StateData) :
  DaysInMonth s = DaysInMonth (date_state (dt s 0) (dt s 1) (dt s 2)).
Proof.
  unfold DaysInMonth, date_state.
  rewrite !(dt_set_dt_ne 2) by lia.
  rewrite dt_set_dt_eq by (rewrite ?length_set_dt; cbn; lia).
  rewrite (dt_set_dt_ne 1 0) by lia.
  rewrite dt_set_dt_eq by (cbn; lia). reflexivity.
Qed.

(** The day rollover on every valid date, in decimal; also the agreement of
    [DaysInMonth] with the month table of [SetDateTime]. *)
Lemma CountDay_next_date :
  forall ny nm nd, 0 <= ny < 100 -> 0 <= nm < 13 -> 0 <= nd < 32 ->
    (let s := date_state (BCD ny) (BCD nm) (BCD nd) in
     implb ((1 <=? nm) && (1 <=? nd) && (nd <=? month_days ny nm))
       (let '(y', m', d') := next_date ny nm nd in
        (bcd_decode (DaysInMonth s) =? month_days ny nm) &&
        (dt (CountDay s) 0 =? BCD y') && (dt (CountDay s) 1 =? BCD m') &&
        (dt (CountDay s) 2 =? BCD d') &&
        (0 <=? y') && (y' <=? 99) &&
        (1 <=? m') && (m' <=? 12) && (1 <=? d') && (d' <=? 31) &&
        (d' <=? month_days y' m'))) = true.
Proof.
  apply Z_range_forallb3. vm_compute. reflexivity.
Qed.

(** ** [CountDay] against [SetDateTime] *)

Ltac drop_status :=
  repeat match goal with
         | |- context [dt (set_StatusReg1 ?v ?x) ?i] =>
             change (dt (set_StatusReg1 v x) i) with (dt x i)
         end.

(** The date bytes that [SetDateTime] stores do not depend on the register
    file it starts from nor on the time of day. *)
Lemma SetDateTime_date_fields (y mo d h mi se h' mi' se' : Z)
    (s s' : StateData) (i : nat) :
  length (DateTime s) = 7%nat -> length (DateTime s') = 7%nat ->
  (i < 4)%nat ->
  dt (SetDateTime y mo d h mi se s) i = dt (SetDateTime y mo d h' mi' se' s') i.
Proof.
  intros Hlen Hlen' Hi.
  assert (Hc : i = 0%nat \/ i = 1%nat \/ i = 2%nat \/ i = 3%nat) by lia.
  unfold SetDateTime. cbv zeta. drop_status.
  destruct Hc as [->|[->|[->| ->]]]; dt_simpl; reflexivity.
Qed.

(** The time bytes that [SetDateTime] stores do not depend on the date. *)
Lemma SetDateTime_time_fields (y mo d y' mo' d' h mi se : Z)
    (s : StateData) (i : nat) :
  length (DateTime s) = 7%nat -> (4 <= i < 7)%nat ->
  dt (SetDateTime y mo d h mi se s) i = dt (SetDateTime y' mo' d' h mi se s) i.
Proof.
  intros Hlen Hi.
  assert (Hc : i = 4%nat \/ i = 5%nat \/ i = 6%nat) by lia.
  unfold SetDateTime. cbv zeta. drop_status.
  destruct Hc as [->|[->| ->]]; dt_simpl; reflexivity.
Qed.

Lemma length_SetDateTime (y mo d h mi se : Z) (s : StateData) :
  length (DateTime (SetDateTime y mo d h mi se s)) = length (DateTime s).
Proof.
  unfold SetDateTime. cbv zeta. cbn [DateTime set_StatusReg1].
  rewrite !length_set_dt. reflexivity.
Qed.

Lemma wf_ResetState_DateTime : length (DateTime ResetState) = 7%nat.
Proof. reflexivity. Qed.

(** Two arrays of seven bytes with the same bytes are the same. *)
Lemma DateTime_ext (s s' : StateData) :
  length (DateTime s) = 7%nat -> length (DateTime s') = 7%nat ->
  (forall i, (i < 7)%nat -> dt s i = dt s' i) ->
  DateTime s = DateTime s'.
Proof.
  intros H H' Hi. unfold dt in Hi.
  destruct (DateTime s) as [|a0 [|a1 [|a2 [|a3 [|a4 [|a5 [|a6 [|]]]]]]]];
    try discriminate H.
  destruct (DateTime s') as [|b0 [|b1 [|b2 [|b3 [|b4 [|b5 [|b6 [|]]]]]]]];
    try discriminate H'.
  pose proof (Hi 0%nat ltac:(lia)) as E0. pose proof (Hi 1%nat ltac:(lia)) as E1.
  pose proof (Hi 2%nat ltac:(lia)) as E2. pose proof (Hi 3%nat ltac:(lia)) as E3.
  pose proof (Hi 4%nat ltac:(lia)) as E4. pose proof (Hi 5%nat ltac:(lia)) as E5.
  pose proof (Hi 6%nat ltac:(lia)) as E6.
  cbn in E0, E1, E2, E3, E4, E5, E6. congruence.
Qed.

(** [CountDay] against [SetDateTime] on every date of the century but the
    last, on the default register file. *)
Lemma SetDateTime_CountDay_dates :
  forall ny nm nd, 0 <= ny < 100 -> 0 <= nm < 13 -> 0 <= nd < 32 ->
    (implb ((1 <=? nm) && (1 <=? nd) && (nd <=? month_days ny nm) &&
            negb ((ny =? 99) && (nm =? 12) && (nd =? 31)))
       (let '(y', m', d') := next_date ny nm nd in
        let s := CountDay (SetDateTime (2000 + ny) nm nd 0 0 0 ResetState) in
        let s' := SetDateTime (2000 + y') m' d' 0 0 0 ResetState in
        (month_days (2000 + ny) nm =? month_days ny nm) &&
        (dt s 0 =? dt s' 0) && (dt s 1 =? dt s' 1) &&
        (dt s 2 =? dt s' 2) && (dt s 3 =? dt s' 3))) = true.
Proof.
  apply Z_range_forallb3. vm_compute. reflexivity.
Qed.

(** The date bytes after [CountDay] depend on the date bytes only. *)
Lemma CountDay_date_ext (s s' : StateData) (i : nat) :
  length (DateTime s) = 7%nat -> length (DateTime s') = 7%nat ->
  (forall j, (j < 4)%nat -> dt s j = dt s' j) ->
  (i < 4)%nat ->
  dt (CountDay s) i = dt (CountDay s') i.
Proof.
  intros Hlen Hlen' Heq Hi.
  destruct (CountDay_fields s Hlen) as (F3 & F2 & F1 & F0 & _).
  destruct (CountDay_fields s' Hlen') as (G3 & G2 & G1 & G0 & _).
  assert (Hdim : DaysInMonth s = DaysInMonth s').
  { unfold DaysInMonth. rewrite (Heq 0%nat), (Heq 1%nat) by lia. reflexivity. }
  rewrite Hdim, !(Heq 0%nat), !(Heq 1%nat), !(Heq 2%nat) in * by lia.
  rewrite (Heq 3%nat) in F3 by lia.
  assert (Hc : i = 0%nat \/ i = 1%nat \/ i = 2%nat \/ i = 3%nat) by lia.
  destruct Hc as [->|[->|[->| ->]]]; congruence.
Qed.

(** X5: [CountDay] on a calendar stored by [SetDateTime] gives the bytes
    that [SetDateTime] stores for the next day, the day of the week
    included, for every date from 2000-01-01 to 2099-12-30; leap years and
    the ends of months and years are covered. *)
Theorem SetDateTime_CountDay (ny nm nd hour minute second : Z)
    (s : StateData) :
  length (DateTime s) = 7%nat ->
  0 <= ny <= 99 -> 1 <= nm <= 12 -> 1 <= nd <= month_days ny nm ->
  ~ (ny = 99 /\ nm = 12 /\ nd = 31) ->
  DateTime (CountDay (SetDateTime (2000 + ny) nm nd hour minute second s))
    = DateTime (SetDateTime (2000 + fst (fst (next_date ny nm nd)))
                            (snd (fst (next_date ny nm nd)))
                            (snd (next_date ny nm nd))
                            hour minute second s).
Proof.
  intros Hlen Hy Hm Hd Hlast.
  assert (Hd31 : month_days ny nm <= 31).
  { unfold month_days. cbv zeta.
    assert (Hc : nm = 1 \/ nm = 2 \/ nm = 3 \/ nm = 4 \/ nm = 5 \/ nm = 6 \/
                 nm = 7 \/ nm = 8 \/ nm = 9 \/ nm = 10 \/ nm = 11 \/ nm = 12)
      by lia.
    destruct (negb _);
      repeat (destruct Hc as [->|Hc]; [vm_compute; congruence|]);
      subst; vm_compute; congruence. }
  pose proof (SetDateTime_CountDay_dates ny nm nd
                ltac:(lia) ltac:(lia) ltac:(lia)) as He.
  assert (Hpre : ((1 <=? nm) && (1 <=? nd) && (nd <=? month_days ny nm) &&
                  negb ((ny =? 99) && (nm =? 12) && (nd =? 31))) = true).
  { destruct (Z.leb_spec 1 nm); [|lia]. destruct (Z.leb_spec 1 nd); [|lia].
    destruct (Z.leb_spec nd (month_days ny nm)); [|lia].
    destruct (Z.eqb_spec ny 99), (Z.eqb_spec nm 12), (Z.eqb_spec nd 31);
      try reflexivity. exfalso. apply Hlast. auto. }
  rewrite Hpre in He. cbn [implb] in He.
  destruct (next_date ny nm nd) as [[y' m'] d']. cbn [fst snd].
  cbv zeta in He. rewrite !andb_true_iff, !Z.eqb_eq in He.
  destruct He as ((((_ & E0) & E1) & E2) & E3).
  set (today := SetDateTime (2000 + ny) nm nd hour minute second s).
  set (tomorrow := SetDateTime (2000 + y') m' d' hour minute second s).
  set (today0 := SetDateTime (2000 + ny) nm nd 0 0 0 ResetState) in *.
  set (tomorrow0 := SetDateTime (2000 + y') m' d' 0 0 0 ResetState) in *.
  assert (Ht : length (DateTime today) = 7%nat)
    by (unfold today; rewrite length_SetDateTime; exact Hlen).
  assert (Ht0 : length (DateTime today0) = 7%nat) by reflexivity.
  assert (Hkeep : length (DateTime (CountDay today)) = 7%nat)
    by (rewrite (proj1 (CountDay_keeps today)); exact Ht).
  apply DateTime_ext;
    [exact Hkeep | unfold tomorrow; rewrite length_SetDateTime; exact Hlen |].
  intros i Hi.
  destruct (Nat.lt_ge_cases i 4) as [Hlt|Hge].
  - rewrite (CountDay_date_ext today today0 i Ht Ht0); [| |exact Hlt].
    + transitivity (dt tomorrow0 i).
      * assert (Hc : i = 0%nat \/ i = 1%nat \/ i = 2%nat \/ i = 3%nat) by lia.
        destruct Hc as [->|[->|[->| ->]]]; assumption.
      * unfold tomorrow0, tomorrow.
        apply SetDateTime_date_fields; [reflexivity | exact Hlen | exact Hlt].
    + intros j Hj. unfold today, today0.
      apply SetDateTime_date_fields; [exact Hlen | reflexivity | exact Hj].
  - destruct (CountDay_fields today Ht) as (_ & _ & _ & _ & F4 & F5 & F6).
    assert (Hc : i = 4%nat \/ i = 5%nat \/ i = 6%nat) by lia.
    transitivity (dt today i).
    + destruct Hc as [->|[->| ->]]; assumption.
    + unfold today, tomorrow. apply SetDateTime_time_fields; [exact Hlen | lia].
Qed.

Lemma SetDateTime_CountDay_witness :
  DateTime (CountDay (SetDateTime 2024 2 28 10 30 0 ResetState))
    = DateTime (SetDateTime 2024 2 29 10 30 0 ResetState).
Proof.
  apply (SetDateTime_CountDay 24 2 28 10 30 0 ResetState);
    try reflexivity; try (vm_compute; split; congruence).
  intros (H & _). discriminate H.
Defined.

(** ** The calendar counts in decimal *)

(** Minute and second bytes: the carry test and the incremented byte. *)
Lemma sixty_byte_step :
  forall b, 0 <= b < 256 ->
    implb (bcd_in_range b 0x00 0x59)
      ((bcd_decode b <=? 59) && (0 <=? bcd_decode b) &&
       Bool.eqb (BCDIncrement b >=? 0x60) (negb (bcd_decode b <? 59)) &&
       implb (bcd_decode b <? 59)
         (BCDIncrement b =? BCD (bcd_decode b + 1)))
    = true.
Proof. enumerate. Qed.

(** Hour bytes: [hour_step] adds one hour modulo 24 and carries at 23. *)
Lemma hour_byte_step (m24 : bool) :
  forall d, 0 <= d < 256 ->
    implb (hour_byte_normal m24 d)
      (hour_byte_normal m24 (fst (hour_step m24 d)) &&
       (0 <=? fst (hour_step m24 d)) && (fst (hour_step m24 d) <? 256) &&
       (0 <=? hour24 m24 d) && (hour24 m24 d <=? 23) &&
       (hour24 m24 (fst (hour_step m24 d))
          =? (if hour24 m24 d <? 23 then hour24 m24 d + 1 else 0)) &&
       Bool.eqb (snd (hour_step m24 d)) (negb (hour24 m24 d <? 23)))
    = true.
Proof. destruct m24; enumerate. Qed.

Lemma decode_masked_0x3F :
  forall n, 0 <= n < 40 -> (bcd_decode (Z.land (BCD n) 0x3F) =? n) = true.
Proof. enumerate. Qed.

Lemma decode_masked_0x7F :
  forall n, 0 <= n < 80 -> (bcd_decode (Z.land (BCD n) 0x7F) =? n) = true.
Proof. enumerate. Qed.

(** [DaysInMonth] agrees with the month table of [SetDateTime]. *)
Lemma DaysInMonth_month_days :
  forall ny nm z, 0 <= ny < 100 -> 0 <= nm < 13 -> 0 <= z < 1 ->
    implb (1 <=? nm)
      ((bcd_decode (DaysInMonth (date_state (BCD ny) (BCD nm) z))
          =? month_days ny nm) &&
       (month_days ny nm <=? 31) && (28 <=? month_days ny nm)) = true.
Proof. apply Z_range_forallb3. vm_compute. reflexivity. Qed.

Lemma bcd_in_range_BCD (n vmin vmax : Z) :
  0 <= n <= 99 -> bcd_decode vmin <= n <= bcd_decode vmax ->
  bcd_in_range (BCD n) vmin vmax = true.
Proof.
  intros Hn Hr. unfold bcd_in_range.
  rewrite bcd_valid_BCD, bcd_decode_BCD by assumption.
  cbn [andb]. apply andb_true_iff. split; apply Z.leb_le; lia.
Qed.

Lemma date_state_fields (y mo d : Z) :
  length (DateTime (date_state y mo d)) = 7%nat /\
  dt (date_state y mo d) 0 = y /\ dt (date_state y mo d) 1 = mo /\
  dt (date_state y mo d) 2 = d.
Proof.
  unfold date_state.
  assert (H : length (DateTime ResetState) = 7%nat) by reflexivity.
  split; [rewrite !length_set_dt; exact H|].
  split; [|split].
  - rewrite !(dt_set_dt_ne _ 0) by lia.
    apply dt_set_dt_eq. rewrite H. lia.
  - rewrite (dt_set_dt_ne 2 1) by lia.
    apply dt_set_dt_eq. rewrite length_set_dt, H. lia.
  - apply dt_set_dt_eq. rewrite !length_set_dt, H. lia.
Qed.

Lemma DaysInMonth_ext (s s' : StateData) :
  dt s 0 = dt s' 0 -> dt s 1 = dt s' 1 -> DaysInMonth s = DaysInMonth s'.
Proof. intros H0 H1. unfold DaysInMonth. rewrite H0, H1. reflexivity. Qed.

(** The year, month and day after [CountDay] depend on these bytes only. *)
Lemma CountDay_ymd_ext (s s' : StateData) (i : nat) :
  length (DateTime s) = 7%nat -> length (DateTime s') = 7%nat ->
  (forall j, (j < 3)%nat -> dt s j = dt s' j) ->
  (i < 3)%nat ->
  dt (CountDay s) i = dt (CountDay s') i.
Proof.
  intros Hlen Hlen' Heq Hi.
  destruct (CountDay_fields s Hlen) as (_ & F2 & F1 & F0 & _).
  destruct (CountDay_fields s' Hlen') as (_ & G2 & G1 & G0 & _).
  assert (Hdim : DaysInMonth s = DaysInMonth s')
    by (apply DaysInMonth_ext; apply Heq; lia).
  rewrite Hdim, !(Heq 0%nat), !(Heq 1%nat), !(Heq 2%nat) in * by lia.
  assert (Hc : i = 0%nat \/ i = 1%nat \/ i = 2%nat) by lia.
  destruct Hc as [->|[->| ->]]; congruence.
Qed.

Lemma dt_set_MinuteCount (v : Z) (s : StateData) (i : nat) :
  dt (set_MinuteCount v s) i = dt s i.
Proof. reflexivity. Qed.

(** The bytes after [CountHour], [CountMinute] and [CountSecond]. *)
Lemma CountHour_fields (s : StateData) :
  length (DateTime s) = 7%nat ->
  let st := hour_step (mode24 s) (dt s 4) in
  length (DateTime (CountHour s)) = 7%nat /\
  mode24 (CountHour s) = mode24 s /\
  dt (CountHour s) 4 = fst st /\
  dt (CountHour s) 5 = dt s 5 /\ dt (CountHour s) 6 = dt s 6 /\
  (forall i, (i < 4)%nat ->
     dt (CountHour s) i = if snd st then dt (CountDay s) i else dt s i).
Proof.
  intros Hlen st. rewrite CountHour_hour_step. fold st.
  destruct (CountDay_keeps s) as (Kl & K4 & Ks).
  destruct (CountDay_fields s Hlen) as (_ & _ & _ & _ & _ & F5 & F6).
  destruct (snd st).
  - split; [rewrite length_set_dt, Kl; exact Hlen|].
    split; [unfold mode24; rewrite StatusReg1_set_dt, Ks; reflexivity|].
    split; [apply dt_set_dt_eq; rewrite Kl, Hlen; lia|].
    split; [rewrite dt_set_dt_ne by lia; exact F5|].
    split; [rewrite dt_set_dt_ne by lia; exact F6|].
    intros i Hi. rewrite dt_set_dt_ne by lia. reflexivity.
  - split; [rewrite length_set_dt; exact Hlen|].
    split; [reflexivity|].
    split; [apply dt_set_dt_eq; rewrite Hlen; lia|].
    split; [rewrite dt_set_dt_ne by lia; reflexivity|].
    split; [rewrite dt_set_dt_ne by lia; reflexivity|].
    intros i Hi. rewrite dt_set_dt_ne by lia. reflexivity.
Qed.

Lemma CountMinute_fields (s : StateData) :
  length (DateTime s) = 7%nat ->
  let mi' := BCDIncrement (dt s 5) in
  let st := hour_step (mode24 s) (dt s 4) in
  length (DateTime (CountMinute s)) = 7%nat /\
  mode24 (CountMinute s) = mode24 s /\
  dt (CountMinute s) 4 = (if mi' >=? 0x60 then fst st else dt s 4) /\
  dt (CountMinute s) 5 = (if mi' >=? 0x60 then 0 else mi') /\
  dt (CountMinute s) 6 = dt s 6 /\
  (forall i, (i < 4)%nat ->
     dt (CountMinute s) i
       = if (mi' >=? 0x60) && snd st then dt (CountDay s) i else dt s i).
Proof.
  intros Hlen mi' st. unfold CountMinute. cbv zeta.
  set (s1 := set_MinuteCount _ s).
  assert (Hlen1 : length (DateTime s1) = 7%nat) by exact Hlen.
  rewrite (dt_set_dt_eq 5 _ s1) by lia.
  change (dt s1 5) with (dt s 5). fold mi'.
  destruct (mi' >=? 0x60).
  - set (s2 := set_dt 5 0 (set_dt 5 mi' s1)).
    assert (Hlen2 : length (DateTime s2) = 7%nat)
      by (unfold s2; rewrite !length_set_dt; exact Hlen1).
    assert (Hne : forall i, i <> 5%nat -> dt s2 i = dt s i)
      by (intros i Hi; unfold s2; rewrite !dt_set_dt_ne by lia; reflexivity).
    assert (H5 : dt s2 5 = 0)
      by (unfold s2; apply dt_set_dt_eq; rewrite length_set_dt; lia).
    destruct (CountHour_fields s2 Hlen2) as (L & M & G4 & G5 & G6 & Gi).
    change (mode24 s2) with (mode24 s) in *.
    rewrite (Hne 4%nat) in * by lia. fold st in G4, Gi.
    split; [exact L|]. split; [exact M|]. split; [exact G4|].
    split; [congruence|]. split; [rewrite G6; apply Hne; lia|].
    intros i Hi. rewrite (Gi i Hi). cbn [andb].
    destruct (snd st); [|apply Hne; lia].
    destruct (Nat.eq_dec i 3%nat) as [->|Hi3].
    + destruct (CountDay_fields s2 Hlen2) as (F3 & _).
      destruct (CountDay_fields s Hlen) as (F3' & _).
      rewrite F3, F3', (Hne 3%nat) by lia. reflexivity.
    + apply CountDay_ymd_ext; try assumption; try lia.
      intros j Hj. apply Hne. lia.
  - split; [rewrite length_set_dt; exact Hlen1|].
    split; [reflexivity|].
    split; [rewrite dt_set_dt_ne by lia; reflexivity|].
    split; [apply dt_set_dt_eq; lia|].
    split; [rewrite dt_set_dt_ne by lia; reflexivity|].
    intros i Hi. cbn [andb]. rewrite dt_set_dt_ne by lia. reflexivity.
Qed.

Lemma CountSecond_fields (s : StateData) :
  length (DateTime s) = 7%nat ->
  let se' := BCDIncrement (dt s 6) in
  let mi' := BCDIncrement (dt s 5) in
  let st := hour_step (mode24 s) (dt s 4) in
  length (DateTime (CountSecond s)) = 7%nat /\
  mode24 (CountSecond s) = mode24 s /\
  dt (CountSecond s) 4
    = (if (se' >=? 0x60) && (mi' >=? 0x60) then fst st else dt s 4) /\
  dt (CountSecond s) 5
    = (if se' >=? 0x60 then (if mi' >=? 0x60 then 0 else mi') else dt s 5) /\
  dt (CountSecond s) 6 = (if se' >=? 0x60 then 0 else se') /\
  (forall i, (i < 4)%nat ->
     dt (CountSecond s) i
       = if (se' >=? 0x60) && (mi' >=? 0x60) && snd st
         then dt (CountDay s) i else dt s i).
Proof.
  intros Hlen se' mi' st. unfold CountSecond. cbv zeta.
  rewrite (dt_set_dt_eq 6 _ s) by lia. fold se'.
  destruct (se' >=? 0x60).
  - set (s2 := set_dt 6 0 (set_dt 6 se' s)).
    assert (Hlen2 : length (DateTime s2) = 7%nat)
      by (unfold s2; rewrite !length_set_dt; exact Hlen).
    assert (Hne : forall i, i <> 6%nat -> dt s2 i = dt s i)
      by (intros i Hi; unfold s2; rewrite !dt_set_dt_ne by lia; reflexivity).
    assert (H6 : dt s2 6 = 0)
      by (unfold s2; apply dt_set_dt_eq; rewrite length_set_dt; lia).
    destruct (CountMinute_fields s2 Hlen2) as (L & M & G4 & G5 & G6 & Gi).
    change (mode24 s2) with (mode24 s) in *.
    rewrite (Hne 4%nat), (Hne 5%nat) in * by lia.
    fold mi' in G4, G5, Gi. fold st in G4, Gi. cbn [andb].
    split; [exact L|]. split; [exact M|]. split; [exact G4|].
    split; [exact G5|]. split; [congruence|].
    intros i Hi. rewrite (Gi i Hi).
    destruct ((mi' >=? 0x60) && snd st); [|apply Hne; lia].
    destruct (Nat.eq_dec i 3%nat) as [->|Hi3].
    + destruct (CountDay_fields s2 Hlen2) as (F3 & _).
      destruct (CountDay_fields s Hlen) as (F3' & _).
      rewrite F3, F3', (Hne 3%nat) by lia. reflexivity.
    + apply CountDay_ymd_ext; try assumption; try lia.
      intros j Hj. apply Hne. lia.
  - cbn [andb].
    split; [rewrite length_set_dt; exact Hlen|].
    split; [reflexivity|].
    split; [rewrite dt_set_dt_ne by lia; reflexivity|].
    split; [rewrite dt_set_dt_ne by lia; reflexivity|].
    split; [apply dt_set_dt_eq; lia|].
    intros i Hi. rewrite dt_set_dt_ne by lia. reflexivity.
Qed.

(** ** Valid calendars *)

Lemma GetDateTime_decode (s : StateData) :
  GetDateTime s
    = (bcd_decode (dt s 0) + 2000, bcd_decode (Z.land (dt s 1) 0x3F),
       bcd_decode (Z.land (dt s 2) 0x3F), hour24 (mode24 s) (dt s 4),
       bcd_decode (Z.land (dt s 5) 0x7F), bcd_decode (Z.land (dt s 6) 0x7F)).
Proof. reflexivity. Qed.

Lemma DaysInMonth_decimal (s : StateData) (ny nm : Z) :
  dt s 0 = BCD ny -> dt s 1 = BCD nm -> 0 <= ny <= 99 -> 1 <= nm <= 12 ->
  bcd_decode (DaysInMonth s) = month_days ny nm /\
  28 <= month_days ny nm <= 31.
Proof.
  intros E0 E1 Hy Hm.
  pose proof (DaysInMonth_month_days ny nm 0
                ltac:(lia) ltac:(lia) ltac:(lia)) as H.
  replace (1 <=? nm) with true in H by (symmetry; apply Z.leb_le; lia).
  cbn [implb] in H. rewrite !andb_true_iff in H.
  destruct H as [[Hd H31] H28].
  apply Z.eqb_eq in Hd. apply Z.leb_le in H31, H28.
  split; [|lia]. rewrite <- Hd. f_equal.
  destruct (date_state_fields (BCD ny) (BCD nm) 0) as (_ & D0 & D1 & _).
  apply DaysInMonth_ext; congruence.
Qed.

(** A register file whose bytes are the BCD of a valid date and time is a
    valid calendar, and [GetDateTime] reads those numbers. *)
Lemma calendar_fields_intro (s : StateData) (ny nm nd nmi nse : Z) :
  dt s 0 = BCD ny -> dt s 1 = BCD nm -> dt s 2 = BCD nd ->
  dt s 5 = BCD nmi -> dt s 6 = BCD nse ->
  0 <= ny <= 99 -> 1 <= nm <= 12 -> 1 <= nd <= month_days ny nm ->
  0 <= dt s 3 <= 6 -> 0 <= dt s 4 < 256 ->
  hour_byte_normal (mode24 s) (dt s 4) = true ->
  0 <= nmi <= 59 -> 0 <= nse <= 59 ->
  calendar_valid s = true /\
  GetDateTime s = (ny + 2000, nm, nd, hour24 (mode24 s) (dt s 4), nmi, nse).
Proof.
  intros E0 E1 E2 E5 E6 Hy Hm Hd Hw Hb Hh Hmi Hse.
  destruct (DaysInMonth_decimal s ny nm E0 E1 Hy Hm) as [Hdim Hmd].
  split.
  - unfold calendar_valid, date_valid, time_valid.
    rewrite E0, E1, E2, E5, E6, Hh.
    rewrite (bcd_in_range_BCD ny 0x00 0x99)
      by (change (bcd_decode 0x00) with 0;
          change (bcd_decode 0x99) with 99; lia).
    rewrite (bcd_in_range_BCD nm 0x01 0x12)
      by (change (bcd_decode 0x01) with 1;
          change (bcd_decode 0x12) with 12; lia).
    rewrite (bcd_in_range_BCD nd 0x01 (DaysInMonth s))
      by (rewrite ?Hdim; change (bcd_decode 0x01) with 1; lia).
    rewrite (bcd_in_range_BCD nmi 0x00 0x59)
      by (change (bcd_decode 0x00) with 0;
          change (bcd_decode 0x59) with 59; lia).
    rewrite (bcd_in_range_BCD nse 0x00 0x59)
      by (change (bcd_decode 0x00) with 0;
          change (bcd_decode 0x59) with 59; lia).
    replace (0 <=? dt s 3) with true by (symmetry; apply Z.leb_le; lia).
    replace (dt s 3 <=? 6) with true by (symmetry; apply Z.leb_le; lia).
    replace (0 <=? dt s 4) with true by (symmetry; apply Z.leb_le; lia).
    replace (dt s 4 <? 256) with true by (symmetry; apply Z.ltb_lt; lia).
    reflexivity.
  - assert (M3 : forall n, 0 <= n < 40 -> bcd_decode (Z.land (BCD n) 0x3F) = n)
      by (intros n Hn; apply Z.eqb_eq, decode_masked_0x3F; exact Hn).
    assert (M7 : forall n, 0 <= n < 80 -> bcd_decode (Z.land (BCD n) 0x7F) = n)
      by (intros n Hn; apply Z.eqb_eq, decode_masked_0x7F; exact Hn).
    rewrite GetDateTime_decode, E0, E1, E2, E5, E6.
    rewrite bcd_decode_BCD by lia.
    rewrite !M3, !M7 by lia. reflexivity.
Qed.

(** Conversely, the bytes of a valid calendar are the BCD of their decimal
    values, which form a valid date and time. *)
Lemma calendar_fields_elim (s : StateData) :
  calendar_valid s = true ->
  dt s 0 = BCD (bcd_decode (dt s 0)) /\ dt s 1 = BCD (bcd_decode (dt s 1)) /\
  dt s 2 = BCD (bcd_decode (dt s 2)) /\ dt s 5 = BCD (bcd_decode (dt s 5)) /\
  dt s 6 = BCD (bcd_decode (dt s 6)) /\
  0 <= bcd_decode (dt s 0) <= 99 /\ 1 <= bcd_decode (dt s 1) <= 12 /\
  1 <= bcd_decode (dt s 2)
    <= month_days (bcd_decode (dt s 0)) (bcd_decode (dt s 1)) /\
  0 <= dt s 3 <= 6 /\ 0 <= dt s 4 < 256 /\
  hour_byte_normal (mode24 s) (dt s 4) = true /\
  0 <= bcd_decode (dt s 5) <= 59 /\ 0 <= bcd_decode (dt s 6) <= 59.
Proof.
  unfold calendar_valid, date_valid, time_valid.
  rewrite !andb_true_iff, !Z.leb_le, Z.ltb_lt.
  intros [[[Hy Hm] Hd] [[[[[[Hw0 Hw6] Hh0] Hh1] Hh] Hmi] Hse]].
  destruct (bcd_in_range_decimal _ _ _ Hy ltac:(vm_compute; congruence))
    as (_ & E0 & Ry & _).
  destruct (bcd_in_range_decimal _ _ _ Hm ltac:(vm_compute; congruence))
    as (_ & E1 & Rm & _).
  destruct (bcd_in_range_decimal _ _ _ Hd ltac:(vm_compute; congruence))
    as (_ & E2 & Rd & _).
  destruct (bcd_in_range_decimal _ _ _ Hmi ltac:(vm_compute; congruence))
    as (_ & E5 & Rmi & _).
  destruct (bcd_in_range_decimal _ _ _ Hse ltac:(vm_compute; congruence))
    as (_ & E6 & Rse & _).
  change (bcd_decode 0x00) with 0 in *. change (bcd_decode 0x99) with 99 in *.
  change (bcd_decode 0x01) with 1 in *. change (bcd_decode 0x12) with 12 in *.
  change (bcd_decode 0x59) with 59 in *.
  destruct (DaysInMonth_decimal s _ _ E0 E1 Ry Rm) as [Hdim _].
  rewrite Hdim in Rd.
  repeat (split; [first [assumption | lia]|]). lia.
Qed.

Lemma sixty_step (b : Z) :
  bcd_in_range b 0x00 0x59 = true ->
  (BCDIncrement b >=? 0x60) = negb (bcd_decode b <? 59) /\
  (bcd_decode b < 59 -> BCDIncrement b = BCD (bcd_decode b + 1)).
Proof.
  intros H.
  destruct (bcd_in_range_decimal _ _ _ H ltac:(vm_compute; congruence))
    as (Hb & _).
  pose proof (sixty_byte_step b Hb) as S. rewrite H in S. cbn [implb] in S.
  rewrite !andb_true_iff in S. destruct S as [[_ Hc] Hi].
  apply eqb_prop in Hc. split; [exact Hc|].
  intros Hlt. apply Z.ltb_lt in Hlt. rewrite Hlt in Hi. cbn [implb] in Hi.
  apply Z.eqb_eq. exact Hi.
Qed.

Lemma hour_step_decimal (m24 : bool) (d : Z) :
  0 <= d < 256 -> hour_byte_normal m24 d = true ->
  let d' := fst (hour_step m24 d) in
  hour_byte_normal m24 d' = true /\ 0 <= d' < 256 /\
  0 <= hour24 m24 d <= 23 /\
  hour24 m24 d' = (if hour24 m24 d <? 23 then hour24 m24 d + 1 else 0) /\
  snd (hour_step m24 d) = negb (hour24 m24 d <? 23).
Proof.
  intros Hb H d'. pose proof (hour_byte_step m24 d Hb) as S.
  rewrite H in S. cbn [implb] in S. fold d' in S.
  rewrite !andb_true_iff, !Z.leb_le, Z.ltb_lt, Z.eqb_eq in S.
  destruct S as [[[[[[S1 S2] S3] S4] S5] S6] S7]. apply eqb_prop in S7.
  repeat (split; [first [assumption | lia]|]). exact S7.
Qed.

(** [CountDay] on a valid date, in decimal. *)
Lemma CountDay_decimal (s : StateData) (ny nm nd : Z) :
  length (DateTime s) = 7%nat ->
  dt s 0 = BCD ny -> dt s 1 = BCD nm -> dt s 2 = BCD nd ->
  0 <= ny <= 99 -> 1 <= nm <= 12 -> 1 <= nd <= month_days ny nm ->
  0 <= dt s 3 <= 6 ->
  let y' := fst (fst (next_date ny nm nd)) in
  let m' := snd (fst (next_date ny nm nd)) in
  let d' := snd (next_date ny nm nd) in
  dt (CountDay s) 0 = BCD y' /\ dt (CountDay s) 1 = BCD m' /\
  dt (CountDay s) 2 = BCD d' /\
  0 <= y' <= 99 /\ 1 <= m' <= 12 /\ 1 <= d' <= month_days y' m' /\
  0 <= dt (CountDay s) 3 <= 6.
Proof.
  intros Hlen E0 E1 E2 Hy Hm Hd Hw y' m' d'.
  destruct (DaysInMonth_decimal s ny nm E0 E1 Hy Hm) as [_ Hmd].
  pose proof (CountDay_next_date ny nm nd
                ltac:(lia) ltac:(lia) ltac:(lia)) as H.
  cbv zeta in H.
  replace ((1 <=? nm) && (1 <=? nd) && (nd <=? month_days ny nm))
    with true in H
    by (symmetry; rewrite !andb_true_iff, !Z.leb_le; lia).
  cbn [implb] in H. subst y' m' d'.
  destruct (next_date ny nm nd) as [[y' m'] d']. cbn [fst snd].
  rewrite !andb_true_iff, !Z.leb_le, !Z.eqb_eq in H.
  destruct H as [[[[[[[[[[_ H0] H1] H2] Y0] Y9] M1] M12] D1] D31] Dm].
  destruct (date_state_fields (BCD ny) (BCD nm) (BCD nd))
    as (Dl & D0 & D1' & D2).
  assert (Hext : forall i, (i < 3)%nat ->
            dt (CountDay s) i
              = dt (CountDay (date_state (BCD ny) (BCD nm) (BCD nd))) i).
  { intros i Hi. apply CountDay_ymd_ext; try assumption.
    intros j Hj.
    assert (Hc : j = 0%nat \/ j = 1%nat \/ j = 2%nat) by lia.
    destruct Hc as [->|[->| ->]]; congruence. }
  rewrite !Hext by lia.
  destruct (CountDay_fields s Hlen) as (F3 & _).
  assert (Hw' : 0 <= dt (CountDay s) 3 <= 6).
  { rewrite F3. unfold u8. rewrite Z.mod_small by lia.
    rewrite Z.geb_leb. destruct (Z.leb_spec 7 (dt s 3 + 1)); lia. }
  repeat (split; [first [assumption | lia]|]). apply Hw'.
Qed.

Lemma CountSecond_decimal (s : StateData) :
  length (DateTime s) = 7%nat -> calendar_valid s = true ->
  calendar_valid (CountSecond s) = true /\
  GetDateTime (CountSecond s) = next_second (GetDateTime s).
Proof.
  intros Hlen Hv.
  assert (B6 : bcd_in_range (dt s 6) 0x00 0x59 = true).
  { unfold calendar_valid, time_valid in Hv. rewrite !andb_true_iff in Hv.
    apply Hv. }
  assert (B5 : bcd_in_range (dt s 5) 0x00 0x59 = true).
  { unfold calendar_valid, time_valid in Hv. rewrite !andb_true_iff in Hv.
    apply Hv. }
  destruct (calendar_fields_elim s Hv)
    as (E0 & E1 & E2 & E5 & E6 & Hy & Hm & Hd & Hw & Hb & Hh & Hmi & Hse).
  set (ny := bcd_decode (dt s 0)) in *. set (nm := bcd_decode (dt s 1)) in *.
  set (nd := bcd_decode (dt s 2)) in *. set (nmi := bcd_decode (dt s 5)) in *.
  set (nse := bcd_decode (dt s 6)) in *.
  destruct (calendar_fields_intro s ny nm nd nmi nse) as [_ G]; try assumption.
  rewrite G. clear G.
  destruct (CountSecond_fields s Hlen) as (L & M & T4 & T5 & T6 & Ti).
  destruct (sixty_step _ B6) as [C6 I6]. destruct (sixty_step _ B5) as [C5 I5].
  fold nse in C6, I6. fold nmi in C5, I5.
  destruct (hour_step_decimal (mode24 s) (dt s 4) Hb Hh)
    as (N' & Hb' & R & Hn & Cd).
  rewrite C6, C5, Cd in *. clear C6 C5 Cd.
  set (s' := CountSecond s) in *.
  set (h := hour24 (mode24 s) (dt s 4)) in *.
  unfold next_second.
  assert (Z0 : 0 = BCD 0) by reflexivity.
  destruct (nse <? 59) eqn:A6.
  { cbn [negb andb] in *. apply Z.ltb_lt in A6.
    destruct (calendar_fields_intro s' ny nm nd nmi (nse + 1)) as [V G];
      rewrite ?M, ?T4, ?T5, ?T6, ?(Ti 0%nat), ?(Ti 1%nat), ?(Ti 2%nat),
              ?(Ti 3%nat) by lia;
      try assumption; try lia; try (apply I6; lia).
    split; [exact V|]. rewrite G, M, T4. reflexivity. }
  apply Z.ltb_ge in A6.
  destruct (nmi <? 59) eqn:A5.
  { cbn [negb andb] in *. apply Z.ltb_lt in A5.
    destruct (calendar_fields_intro s' ny nm nd (nmi + 1) 0) as [V G];
      rewrite ?M, ?T4, ?T5, ?T6, ?(Ti 0%nat), ?(Ti 1%nat), ?(Ti 2%nat),
              ?(Ti 3%nat) by lia;
      try assumption; try lia; try (apply I5; lia).
    split; [exact V|]. rewrite G, M, T4. reflexivity. }
  apply Z.ltb_ge in A5.
  destruct (h <? 23) eqn:A4.
  { cbn [negb andb] in *.
    destruct (calendar_fields_intro s' ny nm nd 0 0) as [V G];
      rewrite ?M, ?T4, ?T5, ?T6, ?(Ti 0%nat), ?(Ti 1%nat), ?(Ti 2%nat),
              ?(Ti 3%nat) by lia;
      try assumption; try lia.
    split; [exact V|]. rewrite G, M, T4, Hn. reflexivity. }
  cbn [negb andb] in *.
  destruct (CountDay_decimal s ny nm nd Hlen E0 E1 E2 Hy Hm Hd Hw)
    as (K0 & K1 & K2 & Ky & Km & Kd & Kw).
  replace (ny + 2000 - 2000) with ny by lia.
  destruct (next_date ny nm nd) as [[y' m'] d']. cbn [fst snd] in *.
  destruct (calendar_fields_intro s' y' m' d' 0 0) as [V G];
    rewrite ?M, ?T4, ?T5, ?T6, ?(Ti 0%nat), ?(Ti 1%nat), ?(Ti 2%nat),
            ?(Ti 3%nat) by lia;
    try assumption; try lia.
  split; [exact V|]. rewrite G, M, T4, Hn. reflexivity.
Qed.

Lemma iter_CountSecond_decimal (k : nat) (s : StateData) :
  length (DateTime s) = 7%nat -> calendar_valid s = true ->
  length (DateTime (Nat.iter k CountSecond s)) = 7%nat /\
  calendar_valid (Nat.iter k CountSecond s) = true /\
  GetDateTime (Nat.iter k CountSecond s)
    = Nat.iter k next_second (GetDateTime s).
Proof.
  intros Hlen Hv. induction k as [|k (L & V & G)]; [auto|].
  rewrite !Nat.iter_succ.
  destruct (CountSecond_decimal _ L V) as [V' G'].
  destruct (CountSecond_fields _ L) as (L' & _).
  rewrite G', G. auto.
Qed.

(** X7: counting keeps the calendar valid: if the date and time bytes are
    valid, they are valid after [CountSecond], after one [ClockTimer] tick
    and after any number of ticks. *)
Theorem calendar_stays_valid (r : RTC) (n : nat) :
  length (DateTime (State r)) = 7%nat ->
  calendar_valid (State r) = true ->
  calendar_valid (CountSecond (State r)) = true /\
  calendar_valid (State (fst (ClockTimer r))) = true /\
  calendar_valid (State (fst (run_ticks n r))) = true.
Proof.
  intros Hlen Hv.
  split; [apply (CountSecond_decimal _ Hlen Hv)|]. split.
  - destruct (ClockTimer_count r) as [_ ->].
    destruct (_ =? 0); [apply (CountSecond_decimal _ Hlen Hv) | exact Hv].
  - rewrite run_ticks_seconds.
    apply (iter_CountSecond_decimal _ _ Hlen Hv).
Qed.

Lemma calendar_stays_valid_witness :
  calendar_valid (State (fst (run_ticks (Z.to_nat 100000) power_on))) = true.
Proof.
  apply (calendar_stays_valid power_on (Z.to_nat 100000)); reflexivity.
Defined.

(** X8: on a valid calendar the clock counts calendar seconds: after 32768
    ticks [GetDateTime] reports the second that follows, across the ends of
    minutes, hours, days, months and years, in either hour mode; after [n]
    ticks it reports the time advanced by the number of whole seconds that
    the tick counter has completed. *)
Theorem clock_counts_calendar_seconds (r : RTC) :
  length (DateTime (State r)) = 7%nat ->
  calendar_valid (State r) = true ->
  GetDateTime (State (fst (run_ticks ticks_per_second r)))
    = next_second (GetDateTime (State r)) /\
  (forall n : nat,
     GetDateTime (State (fst (run_ticks n r)))
       = Nat.iter (Z.to_nat ((ClockCount r mod 32768 + Z.of_nat n) / 32768))
                  next_second (GetDateTime (State r))).
Proof.
  intros Hlen Hv.
  assert (Hn : forall n : nat,
     GetDateTime (State (fst (run_ticks n r)))
       = Nat.iter (Z.to_nat ((ClockCount r mod 32768 + Z.of_nat n) / 32768))
                  next_second (GetDateTime (State r))).
  { intros n. rewrite run_ticks_seconds.
    apply (iter_CountSecond_decimal _ _ Hlen Hv). }
  split; [|exact Hn].
  pose proof (Z.mod_pos_bound (ClockCount r) 32768 ltac:(lia)) as Hb.
  rewrite Hn. unfold ticks_per_second. rewrite Z2Nat.id by lia.
  replace ((ClockCount r mod 32768 + 32768) / 32768) with 1
    by (apply (Z.div_unique _ _ _ (ClockCount r mod 32768)); lia).
  reflexivity.
Qed.

Lemma clock_counts_calendar_seconds_witness :
  GetDateTime (State (fst (run_ticks ticks_per_second power_on)))
    = next_second (GetDateTime (State power_on)).
Proof.
  apply (clock_counts_calendar_seconds power_on); reflexivity.
Defined.

(** ** [SetState] *)

Lemma SetState_unfold (st : StateData) :
  SetState st =
    let s := WriteDateTime 1 (dt st 0) st in
    let s := WriteDateTime 2 (dt s 1) s in
    let s := WriteDateTime 3 (dt s 2) s in
    let s := WriteDateTime 4 (dt s 3) s in
    let s := WriteDateTime 5 (dt s 4) s in
    let s := WriteDateTime 6 (dt s 5) s in
    WriteDateTime 7 (dt s 6) s.
Proof. reflexivity. Qed.

Lemma WriteDateTime_cases (v : Z) (s : StateData) :
  WriteDateTime 1 v s = set_dt 0 (BCDSanitize v 0x00 0x99) s /\
  WriteDateTime 2 v s = set_dt 1 (BCDSanitize (Z.land v 0x1F) 0x01 0x12) s /\
  WriteDateTime 3 v s
    = CheckEndOfMonth (set_dt 2 (BCDSanitize (Z.land v 0x3F) 0x01 0x31) s) /\
  WriteDateTime 4 v s = set_dt 3 (BCDSanitize (Z.land v 0x07) 0x00 0x06) s /\
  WriteDateTime 5 v s = set_dt 4 (hour_stored (mode24 s) v) s /\
  WriteDateTime 6 v s = set_dt 5 (BCDSanitize (Z.land v 0x7F) 0x00 0x59) s /\
  WriteDateTime 7 v s = set_dt 6 (BCDSanitize (Z.land v 0x7F) 0x00 0x59) s.
Proof.
  repeat split.
  unfold WriteDateTime, hour_stored, mode24.
  destruct (nonzero _); reflexivity.
Qed.

(** What the write path stores, for every written byte. *)
Lemma written_bytes_valid :
  forall v, 0 <= v < 256 ->
    bcd_in_range (BCDSanitize v 0x00 0x99) 0x00 0x99 &&
    bcd_in_range (BCDSanitize (Z.land v 0x1F) 0x01 0x12) 0x01 0x12 &&
    bcd_in_range (BCDSanitize (Z.land v 0x3F) 0x01 0x31) 0x01 0x31 &&
    (0 <=? BCDSanitize (Z.land v 0x07) 0x00 0x06) &&
    (BCDSanitize (Z.land v 0x07) 0x00 0x06 <=? 6) &&
    bcd_in_range (BCDSanitize (Z.land v 0x7F) 0x00 0x59) 0x00 0x59 = true.
Proof. enumerate. Qed.

Lemma written_hour_valid (m24 : bool) :
  forall v, 0 <= v < 256 ->
    hour_byte_normal m24 (hour_stored m24 v) &&
    (0 <=? hour_stored m24 v) && (hour_stored m24 v <? 256) = true.
Proof. destruct m24; enumerate. Qed.

(** Valid bytes are stored as they are. *)
Lemma valid_bytes_kept :
  forall b, 0 <= b < 256 ->
    implb (bcd_in_range b 0x00 0x99) (BCDSanitize b 0x00 0x99 =? b) &&
    implb (bcd_in_range b 0x01 0x12)
          (BCDSanitize (Z.land b 0x1F) 0x01 0x12 =? b) &&
    implb (bcd_in_range b 0x01 0x31)
          (BCDSanitize (Z.land b 0x3F) 0x01 0x31 =? b) &&
    implb ((0 <=? b) && (b <=? 6))
          (BCDSanitize (Z.land b 0x07) 0x00 0x06 =? b) &&
    implb (bcd_in_range b 0x00 0x59)
          (BCDSanitize (Z.land b 0x7F) 0x00 0x59 =? b) = true.
Proof. enumerate. Qed.

Lemma valid_hour_kept (m24 : bool) :
  forall d, 0 <= d < 256 ->
    implb (hour_byte_normal m24 d) (hour_stored m24 d =? d) = true.
Proof. destruct m24; enumerate. Qed.

(** The day write on every year, month and day that the sanitised bytes can
    hold: the date is valid afterwards; a day of the month is kept. *)
Lemma day_write_dates :
  forall ny nm nd, 0 <= ny < 100 -> 0 <= nm < 13 -> 0 <= nd < 32 ->
    (let s := date_state (BCD ny) (BCD nm) (BCD nd) in
     implb ((1 <=? nm) && (1 <=? nd))
       (date_valid (CheckEndOfMonth s) &&
        implb (nd <=? month_days ny nm)
              (negb (BCD nd >? DaysInMonth s)))) = true.
Proof. apply Z_range_forallb3. vm_compute. reflexivity. Qed.

Lemma CheckEndOfMonth_keeps (s : StateData) :
  length (DateTime (CheckEndOfMonth s)) = length (DateTime s) /\
  StatusReg1 (CheckEndOfMonth s) = StatusReg1 s.
Proof.
  unfold CheckEndOfMonth, CountMonth, CountYear.
  repeat match goal with
         | |- context [if ?c then _ else _] => destruct c
         end;
    rewrite ?length_set_dt, ?StatusReg1_set_dt; split; reflexivity.
Qed.

Lemma date_valid_ext (s s' : StateData) :
  (forall j, (j < 3)%nat -> dt s j = dt s' j) ->
  date_valid s = date_valid s'.
Proof.
  intros H. unfold date_valid.
  rewrite (DaysInMonth_ext s s') by (apply H; lia).
  rewrite !H by lia. reflexivity.
Qed.

Lemma CheckEndOfMonth_ymd_ext (s s' : StateData) (i : nat) :
  length (DateTime s) = 7%nat -> length (DateTime s') = 7%nat ->
  (forall j, (j < 3)%nat -> dt s j = dt s' j) ->
  (i < 3)%nat ->
  dt (CheckEndOfMonth s) i = dt (CheckEndOfMonth s') i.
Proof.
  intros Hlen Hlen' Heq Hi.
  destruct (CheckEndOfMonth_fields s Hlen) as (F2 & F1 & F0 & _).
  destruct (CheckEndOfMonth_fields s' Hlen') as (G2 & G1 & G0 & _).
  assert (Hdim : DaysInMonth s = DaysInMonth s')
    by (apply DaysInMonth_ext; apply Heq; lia).
  rewrite Hdim, !(Heq 0%nat), !(Heq 1%nat), !(Heq 2%nat) in * by lia.
  assert (Hc : i = 0%nat \/ i = 1%nat \/ i = 2%nat) by lia.
  destruct Hc as [->|[->| ->]]; congruence.
Qed.

(** The day write leaves a valid date, whatever the register file held. *)
Lemma day_write_valid (s : StateData) (v : Z) :
  length (DateTime s) = 7%nat ->
  bcd_in_range (dt s 0) 0x00 0x99 = true ->
  bcd_in_range (dt s 1) 0x01 0x12 = true ->
  bcd_in_range v 0x01 0x31 = true ->
  date_valid (CheckEndOfMonth (set_dt 2 v s)) = true.
Proof.
  intros Hlen Hy Hm Hd.
  destruct (bcd_in_range_decimal _ _ _ Hy ltac:(vm_compute; congruence))
    as (_ & E0 & Ry & _).
  destruct (bcd_in_range_decimal _ _ _ Hm ltac:(vm_compute; congruence))
    as (_ & E1 & Rm & _).
  destruct (bcd_in_range_decimal _ _ _ Hd ltac:(vm_compute; congruence))
    as (_ & E2 & Rd & _).
  change (bcd_decode 0x00) with 0 in *. change (bcd_decode 0x99) with 99 in *.
  change (bcd_decode 0x01) with 1 in *. change (bcd_decode 0x12) with 12 in *.
  change (bcd_decode 0x31) with 31 in *.
  set (ny := bcd_decode (dt s 0)) in *. set (nm := bcd_decode (dt s 1)) in *.
  set (nd := bcd_decode v) in *.
  pose proof (day_write_dates ny nm nd ltac:(lia) ltac:(lia) ltac:(lia)) as H.
  cbv zeta in H.
  replace ((1 <=? nm) && (1 <=? nd)) with true in H
    by (symmetry; rewrite !andb_true_iff, !Z.leb_le; lia).
  cbn [implb] in H. apply andb_true_iff in H. destruct H as [H _].
  rewrite <- H.
  destruct (date_state_fields (BCD ny) (BCD nm) (BCD nd))
    as (Dl & D0 & D1 & D2).
  assert (Hl2 : length (DateTime (set_dt 2 v s)) = 7%nat)
    by (rewrite length_set_dt; exact Hlen).
  apply date_valid_ext. intros j Hj.
  apply CheckEndOfMonth_ymd_ext; try assumption.
  intros k Hk.
  assert (Hc : k = 0%nat \/ k = 1%nat \/ k = 2%nat) by lia.
  destruct Hc as [->|[->| ->]].
  - rewrite dt_set_dt_ne by lia. congruence.
  - rewrite dt_set_dt_ne by lia. congruence.
  - rewrite dt_set_dt_eq by lia. congruence.
Qed.

(** The seven date/time bytes written in order, as [SetState] and a host
    session with the date/time command write them. *)
Lemma write_fields_valid (vs : list Z) (s : StateData) :
  length vs = 7%nat -> Forall (fun v => 0 <= v < 256) vs ->
  length (DateTime s) = 7%nat ->
  length (DateTime (write_fields vs s)) = 7%nat /\
  mode24 (write_fields vs s) = mode24 s /\
  calendar_valid (write_fields vs s) = true.
Proof.
  intros Hvs Hb Hlen.
  destruct vs as [|v0 [|v1 [|v2 [|v3 [|v4 [|v5 [|v6 [|]]]]]]]];
    try discriminate Hvs.
  rewrite !Forall_cons in Hb.
  destruct Hb as (B0 & B1 & B2 & B3 & B4 & B5 & B6 & _).
  pose proof (written_bytes_valid v0 B0) as W0.
  pose proof (written_bytes_valid v1 B1) as W1.
  pose proof (written_bytes_valid v2 B2) as W2.
  pose proof (written_bytes_valid v3 B3) as W3.
  pose proof (written_hour_valid (mode24 s) v4 B4) as W4.
  pose proof (written_bytes_valid v5 B5) as W5.
  pose proof (written_bytes_valid v6 B6) as W6.
  repeat match goal with
         | H : _ && _ = true |- _ =>
             apply andb_true_iff in H; destruct H
         end.
  change (write_fields [v0; v1; v2; v3; v4; v5; v6] s)
    with (WriteDateTime 7 v6 (WriteDateTime 6 v5 (WriteDateTime 5 v4
           (WriteDateTime 4 v3 (WriteDateTime 3 v2 (WriteDateTime 2 v1
             (WriteDateTime 1 v0 s))))))).
  destruct (WriteDateTime_cases v0 s) as (-> & _).
  set (s1 := set_dt 0 _ s).
  destruct (WriteDateTime_cases v1 s1) as (_ & -> & _).
  set (s2 := set_dt 1 _ s1).
  destruct (WriteDateTime_cases v2 s2) as (_ & _ & -> & _).
  set (s3 := CheckEndOfMonth _).
  assert (P3 : length (DateTime s3) = 7%nat /\ mode24 s3 = mode24 s /\
               date_valid s3 = true).
  { assert (L2 : length (DateTime s2) = 7%nat)
      by (unfold s2, s1; rewrite !length_set_dt; exact Hlen).
    unfold s3.
    destruct (CheckEndOfMonth_keeps
                (set_dt 2 (BCDSanitize (Z.land v2 0x3F) 0x01 0x31) s2))
      as [Kl Ks].
    split; [rewrite Kl, length_set_dt; exact L2|].
    split; [unfold mode24; rewrite Ks; reflexivity|].
    apply day_write_valid; try assumption.
    - unfold s2, s1. rewrite dt_set_dt_ne by lia.
      rewrite dt_set_dt_eq by lia. assumption.
    - unfold s2. rewrite dt_set_dt_eq by (unfold s1; rewrite length_set_dt; lia).
      assumption. }
  destruct P3 as (L3 & M3 & D3). clearbody s3. clear s1 s2.
  destruct (WriteDateTime_cases v3 s3) as (_ & _ & _ & -> & _).
  set (s4 := set_dt 3 _ s3).
  destruct (WriteDateTime_cases v4 s4) as (_ & _ & _ & _ & -> & _).
  change (mode24 s4) with (mode24 s3). rewrite M3.
  set (s5 := set_dt 4 _ s4).
  destruct (WriteDateTime_cases v5 s5) as (_ & _ & _ & _ & _ & -> & _).
  set (s6 := set_dt 5 _ s5).
  destruct (WriteDateTime_cases v6 s6) as (_ & _ & _ & _ & _ & _ & ->).
  set (s7 := set_dt 6 _ s6).
  assert (L7 : length (DateTime s7) = 7%nat)
    by (unfold s7, s6, s5, s4; rewrite !length_set_dt; exact L3).
  split; [exact L7|]. split; [exact M3|].
  unfold calendar_valid. apply andb_true_iff. split.
  - rewrite <- D3. apply date_valid_ext. intros j Hj.
    unfold s7, s6, s5, s4. rewrite !dt_set_dt_ne by lia. reflexivity.
  - unfold time_valid.
    change (mode24 s7) with (mode24 s3). rewrite M3.
    unfold s7, s6, s5, s4. dt_simpl.
    rewrite !andb_true_iff. repeat split; assumption.
Qed.

(** [SetState] writes the seven bytes of the given register file. *)
Lemma SetState_write_fields (st : StateData) :
  length (DateTime st) = 7%nat ->
  SetState st = write_fields (DateTime st) st.
Proof.
  intros Hlen.
  assert (Hvs : DateTime st
                = [dt st 0; dt st 1; dt st 2; dt st 3; dt st 4; dt st 5;
                   dt st 6]).
  { unfold dt.
    destruct (DateTime st) as [|a0 [|a1 [|a2 [|a3 [|a4 [|a5 [|a6 [|]]]]]]]];
      try discriminate Hlen. reflexivity. }
  replace (write_fields (DateTime st) st)
    with (write_fields [dt st 0; dt st 1; dt st 2; dt st 3; dt st 4; dt st 5;
                        dt st 6] st)
    by (rewrite <- Hvs; reflexivity).
  change (write_fields _ st)
    with (WriteDateTime 7 (dt st 6) (WriteDateTime 6 (dt st 5)
           (WriteDateTime 5 (dt st 4) (WriteDateTime 4 (dt st 3)
             (WriteDateTime 3 (dt st 2) (WriteDateTime 2 (dt st 1)
               (WriteDateTime 1 (dt st 0) st))))))).
  rewrite SetState_unfold. cbv zeta.
  set (s1 := WriteDateTime 1 (dt st 0) st).
  assert (P1 : length (DateTime s1) = 7%nat /\
               forall i, (1 <= i)%nat -> dt s1 i = dt st i).
  { unfold s1. rewrite (proj1 (WriteDateTime_cases _ _)).
    split; [rewrite length_set_dt; exact Hlen|].
    intros i Hi. rewrite dt_set_dt_ne by lia. reflexivity. }
  destruct P1 as [L1 N1]. clearbody s1. rewrite (N1 1%nat) by lia.
  set (s2 := WriteDateTime 2 (dt st 1) s1).
  assert (P2 : length (DateTime s2) = 7%nat /\
               forall i, (2 <= i)%nat -> dt s2 i = dt st i).
  { unfold s2. rewrite (proj1 (proj2 (WriteDateTime_cases _ _))).
    split; [rewrite length_set_dt; exact L1|].
    intros i Hi. rewrite dt_set_dt_ne by lia. apply N1. lia. }
  clear L1 N1. destruct P2 as [L2 N2]. clearbody s2.
  rewrite (N2 2%nat) by lia.
  set (s3 := WriteDateTime 3 (dt st 2) s2).
  assert (P3 : length (DateTime s3) = 7%nat /\
               forall i, (3 <= i)%nat -> dt s3 i = dt st i).
  { unfold s3. rewrite (proj1 (proj2 (proj2 (WriteDateTime_cases _ _)))).
    set (d := BCDSanitize _ _ _).
    assert (Hl : length (DateTime (set_dt 2 d s2)) = 7%nat)
      by (rewrite length_set_dt; exact L2).
    destruct (CheckEndOfMonth_keeps (set_dt 2 d s2)) as [Kl _].
    destruct (CheckEndOfMonth_fields _ Hl) as (_ & _ & _ & Fi).
    split; [rewrite Kl; exact Hl|].
    intros i Hi. rewrite Fi by lia. rewrite dt_set_dt_ne by lia.
    apply N2. lia. }
  clear L2 N2. destruct P3 as [L3 N3]. clearbody s3.
  rewrite (N3 3%nat) by lia.
  set (s4 := WriteDateTime 4 (dt st 3) s3).
  assert (N4 : forall i, (4 <= i)%nat -> dt s4 i = dt st i).
  { unfold s4.
    destruct (WriteDateTime_cases (dt st 3) s3) as (_ & _ & _ & -> & _).
    intros i Hi. rewrite dt_set_dt_ne by lia. apply N3. lia. }
  clearbody s4. rewrite (N4 4%nat) by lia.
  set (s5 := WriteDateTime 5 (dt st 4) s4).
  assert (N5 : forall i, (5 <= i)%nat -> dt s5 i = dt st i).
  { unfold s5.
    destruct (WriteDateTime_cases (dt st 4) s4) as (_ & _ & _ & _ & -> & _).
    intros i Hi. rewrite dt_set_dt_ne by lia. apply N4. lia. }
  clearbody s5. rewrite (N5 5%nat) by lia.
  set (s6 := WriteDateTime 6 (dt st 5) s5).
  assert (N6 : dt s6 6 = dt st 6).
  { unfold s6.
    destruct (WriteDateTime_cases (dt st 5) s5)
      as (_ & _ & _ & _ & _ & -> & _).
    rewrite dt_set_dt_ne by lia. apply N5. lia. }
  rewrite N6. reflexivity.
Qed.

Lemma SetState_valid (st : StateData) :
  length (DateTime st) = 7%nat ->
  (forall i, (i < 7)%nat -> 0 <= dt st i < 256) ->
  length (DateTime (SetState st)) = 7%nat /\
  calendar_valid (SetState st) = true.
Proof.
  intros Hlen Hbytes. rewrite (SetState_write_fields st Hlen).
  assert (Hb : Forall (fun v => 0 <= v < 256) (DateTime st)).
  { unfold dt in Hbytes.
    destruct (DateTime st) as [|a0 [|a1 [|a2 [|a3 [|a4 [|a5 [|a6 [|]]]]]]]];
      try discriminate Hlen.
    repeat constructor;
      [ apply (Hbytes 0%nat) | apply (Hbytes 0%nat)
      | apply (Hbytes 1%nat) | apply (Hbytes 1%nat)
      | apply (Hbytes 2%nat) | apply (Hbytes 2%nat)
      | apply (Hbytes 3%nat) | apply (Hbytes 3%nat)
      | apply (Hbytes 4%nat) | apply (Hbytes 4%nat)
      | apply (Hbytes 5%nat) | apply (Hbytes 5%nat)
      | apply (Hbytes 6%nat) | apply (Hbytes 6%nat) ]; lia. }
  destruct (write_fields_valid (DateTime st) st Hlen Hb Hlen) as (L & _ & V).
  split; assumption.
Qed.

Lemma SetState_fixes (s : StateData) :
  length (DateTime s) = 7%nat -> calendar_valid s = true -> SetState s = s.
Proof.
  intros Hlen Hv.
  pose proof Hv as Hv'.
  unfold calendar_valid, date_valid, time_valid in Hv'.
  rewrite !andb_true_iff in Hv'.
  destruct Hv' as [[[By Bm] Bd] [[[[[[Bw0 Bw6] _] _] Bh] Bmi] Bse]].
  destruct (calendar_fields_elim s Hv)
    as (E0 & E1 & E2 & E5 & E6 & Hy & Hm & Hd & Hw & Hb & Hh & Hmi & Hse).
  set (ny := bcd_decode (dt s 0)) in *. set (nm := bcd_decode (dt s 1)) in *.
  set (nd := bcd_decode (dt s 2)) in *.
  destruct (DaysInMonth_decimal s ny nm E0 E1 Hy Hm) as [Hdim Hmd].
  assert (Byte : forall b lo hi, bcd_in_range b lo hi = true ->
                   0 <= bcd_decode lo -> 0 <= b < 256)
    by (intros b lo hi H H0; apply (bcd_in_range_decimal _ _ _ H H0)).
  assert (K : forall b, 0 <= b < 256 ->
    (bcd_in_range b 0x00 0x99 = true -> BCDSanitize b 0x00 0x99 = b) /\
    (bcd_in_range b 0x01 0x12 = true ->
       BCDSanitize (Z.land b 0x1F) 0x01 0x12 = b) /\
    (bcd_in_range b 0x01 0x31 = true ->
       BCDSanitize (Z.land b 0x3F) 0x01 0x31 = b) /\
    (0 <= b <= 6 -> BCDSanitize (Z.land b 0x07) 0x00 0x06 = b) /\
    (bcd_in_range b 0x00 0x59 = true ->
       BCDSanitize (Z.land b 0x7F) 0x00 0x59 = b)).
  { intros b Hbb. pose proof (valid_bytes_kept b Hbb) as K.
    rewrite !andb_true_iff in K.
    destruct K as [[[[K1 K2] K3] K4] K5].
    split; [intros H; rewrite H in K1; apply Z.eqb_eq; exact K1|].
    split; [intros H; rewrite H in K2; apply Z.eqb_eq; exact K2|].
    split; [intros H; rewrite H in K3; apply Z.eqb_eq; exact K3|].
    split; [|intros H; rewrite H in K5; apply Z.eqb_eq; exact K5].
    intros H.
    replace ((0 <=? b) && (b <=? 6)) with true in K4
      by (symmetry; rewrite andb_true_iff, !Z.leb_le; lia).
    apply Z.eqb_eq. exact K4. }
  assert (H1 : WriteDateTime 1 (dt s 0) s = s).
  { rewrite (proj1 (WriteDateTime_cases _ _)).
    rewrite (proj1 (K (dt s 0)
               (Byte _ _ _ By ltac:(vm_compute; congruence))) By).
    apply set_dt_same. }
  assert (H2 : WriteDateTime 2 (dt s 1) s = s).
  { rewrite (proj1 (proj2 (WriteDateTime_cases _ _))).
    rewrite (proj1 (proj2 (K (dt s 1)
               (Byte _ _ _ Bm ltac:(vm_compute; congruence)))) Bm).
    apply set_dt_same. }
  assert (Bd31 : bcd_in_range (dt s 2) 0x01 0x31 = true).
  { rewrite E2. apply bcd_in_range_BCD; [lia|].
    change (bcd_decode 0x01) with 1. change (bcd_decode 0x31) with 31. lia. }
  assert (H3 : WriteDateTime 3 (dt s 2) s = s).
  { rewrite (proj1 (proj2 (proj2 (WriteDateTime_cases _ _)))).
    rewrite (proj1 (proj2 (proj2 (K (dt s 2)
               (Byte _ _ _ Bd31 ltac:(vm_compute; congruence))))) Bd31).
    rewrite set_dt_same. unfold CheckEndOfMonth.
    pose proof (day_write_dates ny nm nd ltac:(lia) ltac:(lia) ltac:(lia))
      as H.
    cbv zeta in H.
    replace ((1 <=? nm) && (1 <=? nd)) with true in H
      by (symmetry; rewrite !andb_true_iff, !Z.leb_le; lia).
    replace (nd <=? month_days ny nm) with true in H
      by (symmetry; apply Z.leb_le; lia).
    cbn [implb] in H. apply andb_true_iff in H. destruct H as [_ H].
    apply negb_true_iff in H.
    destruct (date_state_fields (BCD ny) (BCD nm) (BCD nd))
      as (_ & D0 & D1 & _).
    rewrite (DaysInMonth_ext s (date_state (BCD ny) (BCD nm) (BCD nd)))
      by congruence.
    rewrite E2 at 1. rewrite H. reflexivity. }
  assert (H4 : WriteDateTime 4 (dt s 3) s = s).
  { destruct (WriteDateTime_cases (dt s 3) s) as (_ & _ & _ & -> & _).
    rewrite (proj1 (proj2 (proj2 (proj2 (K (dt s 3) ltac:(lia))))) Hw).
    apply set_dt_same. }
  assert (H5 : WriteDateTime 5 (dt s 4) s = s).
  { destruct (WriteDateTime_cases (dt s 4) s) as (_ & _ & _ & _ & -> & _).
    pose proof (valid_hour_kept (mode24 s) (dt s 4) Hb) as H.
    rewrite Hh in H. cbn [implb] in H. apply Z.eqb_eq in H. rewrite H.
    apply set_dt_same. }
  assert (H6 : WriteDateTime 6 (dt s 5) s = s).
  { destruct (WriteDateTime_cases (dt s 5) s)
      as (_ & _ & _ & _ & _ & -> & _).
    rewrite (proj2 (proj2 (proj2 (proj2 (K (dt s 5)
               (Byte _ _ _ Bmi ltac:(vm_compute; congruence)))))) Bmi).
    apply set_dt_same. }
  assert (H7 : WriteDateTime 7 (dt s 6) s = s).
  { destruct (WriteDateTime_cases (dt s 6) s)
      as (_ & _ & _ & _ & _ & _ & ->).
    rewrite (proj2 (proj2 (proj2 (proj2 (K (dt s 6)
               (Byte _ _ _ Bse ltac:(vm_compute; congruence)))))) Bse).
    apply set_dt_same. }
  rewrite SetState_unfold. cbv zeta.
  rewrite H1, H2, H3, H4, H5, H6, H7. reflexivity.
Qed.

(** X6: [SetState] leaves a valid calendar whatever bytes the given
    register file holds; a register file whose calendar is valid is kept as
    it is; hence [SetState] applied twice is [SetState] applied once. *)
Theorem SetState_normalises (st : StateData) :
  length (DateTime st) = 7%nat ->
  (forall i, (i < 7)%nat -> 0 <= dt st i < 256) ->
  calendar_valid (SetState st) = true /\
  (calendar_valid st = true -> SetState st = st) /\
  SetState (SetState st) = SetState st.
Proof.
  intros Hlen Hbytes.
  destruct (SetState_valid st Hlen Hbytes) as [L V].
  split; [exact V|]. split.
  - apply SetState_fixes. exact Hlen.
  - apply SetState_fixes; assumption.
Qed.

Lemma SetState_normalises_witness :
  calendar_valid (SetState (set_dt 2 0x31 feb_2024)) = true.
Proof.
  apply (SetState_normalises (set_dt 2 0x31 feb_2024)).
  - reflexivity.
  - intros i Hi.
    do 7 (destruct i as [|i]; [vm_compute; split; congruence|]). lia.
Defined.

(** ** Date/time sessions *)

(** A data byte of the date/time write command. *)
Lemma ByteIn_datetime (ct v : Z) (r : RTC) :
  CurCmd r = 0x26 -> 1 <= InputPos r <= 7 ->
  ByteIn ct v r = set_State (WriteDateTime (InputPos r) v (State r)) r.
Proof.
  intros Hcmd Hpos.
  pose proof (ByteIn_datetime_write ct v r
                ltac:(rewrite Hcmd; reflexivity)
                ltac:(rewrite Hcmd; reflexivity) Hpos) as Hst.
  assert (Hb : ByteIn ct v r = CmdWrite ct v r).
  { unfold ByteIn. destruct (Z.eqb_spec (InputPos r) 0); [lia|reflexivity]. }
  rewrite <- Hst, Hb.
  pose proof (CmdWrite_frame ct v r) as Hf.
  destruct (CmdWrite ct v r) as [io1 inp1 ibit1 ipos1 out1 obit1 opos1 cmd1 st1 te1 cc1].
  destruct r as [io inp ibit ipos out obit opos cmd st te cc].
  cbn in Hf. injection Hf as -> -> -> -> -> -> -> -> -> ->.
  reflexivity.
Qed.

(** One data byte of a date/time write session. *)
Lemma datetime_byte_step (ct v io k : Z) (out : list Z) (st : StateData)
    (te cc : Z) :
  0 <= v < 256 -> nonzero (Z.land io 0x0004) = true -> 1 <= k <= 7 ->
  host_send_byte ct v (mkRTC io 0 0 k out 0 0 0x26 st te cc)
    = mkRTC (Z.lor 0x16 (if Z.testbit v 7 then 1 else 0)) 0 0 (k + 1) out 0 0
            0x26 (WriteDateTime k v st) te cc.
Proof.
  intros Hv Hcs Hk.
  rewrite host_send_byte_spec by (assumption || reflexivity).
  rewrite ByteIn_datetime by (assumption || reflexivity).
  cbn [InputPos State set_State set_InputPos set_IO].
  unfold u32. rewrite Z.mod_small by lia. reflexivity.
Qed.

(** One byte clocked out, on the fields of the module state. *)
Lemma host_recv_byte_step (ct io inp ibit ipos k cmd te cc : Z)
    (out : list Z) (st : StateData) :
  nonzero (Z.land io 0x0004) = true -> 0 <= k < 7 ->
  0 <= array_get out k < 256 ->
  host_recv_byte ct (mkRTC io inp ibit ipos out 0 k cmd st te cc)
    = (mkRTC (Z.lor (if Z.testbit (array_get out k) 7 then 1 else 0) 6)
             inp ibit ipos out 0 (k + 1) cmd st te cc,
       array_get out k).
Proof.
  intros Hcs Hk Hb.
  pose proof (host_recv_byte_spec ct
                (mkRTC io inp ibit ipos out 0 k cmd st te cc)
                Hcs eq_refl ltac:(cbn [OutputPos]; lia) Hb) as H.
  cbv zeta in H. cbn [Output OutputPos] in H. rewrite H.
  destruct (Z.ltb_spec k 7); [reflexivity | lia].
Qed.

(** X19: a host session that sends the date/time write command, in either
    of its two encodings, and seven data bytes passes the bytes in order to
    [WriteDateTime] as fields 1 to 7; whatever the bytes are, the calendar is
    valid afterwards and the hour mode is unchanged. *)
Theorem datetime_write_session (ct c : Z) (vs : list Z) (r : RTC) :
  0 <= c < 256 -> normalize_command (ct =? 1) c = 0x26 ->
  length vs = 7%nat -> Forall (fun v => 0 <= v < 256) vs ->
  length (DateTime (State r)) = 7%nat ->
  let written :=
    host_send_bytes ct vs (host_send_byte ct c (host_begin ct r)) in
  State written = write_fields vs (State r) /\
  calendar_valid (State written) = true /\
  mode24 (State written) = mode24 (State r) /\
  InputPos written = 8.
Proof.
  intros Hc Hn Hvs Hb Hlen written.
  destruct (write_fields_valid vs (State r) Hvs Hb Hlen) as (_ & M & V).
  assert (Ew : exists io,
             written
               = mkRTC io 0 0 8 Output_zero 0 0 0x26
                       (write_fields vs (State r))
                       (TimerError r) (ClockCount r)).
  { unfold written.
    destruct vs as [|v0 [|v1 [|v2 [|v3 [|v4 [|v5 [|v6 [|]]]]]]]];
      try discriminate Hvs.
    rewrite !Forall_cons in Hb.
    destruct Hb as (B0 & B1 & B2 & B3 & B4 & B5 & B6 & _).
    rewrite host_begin_spec.
    rewrite host_send_byte_spec by (reflexivity || lia).
    rewrite ByteIn_first by reflexivity.
    cbv zeta. cbn [CurCmd set_CurCmd]. rewrite Hn.
    change (nonzero (Z.land 0x26 0x80)) with false. cbv iota.
    unfold set_IO, set_InputPos, set_CurCmd.
    cbn [IO Input InputBit InputPos Output OutputBit OutputPos CurCmd State
         TimerError ClockCount].
    change (u32 (0 + 1)) with 1.
    unfold host_send_bytes. cbn [fold_left].
    do 7 (rewrite datetime_byte_step
            by first [assumption | apply cs_held_after_send | lia]).
    eexists. reflexivity. }
  destruct Ew as [io Ew]. rewrite Ew. cbn [State InputPos].
  split; [reflexivity|]. split; [exact V|]. split; [exact M | reflexivity].
Qed.

Lemma datetime_write_session_witness :
  let written :=
    host_send_bytes 0 [0x24; 0x02; 0x31; 0x03; 0x23; 0x59; 0x60]
      (host_send_byte 0 0x64 (host_begin 0 power_on)) in
  State written
    = write_fields [0x24; 0x02; 0x31; 0x03; 0x23; 0x59; 0x60]
                   (State power_on) /\
  calendar_valid (State written) = true /\
  mode24 (State written) = mode24 (State power_on) /\
  InputPos written = 8.
Proof.
  apply (datetime_write_session 0 0x64
           [0x24; 0x02; 0x31; 0x03; 0x23; 0x59; 0x60] power_on).
  - lia.
  - reflexivity.
  - reflexivity.
  - repeat constructor; lia.
  - reflexivity.
Defined.

(** X20: a host session that sends the date/time read command, in either
    of its two encodings, and clocks out seven bytes receives the seven
    date/time bytes of the register file in order; the register file is not
    changed by the command or by the reads. *)
Theorem datetime_read_session (ct c : Z) (r : RTC) :
  0 <= c < 256 -> normalize_command (ct =? 1) c = 0xA6 ->
  length (DateTime (State r)) = 7%nat ->
  Forall (fun v => 0 <= v < 256) (DateTime (State r)) ->
  let reading := host_send_byte ct c (host_begin ct r) in
  snd (host_recv_bytes ct 7 reading) = DateTime (State r) /\
  State (fst (host_recv_bytes ct 7 reading)) = State r /\
  State reading = State r.
Proof.
  intros Hc Hn Hlen Hb reading.
  assert (Er : reading
               = mkRTC (Z.lor 0x16 (if Z.testbit c 7 then 1 else 0)) 0 0 1
                       (memcpy Output_zero (DateTime (State r)) 7)
                       0 0 0xA6 (State r) (TimerError r) (ClockCount r)).
  { unfold reading. rewrite host_begin_spec.
    rewrite host_send_byte_spec by (reflexivity || lia).
    rewrite ByteIn_first by reflexivity.
    cbv zeta. cbn [CurCmd set_CurCmd]. rewrite Hn.
    change (nonzero (Z.land 0xA6 0x80)) with true. cbv iota.
    reflexivity. }
  rewrite Er. clear Er reading.
  destruct (DateTime (State r))
    as [|d0 [|d1 [|d2 [|d3 [|d4 [|d5 [|d6 [|]]]]]]]];
    try discriminate Hlen.
  rewrite !Forall_cons in Hb.
  destruct Hb as (B0 & B1 & B2 & B3 & B4 & B5 & B6 & _).
  change (memcpy Output_zero [d0; d1; d2; d3; d4; d5; d6] 7)
    with [d0; d1; d2; d3; d4; d5; d6; 0].
  cbn [host_recv_bytes].
  rewrite host_recv_byte_step
    by first [apply cs_held_after_send | lia | exact B0].
  cbv beta iota zeta.
  rewrite host_recv_byte_step
    by first [apply cs_held_after_recv | lia | exact B1].
  cbv beta iota zeta.
  rewrite host_recv_byte_step
    by first [apply cs_held_after_recv | lia | exact B2].
  cbv beta iota zeta.
  rewrite host_recv_byte_step
    by first [apply cs_held_after_recv | lia | exact B3].
  cbv beta iota zeta.
  rewrite host_recv_byte_step
    by first [apply cs_held_after_recv | lia | exact B4].
  cbv beta iota zeta.
  rewrite host_recv_byte_step
    by first [apply cs_held_after_recv | lia | exact B5].
  cbv beta iota zeta.
  rewrite host_recv_byte_step
    by first [apply cs_held_after_recv | lia | exact B6].
  cbv beta iota zeta.
  cbn [fst snd State]. split; [reflexivity|]. split; reflexivity.
Qed.

Lemma datetime_read_session_witness :
  let reading := host_send_byte 0 0x65 (host_begin 0 power_on) in
  snd (host_recv_bytes 0 7 reading) = DateTime (State power_on) /\
  State (fst (host_recv_bytes 0 7 reading)) = State power_on /\
  State reading = State power_on.
Proof.
  apply (datetime_read_session 0 0x65 power_on).
  - lia.
  - reflexivity.
  - reflexivity.
  - repeat constructor; lia.
Defined.

(** * The hour carry and the output cursor, on the whole module *)

(** ** The hour carry and the date *)

(** The bytes of a valid date are the BCD of their decimal values, which
    form a date of the calendar. *)
Lemma date_valid_decimal (s : StateData) :
  date_valid s = true ->
  dt s 0 = BCD (bcd_decode (dt s 0)) /\ dt s 1 = BCD (bcd_decode (dt s 1)) /\
  dt s 2 = BCD (bcd_decode (dt s 2)) /\
  0 <= bcd_decode (dt s 0) <= 99 /\ 1 <= bcd_decode (dt s 1) <= 12 /\
  1 <= bcd_decode (dt s 2)
    <= month_days (bcd_decode (dt s 0)) (bcd_decode (dt s 1)).
Proof.
  unfold date_valid. rewrite !andb_true_iff.
  intros [[Hy Hm] Hd].
  destruct (bcd_in_range_decimal _ _ _ Hy ltac:(vm_compute; congruence))
    as (_ & E0 & Ry & _).
  destruct (bcd_in_range_decimal _ _ _ Hm ltac:(vm_compute; congruence))
    as (_ & E1 & Rm & _).
  destruct (bcd_in_range_decimal _ _ _ Hd ltac:(vm_compute; congruence))
    as (_ & E2 & Rd & _).
  change (bcd_decode 0x00) with 0 in *. change (bcd_decode 0x99) with 99 in *.
  change (bcd_decode 0x01) with 1 in *. change (bcd_decode 0x12) with 12 in *.
  destruct (DaysInMonth_decimal s _ _ E0 E1 Ry Rm) as [Hdim _].
  rewrite Hdim in Rd.
  repeat (split; [first [assumption | lia]|]). lia.
Qed.

Lemma next_date_differs (ny nm nd : Z) :
  1 <= nm <= 12 -> next_date ny nm nd <> (ny, nm, nd).
Proof.
  intros Hm. unfold next_date.
  destruct (nd <? month_days ny nm); [intros [=]; lia|].
  destruct (Z.ltb_spec nm 12); intros [=]; lia.
Qed.

Lemma date_bytes_set_hour (v : Z) (s : StateData) :
  date_bytes (set_dt 4 v s) = date_bytes s.
Proof. unfold date_bytes. rewrite !dt_set_dt_ne by lia. reflexivity. Qed.

(** [CountDay] on a valid date: the stored date becomes the next date of
    the calendar and the day of the week advances modulo 7. *)
Lemma CountDay_date_bytes (s : StateData) :
  length (DateTime s) = 7%nat ->
  date_valid s = true -> 0 <= dt s 3 <= 6 ->
  let next := next_date (bcd_decode (dt s 0)) (bcd_decode (dt s 1))
                        (bcd_decode (dt s 2)) in
  date_bytes (CountDay s)
    = [BCD (fst (fst next)); BCD (snd (fst next)); BCD (snd next);
       (dt s 3 + 1) mod 7].
Proof.
  intros Hlen Hv Hw next.
  destruct (date_valid_decimal s Hv) as (E0 & E1 & E2 & Hy & Hm & Hd).
  destruct (CountDay_decimal s _ _ _ Hlen E0 E1 E2 Hy Hm Hd Hw)
    as (K0 & K1 & K2 & _).
  destruct (CountDay_fields s Hlen) as (F3 & _).
  unfold date_bytes. fold next in K0, K1, K2. rewrite K0, K1, K2, F3.
  do 3 f_equal. unfold u8. rewrite (Z.mod_small (dt s 3 + 1) 256) by lia.
  rewrite Z.geb_leb. destruct (Z.leb_spec 7 (dt s 3 + 1)).
  - replace (dt s 3 + 1) with 7 by lia. reflexivity.
  - rewrite Z.mod_small by lia. reflexivity.
Qed.

(** C4: one hour-level carry ([CountHour]).  In 24-hour mode the hour
    overflows at 0x24, goes to 0 and [CountDay] runs.  In 12-hour mode the
    hour goes to 0 and the AM/PM flag toggles when the hour reaches 0x12,
    and [CountDay] runs only when the flag was PM.  On a valid date
    [CountDay] stores the next date of the calendar and advances the day of
    the week, and the other steps leave date and day of the week as they
    are.  Hence, from a valid hour, 24 counted hours advance the date by
    exactly one day in either mode, and in 12-hour mode 12 counted hours
    advance it only when they start in the PM half. *)
Theorem CountHour_rollover (s : StateData) :
  length (DateTime s) = 7%nat -> 0 <= dt s 4 < 256 ->
  let hour := BCDIncrement (Z.land (dt s 4) 0x3F) in
  let pm := Z.land (dt s 4) 0x40 in
  (mode24 s = true ->
     CountHour s =
       if hour >=? 0x24 then set_dt 4 0 (CountDay s)
       else set_dt 4 (Z.lor hour (if hour >=? 0x12 then 0x40 else 0)) s) /\
  (mode24 s = false ->
     CountHour s =
       if hour >=? 0x12
       then (if nonzero pm then set_dt 4 0 (CountDay s) else set_dt 4 0x40 s)
       else set_dt 4 (Z.lor hour pm) s) /\
  (hour_valid s = true ->
     exists h4,
       Nat.iter 24 CountHour s = set_dt 4 h4 (CountDay s) /\
       Z.land h4 0x3F = Z.land (dt s 4) 0x3F) /\
  (mode24 s = false -> hour_valid s = true ->
     Nat.iter 12 CountHour s =
       if nonzero pm then set_dt 4 (Z.land (dt s 4) 0x3F) (CountDay s)
       else set_dt 4 (Z.lor (Z.land (dt s 4) 0x3F) 0x40) s) /\
  (date_valid s = true -> 0 <= dt s 3 <= 6 ->
     let today := (bcd_decode (dt s 0), bcd_decode (dt s 1),
                   bcd_decode (dt s 2)) in
     let next := next_date (bcd_decode (dt s 0)) (bcd_decode (dt s 1))
                           (bcd_decode (dt s 2)) in
     let tomorrow := [BCD (fst (fst next)); BCD (snd (fst next));
                      BCD (snd next); (dt s 3 + 1) mod 7] in
     next <> today /\ tomorrow <> date_bytes s /\
     date_bytes (CountDay s) = tomorrow /\
     (mode24 s = true ->
        date_bytes (CountHour s)
          = if hour >=? 0x24 then tomorrow else date_bytes s) /\
     (mode24 s = false ->
        date_bytes (CountHour s)
          = if (hour >=? 0x12) && nonzero pm then tomorrow
            else date_bytes s) /\
     (hour_valid s = true ->
        date_bytes (Nat.iter 24 CountHour s) = tomorrow) /\
     (mode24 s = false -> hour_valid s = true ->
        date_bytes (Nat.iter 12 CountHour s)
          = if nonzero pm then tomorrow else date_bytes s)).
Proof.
  intros Hlen Hd hour pm.
  destruct (CountHour_calls_CountDay s Hlen Hd) as (C24 & C12 & I24 & I12).
  fold hour pm in C24, C12, I12.
  split; [exact C24|]. split; [exact C12|]. split; [exact I24|].
  split; [exact I12|].
  intros Hv Hw today next tomorrow.
  pose proof (CountDay_date_bytes s Hlen Hv Hw) as Hday.
  cbv zeta in Hday. fold next in Hday. fold tomorrow in Hday.
  destruct (date_valid_decimal s Hv) as (_ & _ & _ & _ & Hm & _).
  split; [apply next_date_differs; exact Hm|].
  split.
  { unfold tomorrow, date_bytes. intros [= _ _ _ E].
    destruct (Z.eq_dec (dt s 3) 6) as [E6|N6].
    - rewrite E6 in E. discriminate E.
    - rewrite Z.mod_small in E by lia. lia. }
  split; [exact Hday|]. split; [|split; [|split]].
  - intros Hm24. rewrite (C24 Hm24).
    destruct (hour >=? 0x24); rewrite date_bytes_set_hour;
      [exact Hday | reflexivity].
  - intros Hm12. rewrite (C12 Hm12).
    destruct (hour >=? 0x12); cbn [andb];
      [destruct (nonzero pm)|]; rewrite date_bytes_set_hour;
      [exact Hday | reflexivity | reflexivity].
  - intros Hh. destruct (I24 Hh) as (h4 & E & _).
    rewrite E, date_bytes_set_hour. exact Hday.
  - intros Hm12 Hh. rewrite (I12 Hm12 Hh).
    destruct (nonzero pm); rewrite date_bytes_set_hour;
      [exact Hday | reflexivity].
Qed.

Lemma CountHour_rollover_witness :
  date_bytes leap_day_2024 = [0x24; 0x02; 0x29; 0] /\
  date_bytes (Nat.iter 24 CountHour leap_day_2024) = [0x24; 0x03; 0x01; 1] /\
  date_bytes (Nat.iter 12 CountHour leap_day_2024) = [0x24; 0x02; 0x29; 0].
Proof.
  pose proof (CountHour_rollover leap_day_2024 eq_refl
                ltac:(vm_compute; split; [discriminate | reflexivity])) as H.
  cbv zeta in H. destruct H as (_ & _ & _ & _ & H).
  destruct (H eq_refl ltac:(vm_compute; split; discriminate))
    as (_ & _ & _ & _ & _ & H24 & H12).
  split; [reflexivity|]. split; [exact (H24 eq_refl)|].
  exact (H12 eq_refl eq_refl).
Defined.

(** ** The output cursor *)

(** The data bit and the buffer after a read-direction bit transfer. *)
Lemma Write_read_data_bit (ct val : Z) (byte : bool) (r : RTC) :
  read_transfer val byte r = true ->
  Z.land (Read (Write ct val byte r)) 0x0001
    = (if nonzero (Z.land (array_get (Output r) (OutputPos r))
                          (Z.shiftl 1 (OutputBit r)))
       then 1 else 0) /\
  Output (Write ct val byte r) = Output r.
Proof.
  unfold read_transfer, Write, Read.
  set (v := if byte then _ else val). clearbody v. cbv zeta.
  rewrite !andb_true_iff. intros [[[H4 Hio] H2] H10].
  rewrite H4, Hio, H2. apply negb_true_iff in H10. rewrite H10.
  cbn [negb].
  destruct (nonzero (Z.land (array_get _ _) _));
    cbn [OutputBit OutputPos set_OutputBit set_OutputPos set_IO];
    destruct (u32 (OutputBit r + 1) >=? 8);
    try destruct (OutputPos r <? 7);
    cbn [IO Output set_IO set_OutputBit set_OutputPos];
    (split; [|reflexivity]);
    rewrite Z.land_lor_distr_l, (land_0xFFFE_1 v), Z.lor_0_r;
    rewrite <- Z.land_assoc; change (Z.land 1 1) with 1;
    first [apply land_lor_1 | apply land_0xFFFE_1].
Qed.

(** With the cursor at the last byte, every further byte the host clocks
    out is that byte. *)
Lemma over_read_repeats (ct : Z) (n : nat) :
  forall r,
    nonzero (Z.land (IO r) 0x0004) = true ->
    OutputBit r = 0 -> OutputPos r = 7 ->
    0 <= array_get (Output r) 7 < 256 ->
    snd (host_recv_bytes ct n r) = repeat (array_get (Output r) 7) n /\
    OutputPos (fst (host_recv_bytes ct n r)) = 7 /\
    Output (fst (host_recv_bytes ct n r)) = Output r.
Proof.
  induction n as [|n IH]; intros r Hcs Hbit Hpos Hb; [by repeat split|].
  cbn [host_recv_bytes repeat].
  pose proof (host_recv_byte_spec ct r Hcs Hbit
                ltac:(rewrite Hpos; lia) ltac:(rewrite Hpos; exact Hb)) as H.
  cbv zeta in H. rewrite Hpos in H. change (7 <? 7) with false in H.
  cbv iota in H. rewrite H.
  set (r1 := set_IO _ _).
  destruct (IH r1 (cs_held_after_recv _) Hbit eq_refl Hb) as (E & P & O).
  destruct (host_recv_bytes ct n r1) as [r2 bs]. cbn [fst snd] in *.
  rewrite E. split; [reflexivity|]. split; [exact P | exact O].
Qed.

(** C9, as stated, fails: [DoSavestate] restores the output cursor
    unchecked.  After a snapshot with [OutputPos] = 8 has been loaded, the
    cursor is above 7, a read-direction bit transfer leaves it at 8, and the
    byte it selects lies past the end of the 8-byte buffer. *)
Lemma OutputPos_restored_8_counterexample :
  reachable any_snapshot 0 (DoSavestate false snapshot_pos_8 power_on) /\
  OutputPos (DoSavestate false snapshot_pos_8 power_on) = 8 /\
  read_transfer 0x04 false (DoSavestate false snapshot_pos_8 power_on)
    = true /\
  OutputPos (Write 0 0x04 false (DoSavestate false snapshot_pos_8 power_on))
    = 8 /\
  length (Output (DoSavestate false snapshot_pos_8 power_on)) = 8%nat /\
  ~ (0 <= OutputPos (DoSavestate false snapshot_pos_8 power_on) <= 7).
Proof.
  split.
  - apply reach_DoSavestate; [| |exact I].
    + exact (reach_Reset _ 0 _ (reach_Init _ 0 _ (reach_zero _ 0))).
    + unfold snapshot_typed, RTC_wf, StateData_wf. vm_compute.
      repeat split; congruence.
  - vm_compute. repeat split; try congruence. intros [_ H]. apply H.
    reflexivity.
Qed.

(** C9 (amended): in every state reachable through the entry points,
    snapshot loads included as long as the snapshot's output cursor is at
    most 7, [OutputPos] is at most 7 and so selects a byte inside the 8-byte
    [Output] buffer.  A read-direction bit transfer leaves the buffer as it
    is; it advances [OutputBit], which goes to 0 when it reaches 8, and
    advances [OutputPos] only then and only while it is below 7; with
    [OutputBit] below 8 it puts the bit [OutputBit] of the selected byte on
    the data line.  At 7 the cursor stays, so every further byte the host
    clocks out is the last byte of the buffer again. *)
Theorem OutputPos_saturates (ct : Z) (r : RTC) :
  reachable output_cursor_in_buffer ct r ->
  0 <= OutputPos r <= 7 /\
  length (Output r) = 8%nat /\
  (Z.to_nat (OutputPos r) < length (Output r))%nat /\
  array_get (Output r) (OutputPos r) = Output r !!! Z.to_nat (OutputPos r) /\
  (forall val byte,
     read_transfer val byte r = true ->
     let bit := u32 (OutputBit r + 1) in
     OutputBit (Write ct val byte r) = (if bit >=? 8 then 0 else bit) /\
     0 <= OutputBit (Write ct val byte r) <= 7 /\
     OutputPos (Write ct val byte r)
       = (if (bit >=? 8) && (OutputPos r <? 7)
          then OutputPos r + 1 else OutputPos r) /\
     (0 <= OutputBit r <= 7 ->
        OutputBit (Write ct val byte r)
          = (if OutputBit r =? 7 then 0 else OutputBit r + 1) /\
        OutputPos (Write ct val byte r)
          = (if (OutputBit r =? 7) && (OutputPos r <? 7)
             then OutputPos r + 1 else OutputPos r) /\
        Z.land (Read (Write ct val byte r)) 0x0001
          = (if nonzero (Z.land (Output r !!! Z.to_nat (OutputPos r))
                                (Z.shiftl 1 (OutputBit r)))
             then 1 else 0)) /\
     (OutputPos r = 7 -> OutputPos (Write ct val byte r) = 7) /\
     Output (Write ct val byte r) = Output r) /\
  (forall val byte, 0 <= OutputPos (Write ct val byte r) <= 7) /\
  (nonzero (Z.land (IO r) 0x0004) = true ->
   OutputBit r = 0 -> OutputPos r = 7 ->
   0 <= Output r !!! 7%nat < 256 ->
   forall n : nat,
     snd (host_recv_bytes ct n r) = repeat (Output r !!! 7%nat) n /\
     OutputPos (fst (host_recv_bytes ct n r)) = 7).
Proof.
  intros Hreach.
  destruct (reachable_serial_inv ct r Hreach) as ((Hout & Hst) & Hpos & Hbit).
  assert (Hget : array_get (Output r) (OutputPos r)
                 = Output r !!! Z.to_nat (OutputPos r)).
  { unfold array_get. rewrite Hout.
    replace ((0 <=? OutputPos r) && (OutputPos r <? Z.of_nat 8)) with true;
      [reflexivity|].
    symmetry. apply andb_true_iff. split; [apply Z.leb_le | apply Z.ltb_lt];
      lia. }
  split; [exact Hpos|]. split; [exact Hout|]. split; [lia|].
  split; [exact Hget|]. split; [|split].
  - intros val byte Hrd bit.
    destruct (Write_read_transfer ct val byte r Hrd) as [Eb Ep].
    destruct (Write_read_data_bit ct val byte r Hrd) as [Ed Eo].
    fold bit in Eb, Ep.
    pose proof (Z.mod_pos_bound (OutputBit r + 1) 4294967296 ltac:(lia))
      as Hu.
    fold (u32 (OutputBit r + 1)) in Hu. fold bit in Hu.
    assert (Hp7 : OutputPos r < 7 -> u32 (OutputPos r + 1) = OutputPos r + 1)
      by (intros ?; apply Z.mod_small; lia).
    assert (Ep' : OutputPos (Write ct val byte r)
                  = (if (bit >=? 8) && (OutputPos r <? 7)
                     then OutputPos r + 1 else OutputPos r)).
    { rewrite Ep. destruct (bit >=? 8); [|reflexivity]. cbn [andb].
      destruct (Z.ltb_spec (OutputPos r) 7); [apply Hp7; assumption|].
      reflexivity. }
    split; [exact Eb|]. split.
    { rewrite Eb. rewrite Z.geb_leb.
      destruct (Z.leb_spec 8 bit); lia. }
    split; [exact Ep'|]. split.
    { intros Hb7.
      assert (Ebit : bit = OutputBit r + 1)
        by (unfold bit; apply Z.mod_small; lia).
      assert (Ege : (bit >=? 8) = (OutputBit r =? 7)).
      { rewrite Ebit, Z.geb_leb.
        destruct (Z.eqb_spec (OutputBit r) 7),
                 (Z.leb_spec 8 (OutputBit r + 1)); reflexivity || lia. }
      rewrite Eb, Ep', Ege, Ebit. split; [reflexivity|].
      split; [reflexivity|]. rewrite <- Hget. exact Ed. }
    split; [|exact Eo].
    intros E7. rewrite Ep', E7. rewrite andb_false_r. reflexivity.
  - intros val byte.
    destruct (reachable_serial_inv ct _
                (reach_Write _ ct r val byte Hreach)) as (_ & Hpos' & _).
    exact Hpos'.
  - intros Hcs Hb0 Hp7 Hbyte n.
    assert (E7 : array_get (Output r) 7 = Output r !!! 7%nat)
      by (rewrite <- Hp7, Hget, Hp7; reflexivity).
    destruct (over_read_repeats ct n r Hcs Hb0 Hp7
                ltac:(rewrite E7; exact Hbyte)) as (E & P & _).
    rewrite E, E7. split; [reflexivity | exact P].
Qed.

Lemma OutputPos_saturates_witness :
  OutputPos (DoSavestate false snapshot_last_byte power_on) = 7 /\
  snd (host_recv_bytes 0 3 (DoSavestate false snapshot_last_byte power_on))
    = [0xA5; 0xA5; 0xA5] /\
  OutputPos
    (fst (host_recv_bytes 0 3 (DoSavestate false snapshot_last_byte power_on)))
    = 7.
Proof.
  assert (Hreach : reachable output_cursor_in_buffer 0
                     (DoSavestate false snapshot_last_byte power_on)).
  { apply reach_DoSavestate.
    - exact (reach_Reset _ 0 _ (reach_Init _ 0 _ (reach_zero _ 0))).
    - unfold snapshot_typed, RTC_wf, StateData_wf. vm_compute.
      repeat split; congruence.
    - unfold output_cursor_in_buffer. vm_compute. split; congruence. }
  pose proof (OutputPos_saturates 0 _ Hreach) as H.
  destruct H as (_ & _ & _ & _ & _ & _ & H).
  destruct (H eq_refl eq_refl eq_refl
              ltac:(vm_compute; split; congruence) 3%nat) as [E P].
  split; [reflexivity|]. split; [exact E | exact P].
Defined.
